(** * Water / calorie tracking bot: goal calculator, daily ledger,
      temperature cache and conversation handlers of [bot.py].

    Modelling conventions.
    - Python [int] is [Z].  Python [float] is the IEEE-754 binary64
      numbers of [Module Double] ([SpecFloat] at precision 53) and is
      modelled at two levels.  Text is read as the code reads it, by
      [float(str)] with its rounding; [parse_int] is [int(float(str))].
      The handlers and the store are then embedded over the numbers
      that the finite doubles stand for, with exact arithmetic on [Q]:
      that level carries the properties that do not turn on how a sum
      or a product rounds (gates, frames, the rollover, the cache,
      precedence, integer arithmetic); an infinity or a NaN has no
      number there and [parse_float] turns it down.  The functions
      whose result turns on rounding are embedded again in
      [Module Rounded] over the doubles themselves, with infinities,
      NaN, signed zeros and the exceptions of [int()] and of mixed
      arithmetic; the properties of the arithmetic are stated there.
    - [None]-able dictionary entries are [option]s; Python truthiness
      ([not x], [all([...])], [a or b], [if x]) is the class [Truthy].
    - The process-wide dictionary [USERS] is a [gmap Z User]; a handler
      receives the store and returns the updated store, which accounts
      for the aliasing between [get_user]'s result and [USERS].
    - The clock ([date.today()], [datetime.utcnow()]) and the answers of
      the external services are explicit inputs of each handler; one
      handler run reads one date and one instant.
    - Strings are byte strings; [str.lower] and [str.strip], which act
      on Unicode text, are parameters of the handlers that call them.
    - Replies are structured values carrying the numbers that the
      source interpolates into its message templates. *)

From Stdlib Require Import ZArith QArith Qround String Ascii List Lia Bool.
From Stdlib Require Import SpecFloat.
From stdpp Require Import gmap strings list.

Local Open Scope Z_scope.

(** ** Python numerics *)

Module Py.

(** The [__bool__] protocol. *)
Class Truthy (A : Type) := truthy : A -> bool.

#[export] Instance truthy_int : Truthy Z := fun z => negb (z =? 0).
#[export] Instance truthy_float : Truthy Q := fun q => negb (Qeq_bool q 0).
#[export] Instance truthy_str : Truthy string :=
  fun s => match s with EmptyString => false | _ => true end.
#[export] Instance truthy_option {A} `{Truthy A} : Truthy (option A) :=
  fun o => match o with Some a => truthy a | None => false end.

(** [a or b] where [a] may be [None]. *)
Definition or_else {A} `{Truthy A} (a : option A) (b : A) : A :=
  match a with
  | Some x => if truthy x then x else b
  | None => b
  end.

(** [int(x)] on a float: truncation toward zero. *)
Definition int_of_float (q : Q) : Z := Z.quot (Qnum q) (Z.pos (Qden q)).

Definition Qlt_bool (a b : Q) : bool := negb (Qle_bool b a).

(** [max(x, 0)] on a float: the first argument unless [0] is larger. *)
Definition max0 (x : Q) : Q := if Qlt_bool x 0 then 0%Q else x.

(** [min(x, 500)]. *)
Definition min500 (x : Q) : Q := if Qlt_bool 500 x then 500%Q else x.

(** *** The pieces of a decimal literal

    White space, a sign, digit groups separated by single underscores
    and a decimal exponent, as [float(str)] reads them. *)

Definition is_space (c : ascii) : bool :=
  let n := nat_of_ascii c in
  ((9 <=? n)%nat && (n <=? 13)%nat) || (n =? 32)%nat.

Definition is_digit (c : ascii) : bool :=
  let n := nat_of_ascii c in (48 <=? n)%nat && (n <=? 57)%nat.

Definition digit_val (c : ascii) : Z := Z.of_nat (nat_of_ascii c) - 48.

(** Reads a digit group; returns its value, the number of digits read
    and the unread input. *)
Fixpoint digits (acc : Z) (n : nat) (l : list ascii) : Z * nat * list ascii :=
  match l with
  | c :: r =>
      if is_digit c then digits (10 * acc + digit_val c) (S n) r
      else if Ascii.eqb c "_" then
        match r with
        | d :: r' =>
            if is_digit d && (0 <? n)%nat
            then digits (10 * acc + digit_val d) (S n) r'
            else (acc, n, l)
        | [] => (acc, n, l)
        end
      else (acc, n, l)
  | [] => (acc, n, [])
  end.

Fixpoint lstrip (l : list ascii) : list ascii :=
  match l with
  | c :: r => if is_space c then lstrip r else l
  | [] => []
  end.

Definition read_sign (l : list ascii) : bool * list ascii :=
  match l with
  | c :: r =>
      if Ascii.eqb c "-" then (true, r)
      else if Ascii.eqb c "+" then (false, r)
      else (false, l)
  | [] => (false, [])
  end.

(** Optional exponent part; [None] when an exponent marker is not
    followed by digits. *)
Definition read_exponent (l : list ascii) : option (Z * list ascii) :=
  match l with
  | c :: r =>
      if Ascii.eqb c "e" || Ascii.eqb c "E" then
        let '(neg, r1) := read_sign r in
        let '(e, n, r2) := digits 0 0 r1 in
        if (0 <? n)%nat then Some (if neg then - e else e, r2) else None
      else Some (0, l)
  | [] => Some (0, [])
  end.

(** [s.replace(",", ".")]. *)
Fixpoint replace_comma (s : string) : string :=
  match s with
  | EmptyString => EmptyString
  | String c r =>
      String (if Ascii.eqb c "," then "."%char else c) (replace_comma r)
  end.

End Py.
Import Py.

(** ** Python [float] as IEEE-754 binary64

    Every operation is rounded to nearest, ties to even; there are
    infinities, a NaN and signed zeros.  A result [None] stands for an
    exception ([OverflowError], [ValueError]). *)

Module Double.

Definition float := spec_float.
Definition prec : Z := 53.
Definition emax : Z := 1024.

Definition mul : float -> float -> float := SFmul prec emax.
Definition add : float -> float -> float := SFadd prec emax.
Definition sub : float -> float -> float := SFsub prec emax.
Definition div : float -> float -> float := SFdiv prec emax.

Definition is_finite (x : float) : bool :=
  match x with
  | S754_zero _ | S754_finite _ _ _ => true
  | S754_infinity _ | S754_nan => false
  end.

(** The number a finite double stands for, as a reduced fraction. *)
Definition value (x : float) : Q :=
  match x with
  | S754_finite s m e =>
      let n := if s then Z.neg m else Z.pos m in
      if 0 <=? e then inject_Z (n * 2 ^ e)
      else Qred (Qmake n (Z.to_pos (2 ^ (- e))))
  | _ => 0%Q
  end.

(** An [int] literal or a small [int] as a double. *)
Definition lit (z : Z) : float := binary_normalize prec emax z 0 false.

(** The conversion of an [int] operand in mixed arithmetic; it raises
    [OverflowError] when the integer is too large. *)
Definition of_int (z : Z) : option float :=
  if is_finite (lit z) then Some (lit z) else None.

(** The double nearest to [n / d], with the given sign. *)
Definition of_ratio (neg : bool) (n d : positive) : float :=
  let '(q, e, l) := SFdiv_core_binary prec emax (Z.pos n) 0 (Z.pos d) 0 in
  binary_round_aux prec emax neg q e l.

(** [int(x)]: truncation toward zero; raises on an infinity or a NaN. *)
Definition to_int (x : float) : option Z :=
  if is_finite x then Some (int_of_float (value x)) else None.

(** [bool(x)]: false for the two zeros only. *)
#[global] Instance truthy_double : Truthy float :=
  fun x => match x with S754_zero _ => false | _ => true end.

(** [x > n] and [x <= n] against an [int]: exact, false on a NaN. *)
Definition gt_int (x : float) (n : Z) : bool :=
  match x with
  | S754_nan => false
  | S754_infinity s => negb s
  | _ => Qlt_bool (inject_Z n) (value x)
  end.

Definition le_int (x : float) (n : Z) : bool :=
  match x with
  | S754_nan => false
  | S754_infinity s => s
  | _ => Qle_bool (value x) (inject_Z n)
  end.

(** *** [float(str)] on ASCII text

    Leading and trailing white space, a sign, then one of the spellings
    of the infinities and of NaN in any letter case, or digit groups
    separated by single underscores with a fraction and a decimal
    exponent.  The value of the literal is rounded to the nearest
    double: overflow gives an infinity, underflow a zero.  Digits and
    spaces outside ASCII, which the built-in also takes, are not
    read. *)

Definition lower_char (c : ascii) : ascii :=
  let n := nat_of_ascii c in
  if (65 <=? n)%nat && (n <=? 90)%nat then ascii_of_nat (n + 32) else c.

Fixpoint rstrip_spaces (l : list ascii) : list ascii :=
  match l with
  | [] => []
  | c :: r =>
      match rstrip_spaces r with
      | [] => if is_space c then [] else [c]
      | r' => c :: r'
      end
  end.

Definition special (neg : bool) (l : list ascii) : option float :=
  let w := string_of_list_ascii (map lower_char l) in
  if String.eqb w "inf" || String.eqb w "infinity" then Some (S754_infinity neg)
  else if String.eqb w "nan" then Some S754_nan
  else None.

(** [m * 10^e] as a double. *)
Definition decimal (neg : bool) (m e : Z) : float :=
  match m with
  | Z.pos p =>
      if 0 <=? e then
        let n := m * 10 ^ e in
        binary_normalize prec emax (if neg then - n else n) 0 false
      else of_ratio neg p (Z.to_pos (10 ^ (- e)))
  | _ => S754_zero neg
  end.

Definition float_of_chars (l : list ascii) : option float :=
  let '(neg, l1) := read_sign (rstrip_spaces (lstrip l)) in
  match special neg l1 with
  | Some x => Some x
  | None =>
      let '(ip, n1, l2) := digits 0 0 l1 in
      let '(fp, n2, l3) :=
        match l2 with
        | c :: r => if Ascii.eqb c "." then digits ip 0 r else (ip, 0%nat, l2)
        | [] => (ip, 0%nat, l2)
        end in
      if (0 <? n1 + n2)%nat then
        match read_exponent l3 with
        | Some (e, []) => Some (decimal neg fp (e - Z.of_nat n2))
        | _ => None
        end
      else None
  end.

(** [float(s)]; [None] is [ValueError]. *)
Definition of_string (s : string) : option float :=
  float_of_chars (list_ascii_of_string s).

End Double.

(** ** Input parsing ([parse_float], [parse_int]) *)

(** The number read from a text at the level of exact arithmetic: the
    value of the double that [float(str)] returns.  [None] is a text
    that [float] turns down, and also an infinity or a NaN, which have
    no number in [Q] ([Rounded.parse_float] keeps them). *)
Definition parse_float (value : string) : option Q :=
  match Double.of_string (replace_comma value) with
  | Some x => if Double.is_finite x then Some (Double.value x) else None
  | None => None
  end.

Definition parse_int (value : string) : option Z :=
  match Double.of_string (replace_comma value) with
  | Some x => Double.to_int x
  | None => None
  end.

(** ** Data model *)

(** Days are ISO date strings ([date.today().isoformat()]); instants are
    microseconds on the UTC time line ([datetime.utcnow()]). *)
Definition Date := string.
Definition Time := Z.

Inductive Kind := water | food | workout.

Record Event := mkEvent { ts : Time; kind : Kind; amount : Q }.

(** One entry of [USERS]; the field names are the dictionary keys. *)
Record User := mkUser {
  weight : option Q;
  height : option Z;
  age : option Z;
  sex : option string;
  activity : option Z;
  city : option string;
  manual_calorie_goal : option Z;
  logged_water : Z;
  logged_calories : Q;
  burned_calories : Z;
  history : list Event;
  last_temp : option Q;
  last_temp_ts : option Time;
  last_date : Date
}.

(** Item assignments [user["key"] = v]. *)
Definition set_weight_field (v : option Q) (u : User) : User :=
  mkUser v (height u) (age u) (sex u) (activity u) (city u)
    (manual_calorie_goal u) (logged_water u) (logged_calories u)
    (burned_calories u) (history u) (last_temp u) (last_temp_ts u) (last_date u).
Definition set_height_field (v : option Z) (u : User) : User :=
  mkUser (weight u) v (age u) (sex u) (activity u) (city u)
    (manual_calorie_goal u) (logged_water u) (logged_calories u)
    (burned_calories u) (history u) (last_temp u) (last_temp_ts u) (last_date u).
Definition set_age_field (v : option Z) (u : User) : User :=
  mkUser (weight u) (height u) v (sex u) (activity u) (city u)
    (manual_calorie_goal u) (logged_water u) (logged_calories u)
    (burned_calories u) (history u) (last_temp u) (last_temp_ts u) (last_date u).
Definition set_activity_field (v : option Z) (u : User) : User :=
  mkUser (weight u) (height u) (age u) (sex u) v (city u)
    (manual_calorie_goal u) (logged_water u) (logged_calories u)
    (burned_calories u) (history u) (last_temp u) (last_temp_ts u) (last_date u).
Definition set_manual_field (v : option Z) (u : User) : User :=
  mkUser (weight u) (height u) (age u) (sex u) (activity u) (city u)
    v (logged_water u) (logged_calories u)
    (burned_calories u) (history u) (last_temp u) (last_temp_ts u) (last_date u).
Definition set_logged_water (v : Z) (u : User) : User :=
  mkUser (weight u) (height u) (age u) (sex u) (activity u) (city u)
    (manual_calorie_goal u) v (logged_calories u)
    (burned_calories u) (history u) (last_temp u) (last_temp_ts u) (last_date u).
Definition set_logged_calories (v : Q) (u : User) : User :=
  mkUser (weight u) (height u) (age u) (sex u) (activity u) (city u)
    (manual_calorie_goal u) (logged_water u) v
    (burned_calories u) (history u) (last_temp u) (last_temp_ts u) (last_date u).
Definition set_burned_calories (v : Z) (u : User) : User :=
  mkUser (weight u) (height u) (age u) (sex u) (activity u) (city u)
    (manual_calorie_goal u) (logged_water u) (logged_calories u)
    v (history u) (last_temp u) (last_temp_ts u) (last_date u).
Definition set_history (v : list Event) (u : User) : User :=
  mkUser (weight u) (height u) (age u) (sex u) (activity u) (city u)
    (manual_calorie_goal u) (logged_water u) (logged_calories u)
    (burned_calories u) v (last_temp u) (last_temp_ts u) (last_date u).
Definition set_last_temp (v : option Q) (u : User) : User :=
  mkUser (weight u) (height u) (age u) (sex u) (activity u) (city u)
    (manual_calorie_goal u) (logged_water u) (logged_calories u)
    (burned_calories u) (history u) v (last_temp_ts u) (last_date u).
Definition set_last_temp_ts (v : option Time) (u : User) : User :=
  mkUser (weight u) (height u) (age u) (sex u) (activity u) (city u)
    (manual_calorie_goal u) (logged_water u) (logged_calories u)
    (burned_calories u) (history u) (last_temp u) v (last_date u).
Definition set_last_date (v : Date) (u : User) : User :=
  mkUser (weight u) (height u) (age u) (sex u) (activity u) (city u)
    (manual_calorie_goal u) (logged_water u) (logged_calories u)
    (burned_calories u) (history u) (last_temp u) (last_temp_ts u) v.

(** The default record of [USERS.setdefault]. *)
Definition new_user (today : Date) : User :=
  mkUser None None None None None None None 0 0%Q 0 [] None None today.

(** The five assignments of the rollover branch of [get_user], also the
    body of [reset_day]. *)
Definition clear_day (today : Date) (u : User) : User :=
  set_last_date today
    (set_history []
       (set_burned_calories 0
          (set_logged_calories 0%Q
             (set_logged_water 0 u)))).

(** ** The user store ([get_user]) *)

(** Returns the resolved record and the store in which it lives. *)
Definition get_user (today : Date) (user_id : Z) (USERS : gmap Z User)
  : User * gmap Z User :=
  let user := default (new_user today) (USERS !! user_id) in
  let user := if decide (last_date user <> today) then clear_day today user
              else user in
  (user, <[user_id := user]> USERS).

(** ** Goal calculator *)

Definition calc_water_goal (weight : option Q) (activity : option Z)
    (temp_c : option Q) : Z :=
  match weight with
  | None => 0
  | Some w =>
      if negb (truthy w) then 0
      else
        let base := (w * 30)%Q in
        let activity_bonus :=
          match activity with
          | Some a => if truthy a then (a / 30) * 500 else 0
          | None => 0
          end in
        let heat_bonus :=
          match temp_c with
          | Some t =>
              if Qlt_bool 30 t then 1000
              else if Qlt_bool 25 t then 500
              else 0
          | None => 0
          end in
        int_of_float (base + inject_Z activity_bonus + inject_Z heat_bonus)%Q
  end.

Definition calc_calorie_goal (weight : option Q) (height age : option Z)
    (sex : option string) (activity : option Z) : Z :=
  match weight, height, age with
  | Some w, Some h, Some a =>
      if negb (truthy w && truthy h && truthy a) then 0
      else
        let s :=
          if decide (sex = Some "male"%string) then 5
          else if decide (sex = Some "female"%string) then -161
          else 0 in
        let bmr :=
          (10 * w + (625 # 100) * inject_Z h - inject_Z (5 * a) + inject_Z s)%Q in
        let activity_bonus :=
          match activity with
          | Some m => if truthy m then (m / 30) * 100 else 0
          | None => 0
          end in
        int_of_float (bmr + inject_Z activity_bonus)%Q
  | _, _, _ => 0
  end.

(** ** Conversation states and replies *)

(** [ConversationHandler.END] or the next state of the flow. *)
Inductive conv (S : Type) :=
| Next (s : S)
| END.
Arguments Next {S} s.
Arguments END {S}.

Inductive ProfileState :=
| WEIGHT | HEIGHT | AGE | SEX | ACTIVITY | CITY | MANUAL_CALORIES
| CALORIES_VALUE.

Inductive FoodState := FOOD_NAME | FOOD_KCAL_MANUAL | FOOD_GRAMS.

(** [context.user_data] of the food flow. *)
Record UserData := mkUserData {
  food_name : option string;
  food_kcal : option Q
}.

(** The messages sent with [reply_text] / [reply_photo], one constructor
    per template, with the interpolated values. *)
Inductive Reply :=
| MsgBadWeight | MsgAskHeight
| MsgBadHeight | MsgAskAge
| MsgBadAge | MsgAskSex
| MsgBadActivity | MsgAskCity
| MsgAskCalories | MsgBadCalories | MsgProfileSaved
| MsgProfileEmpty
| MsgProfile (w : option Q) (h a act : option Z) (c : option string)
    (water_goal calorie_goal : Z)
| MsgFillProfile
| MsgWaterUsage | MsgBadWater
| MsgWaterLogged (amount remaining : Z)
| MsgFoodFound (name : string) (kcal : Q)
| MsgAskKcal | MsgAskFoodName | MsgAskKcalAgain | MsgAskGrams
| MsgAskGramsAgain | MsgFoodFailed
| MsgFoodLogged (name : option string) (consumed : Q)
| MsgWorkoutUsage | MsgBadMinutes
| MsgWorkout (workout_type : string) (minutes burned : Z)
    (extra_water : option Z)
| MsgProgress (temp : option Q) (drunk water_goal water_left : Z)
    (eaten calorie_goal burned balance calories_left : Z)
| MsgNoPlotData
| MsgPlot (times : list Time) (water_series calorie_series : list Q)
    (water_goal calorie_goal : Z)
| MsgRecommend (drink : option Z) (calories_left : option Z)
| MsgDayReset.

(** ** External services *)

(** What [requests.get] to the weather service and the decoding of its
    body come to: an exception anywhere inside the [try] block, or a
    status code with the value found at [main.temp] (if any). *)
Inductive weather_reply :=
| WeatherRaises
| WeatherResponse (status_code : Z) (temp : option Q).

(** One element of [products] in the answer of the food service. *)
Record Product := mkProduct {
  energy_kcal_100g : option Q;
  energy_100g : option Q;
  energy_unit : option string;
  energy_unit_dash : option string;
  product_name : option string;
  product_name_ru : option string
}.

Inductive food_reply :=
| FoodRaises
| FoodResponse (status_code : Z) (products : list Product).

Record FoodInfo := mkFoodInfo { name : string; kcal_per_100g : Q }.

(** [timedelta(minutes=30)]. *)
Definition half_hour : Z := 30 * 60 * 1000000.

(** [a or b] on two optional strings. *)
Definition or_opt (a b : option string) : option string :=
  if truthy a then a else b.

(** [" ".join(l)]. *)
Fixpoint join_space (l : list string) : string :=
  match l with
  | [] => ""
  | [x] => x
  | x :: r => x +:+ " " +:+ join_space r
  end.

Definition WORKOUT_KCAL_PER_MIN : gmap string Z :=
  list_to_map
    [("–±–µ–≥"%string, 10); ("—Ö–æ–¥—å–±–∞"%string, 4);
     ("–≤–µ–ª–æ—Å–∏–ø–µ–¥"%string, 7); ("–ø–ª–∞–≤–∞–Ω–∏–µ"%string, 8);
     ("—Å–∏–ª–æ–≤–∞—è"%string, 6); ("–π–æ–≥–∞"%string, 3)].

(** ** Profile gate and history *)

Definition ensure_profile (user : User) : bool :=
  truthy (weight user) && truthy (height user) && truthy (age user)
  && truthy (activity user).

Definition log_history (now : Time) (k : Kind) (amt : Q) (user : User) : User :=
  set_history (history user ++ [mkEvent now k amt]) user.

(** Running totals of [plot_progress]. *)
Fixpoint plot_series (w_total c_total : Q) (h : list Event)
  : list Time * list Q * list Q :=
  match h with
  | [] => ([], [], [])
  | e :: r =>
      let w_total := match kind e with
                     | water => (w_total + amount e)%Q
                     | _ => w_total
                     end in
      let c_total := match kind e with
                     | food => (c_total + amount e)%Q
                     | workout => (c_total - amount e)%Q
                     | water => c_total
                     end in
      let '(times, ws, cs) := plot_series w_total c_total r in
      (ts e :: times, w_total :: ws, c_total :: cs)
  end.

Section Bot.
(** [os.getenv("OWM_API_KEY")]. *)
Variable OWM_API_KEY : option string.
(** The built-in [str.lower] and [str.strip]. *)
Variable str_lower : string -> string.
Variable str_strip : string -> string.

(** *** Temperature cache ([get_temperature])

    Returns the temperature, the record after the call and the list
    of requests sent to the weather service (the cities queried). *)
Definition get_temperature (now : Time) (resp : weather_reply)
    (city : option string) (user : User)
  : option Q * User * list string :=
  if negb (truthy city) || negb (truthy OWM_API_KEY) then (None, user, [])
  else
    let fresh :=
      match last_temp_ts user with
      | Some last_ts => now - last_ts <? half_hour
      | None => false
      end in
    if fresh then (last_temp user, user, [])
    else
      let sent := [default ""%string city] in
      match resp with
      | WeatherResponse status (Some temp) =>
          if status =? 200 then
            (Some temp,
             set_last_temp_ts (Some now) (set_last_temp (Some temp) user),
             sent)
          else (None, user, sent)
      | WeatherResponse _ None => (None, user, sent)
      | WeatherRaises => (None, user, sent)
      end.

(** *** Food lookup ([fetch_food_kcal]) *)

Definition product_kcal (p : Product) : option Q :=
  match energy_kcal_100g p with
  | Some kcal => Some kcal
  | None =>
      let unit := or_opt (energy_unit p) (energy_unit_dash p) in
      match energy_100g p, unit with
      | Some e, Some u =>
          if truthy u then
            if decide (str_lower u = "kj"%string) then Some (e / (4184 # 1000))%Q
            else if decide (str_lower u = "kcal"%string) then Some e
            else if decide (str_lower u = "cal"%string) then Some e
            else None
          else None
      | _, _ => None
      end
  end.

Fixpoint first_usable (asked : string) (products : list Product)
  : option FoodInfo :=
  match products with
  | [] => None
  | p :: r =>
      match product_kcal p with
      | Some kcal =>
          let n := or_opt (or_opt (product_name p) (product_name_ru p))
                     (Some asked) in
          Some (mkFoodInfo (default asked n) kcal)
      | None => first_usable asked r
      end
  end.

Definition fetch_food_kcal (asked : string) (resp : food_reply)
  : option FoodInfo :=
  match resp with
  | FoodRaises => None
  | FoodResponse status products =>
      if negb (status =? 200) then None
      else first_usable asked products
  end.

(** *** Profile flow *)

Definition set_weight (today : Date) (uid : Z) (text : string)
    (USERS : gmap Z User) : conv ProfileState * Reply * gmap Z User :=
  match parse_float text with
  | None => (Next WEIGHT, MsgBadWeight, USERS)
  | Some w =>
      if negb (truthy w) || Qle_bool w 0 then (Next WEIGHT, MsgBadWeight, USERS)
      else
        let '(user, USERS) := get_user today uid USERS in
        (Next HEIGHT, MsgAskHeight,
         <[uid := set_weight_field (Some w) user]> USERS)
  end.

Definition set_height (today : Date) (uid : Z) (text : string)
    (USERS : gmap Z User) : conv ProfileState * Reply * gmap Z User :=
  match parse_int text with
  | None => (Next HEIGHT, MsgBadHeight, USERS)
  | Some h =>
      if negb (truthy h) || (h <=? 0) then (Next HEIGHT, MsgBadHeight, USERS)
      else
        let '(user, USERS) := get_user today uid USERS in
        (Next AGE, MsgAskAge, <[uid := set_height_field (Some h) user]> USERS)
  end.

Definition set_age (today : Date) (uid : Z) (text : string)
    (USERS : gmap Z User) : conv ProfileState * Reply * gmap Z User :=
  match parse_int text with
  | None => (Next AGE, MsgBadAge, USERS)
  | Some a =>
      if negb (truthy a) || (a <=? 0) then (Next AGE, MsgBadAge, USERS)
      else
        let '(user, USERS) := get_user today uid USERS in
        (Next SEX, MsgAskSex, <[uid := set_age_field (Some a) user]> USERS)
  end.

Definition set_activity (today : Date) (uid : Z) (text : string)
    (USERS : gmap Z User) : conv ProfileState * Reply * gmap Z User :=
  match parse_int text with
  | None => (Next ACTIVITY, MsgBadActivity, USERS)
  | Some a =>
      if a <? 0 then (Next ACTIVITY, MsgBadActivity, USERS)
      else
        let '(user, USERS) := get_user today uid USERS in
        (Next CITY, MsgAskCity,
         <[uid := set_activity_field (Some a) user]> USERS)
  end.

Definition set_manual_choice (today : Date) (uid : Z) (text : string)
    (USERS : gmap Z User) : conv ProfileState * Reply * gmap Z User :=
  let text := str_lower (str_strip text) in
  if bool_decide (text ∈ ["–¥–∞"; "yes"; "y"]%string)
  then (Next CALORIES_VALUE, MsgAskCalories, USERS)
  else
    let '(user, USERS) := get_user today uid USERS in
    (END, MsgProfileSaved, <[uid := set_manual_field None user]> USERS).

Definition set_manual_calories (today : Date) (uid : Z) (text : string)
    (USERS : gmap Z User) : conv ProfileState * Reply * gmap Z User :=
  match parse_int text with
  | None => (Next CALORIES_VALUE, MsgBadCalories, USERS)
  | Some v =>
      if negb (truthy v) || (v <=? 0)
      then (Next CALORIES_VALUE, MsgBadCalories, USERS)
      else
        let '(user, USERS) := get_user today uid USERS in
        (END, MsgProfileSaved, <[uid := set_manual_field (Some v) user]> USERS)
  end.

(** *** Stateless commands *)

Definition show_profile (today : Date) (now : Time) (resp : weather_reply)
    (uid : Z) (USERS : gmap Z User) : Reply * gmap Z User :=
  let '(user, USERS) := get_user today uid USERS in
  if negb (ensure_profile user) then (MsgProfileEmpty, USERS)
  else
    let '(temp, user, _) := get_temperature now resp (city user) user in
    let water_goal := calc_water_goal (weight user) (activity user) temp in
    let calorie_goal :=
      or_else (manual_calorie_goal user)
        (calc_calorie_goal (weight user) (height user) (age user) (sex user)
           (activity user)) in
    (MsgProfile (weight user) (height user) (age user) (activity user)
       (city user) water_goal calorie_goal,
     <[uid := user]> USERS).

Definition log_water (today : Date) (now : Time) (resp : weather_reply)
    (uid : Z) (args : list string) (USERS : gmap Z User)
  : Reply * gmap Z User :=
  let '(user, USERS) := get_user today uid USERS in
  if negb (ensure_profile user) then (MsgFillProfile, USERS)
  else
    match args with
    | [] => (MsgWaterUsage, USERS)
    | arg0 :: _ =>
        match parse_int arg0 with
        | None => (MsgBadWater, USERS)
        | Some amount =>
            if negb (truthy amount) || (amount <=? 0) then (MsgBadWater, USERS)
            else
              let user := set_logged_water (logged_water user + amount) user in
              let user := log_history now water (inject_Z amount) user in
              let '(temp, user, _) :=
                get_temperature now resp (city user) user in
              let water_goal :=
                calc_water_goal (weight user) (activity user) temp in
              let remaining := Z.max (water_goal - logged_water user) 0 in
              (MsgWaterLogged amount remaining, <[uid := user]> USERS)
        end
    end.

Definition log_workout (today : Date) (now : Time) (uid : Z)
    (args : list string) (USERS : gmap Z User) : Reply * gmap Z User :=
  let '(user, USERS) := get_user today uid USERS in
  if negb (ensure_profile user) then (MsgFillProfile, USERS)
  else if (length args <? 2)%nat then (MsgWorkoutUsage, USERS)
  else
    let workout_type := str_lower (join_space (removelast args)) in
    match parse_int (List.last args ""%string) with
    | None => (MsgBadMinutes, USERS)
    | Some minutes =>
        if negb (truthy minutes) || (minutes <=? 0) then (MsgBadMinutes, USERS)
        else
          let kcal_per_min :=
            default 6 (WORKOUT_KCAL_PER_MIN !! workout_type) in
          let burned := kcal_per_min * minutes in
          let user :=
            set_burned_calories (burned_calories user + burned) user in
          let user := log_history now workout (inject_Z burned) user in
          let extra_water := (minutes / 30) * 200 in
          (MsgWorkout workout_type minutes burned
             (if truthy extra_water then Some extra_water else None),
           <[uid := user]> USERS)
    end.

Definition check_progress (today : Date) (now : Time) (resp : weather_reply)
    (uid : Z) (USERS : gmap Z User) : Reply * gmap Z User :=
  let '(user, USERS) := get_user today uid USERS in
  if negb (ensure_profile user) then (MsgFillProfile, USERS)
  else
    let '(temp, user, _) := get_temperature now resp (city user) user in
    let water_goal := calc_water_goal (weight user) (activity user) temp in
    let calorie_goal :=
      or_else (manual_calorie_goal user)
        (calc_calorie_goal (weight user) (height user) (age user) (sex user)
           (activity user)) in
    let water_left := Z.max (water_goal - logged_water user) 0 in
    let calories_left :=
      max0 (inject_Z calorie_goal - logged_calories user)%Q in
    let balance :=
      (logged_calories user - inject_Z (burned_calories user))%Q in
    (MsgProgress temp (logged_water user) water_goal water_left
       (int_of_float (logged_calories user)) calorie_goal
       (burned_calories user) (int_of_float balance)
       (int_of_float calories_left),
     <[uid := user]> USERS).

Definition plot_progress (today : Date) (now : Time) (resp : weather_reply)
    (uid : Z) (USERS : gmap Z User) : Reply * gmap Z User :=
  let '(user, USERS) := get_user today uid USERS in
  if negb (ensure_profile user) then (MsgFillProfile, USERS)
  else
    let '(temp, user, _) := get_temperature now resp (city user) user in
    let water_goal := calc_water_goal (weight user) (activity user) temp in
    let calorie_goal :=
      or_else (manual_calorie_goal user)
        (calc_calorie_goal (weight user) (height user) (age user) (sex user)
           (activity user)) in
    let '(times, ws, cs) := plot_series 0%Q 0%Q (history user) in
    match times with
    | [] => (MsgNoPlotData, <[uid := user]> USERS)
    | _ :: _ =>
        (MsgPlot times ws cs water_goal calorie_goal, <[uid := user]> USERS)
    end.

Definition recommend (today : Date) (now : Time) (resp : weather_reply)
    (uid : Z) (USERS : gmap Z User) : Reply * gmap Z User :=
  let '(user, USERS) := get_user today uid USERS in
  if negb (ensure_profile user) then (MsgFillProfile, USERS)
  else
    let '(temp, user, _) := get_temperature now resp (city user) user in
    let water_goal := calc_water_goal (weight user) (activity user) temp in
    let calorie_goal :=
      or_else (manual_calorie_goal user)
        (calc_calorie_goal (weight user) (height user) (age user) (sex user)
           (activity user)) in
    let water_left := Z.max (water_goal - logged_water user) 0 in
    let calorie_left :=
      max0 (inject_Z calorie_goal - logged_calories user)%Q in
    (MsgRecommend
       (if 0 <? water_left then Some (Z.min water_left 500) else None)
       (if Qlt_bool 0 calorie_left then Some (int_of_float calorie_left)
        else None),
     <[uid := user]> USERS).

Definition reset_day (today : Date) (uid : Z) (USERS : gmap Z User)
  : Reply * gmap Z User :=
  let '(user, USERS) := get_user today uid USERS in
  let user := set_logged_water 0 user in
  let user := set_logged_calories 0%Q user in
  let user := set_burned_calories 0 user in
  let user := set_history [] user in
  let user := set_last_date today user in
  (MsgDayReset, <[uid := user]> USERS).

(** *** Food flow *)

Definition food_lookup_step (asked : string) (food_resp : food_reply)
    (data : UserData) : conv FoodState * Reply * UserData :=
  let data := mkUserData (Some asked) (food_kcal data) in
  match fetch_food_kcal asked food_resp with
  | Some f =>
      (Next FOOD_GRAMS, MsgFoodFound (name f) (kcal_per_100g f),
       mkUserData (food_name data) (Some (kcal_per_100g f)))
  | None => (Next FOOD_KCAL_MANUAL, MsgAskKcal, data)
  end.

Definition log_food_start (today : Date) (uid : Z) (args : list string)
    (food_resp : food_reply) (data : UserData) (USERS : gmap Z User)
  : conv FoodState * Reply * UserData * gmap Z User :=
  let '(user, USERS) := get_user today uid USERS in
  if negb (ensure_profile user) then (END, MsgFillProfile, data, USERS)
  else
    match args with
    | _ :: _ =>
        (food_lookup_step (str_strip (join_space args)) food_resp data, USERS)
    | [] => (Next FOOD_NAME, MsgAskFoodName, data, USERS)
    end.

Definition log_food_name (text : string) (food_resp : food_reply)
    (data : UserData) : conv FoodState * Reply * UserData :=
  food_lookup_step (str_strip text) food_resp data.

Definition log_food_kcal_manual (text : string) (data : UserData)
  : conv FoodState * Reply * UserData :=
  match parse_float text with
  | None => (Next FOOD_KCAL_MANUAL, MsgAskKcalAgain, data)
  | Some kcal =>
      if Qle_bool kcal 0 then (Next FOOD_KCAL_MANUAL, MsgAskKcalAgain, data)
      else (Next FOOD_GRAMS, MsgAskGrams, mkUserData (food_name data) (Some kcal))
  end.

Definition log_food_grams (today : Date) (now : Time) (uid : Z)
    (text : string) (data : UserData) (USERS : gmap Z User)
  : conv FoodState * Reply * UserData * gmap Z User :=
  match parse_float text with
  | None => (Next FOOD_GRAMS, MsgAskGramsAgain, data, USERS)
  | Some grams =>
      if Qle_bool grams 0 then (Next FOOD_GRAMS, MsgAskGramsAgain, data, USERS)
      else
        let '(user, USERS) := get_user today uid USERS in
        match food_kcal data with
        | None => (END, MsgFoodFailed, data, USERS)
        | Some kcal_per_100 =>
            let consumed := (kcal_per_100 * grams / 100)%Q in
            let user :=
              set_logged_calories (logged_calories user + consumed)%Q user in
            let user := log_history now food consumed user in
            (END, MsgFoodLogged (food_name data) consumed,
             mkUserData None None, <[uid := user]> USERS)
        end
  end.

Definition log_food_cancel (data : UserData) : conv FoodState * UserData :=
  (END, mkUserData None None).

End Bot.

(** ** The remaining handlers of the profile flow and its wiring *)

(** The prompts and notices of the handlers below. *)
Inductive Notice :=
| MsgStart | MsgHelp
| MsgAskWeight | MsgAskActivity | MsgAskManualChoice
| MsgProfileCancelled | MsgFoodCancelled.

Definition set_sex_field (v : option string) (u : User) : User :=
  mkUser (weight u) (height u) (age u) v (activity u) (city u)
    (manual_calorie_goal u) (logged_water u) (logged_calories u)
    (burned_calories u) (history u) (last_temp u) (last_temp_ts u) (last_date u).

Definition set_city_field (v : option string) (u : User) : User :=
  mkUser (weight u) (height u) (age u) (sex u) (activity u) v
    (manual_calorie_goal u) (logged_water u) (logged_calories u)
    (burned_calories u) (history u) (last_temp u) (last_temp_ts u) (last_date u).

Section Flows.
(** The built-in [str.lower] and [str.strip]. *)
Variable str_lower : string -> string.
Variable str_strip : string -> string.

Definition normalize_sex (text : string) : option string :=
  let t := str_lower (str_strip text) in
  if bool_decide (t ∈ ["m"; "male"; "–º"; "–º—É–∂"; "–º—É–∂—á–∏–Ω–∞"]%string)
  then Some "male"%string
  else if bool_decide (t ∈ ["f"; "female"; "–∂"; "–∂–µ–Ω"; "–∂–µ–Ω—â–∏–Ω–∞"]%string)
  then Some "female"%string
  else None.

Definition start : Notice := MsgStart.

Definition help_command : Notice := MsgHelp.

Definition set_profile : conv ProfileState * Notice := (Next WEIGHT, MsgAskWeight).

Definition set_sex (today : Date) (uid : Z) (text : string)
    (USERS : gmap Z User) : conv ProfileState * Notice * gmap Z User :=
  let text := str_strip text in
  let sex := if decide (text <> "-"%string) then normalize_sex text else None in
  let '(user, USERS) := get_user today uid USERS in
  (Next ACTIVITY, MsgAskActivity, <[uid := set_sex_field sex user]> USERS).

Definition set_city (today : Date) (uid : Z) (text : string)
    (USERS : gmap Z User) : conv ProfileState * Notice * gmap Z User :=
  let city := str_strip text in
  let '(user, USERS) := get_user today uid USERS in
  (Next MANUAL_CALORIES, MsgAskManualChoice,
   <[uid := set_city_field (Some city) user]> USERS).

Definition cancel_profile : conv ProfileState * Notice := (END, MsgProfileCancelled).

(** The [states] table of [profile_conv] in [main]: the handler that
    takes the next text message in each state.  Only the next state and
    the store are kept. *)
Definition profile_step (s : ProfileState) (today : Date) (uid : Z)
    (text : string) (USERS : gmap Z User) : conv ProfileState * gmap Z User :=
  match s with
  | WEIGHT => let r := set_weight today uid text USERS in (r.1.1, r.2)
  | HEIGHT => let r := set_height today uid text USERS in (r.1.1, r.2)
  | AGE => let r := set_age today uid text USERS in (r.1.1, r.2)
  | SEX => let r := set_sex today uid text USERS in (r.1.1, r.2)
  | ACTIVITY => let r := set_activity today uid text USERS in (r.1.1, r.2)
  | CITY => let r := set_city today uid text USERS in (r.1.1, r.2)
  | MANUAL_CALORIES =>
      let r := set_manual_choice str_lower str_strip today uid text USERS in
      (r.1.1, r.2)
  | CALORIES_VALUE =>
      let r := set_manual_calories today uid text USERS in (r.1.1, r.2)
  end.

(** A conversation fed with successive text messages, from the state the
    entry point [set_profile] returns; texts that arrive after the
    conversation has ended are not handled. *)
Fixpoint run_profile (s : conv ProfileState) (today : Date) (uid : Z)
    (texts : list string) (USERS : gmap Z User)
  : conv ProfileState * gmap Z User :=
  match s, texts with
  | Next st, text :: rest =>
      let '(s', USERS') := profile_step st today uid text USERS in
      run_profile s' today uid rest USERS'
  | _, _ => (s, USERS)
  end.

End Flows.

(** The state numbers ([range(8)], [range(3)]). *)
Definition profile_state_number (s : ProfileState) : Z :=
  match s with
  | WEIGHT => 0 | HEIGHT => 1 | AGE => 2 | SEX => 3 | ACTIVITY => 4
  | CITY => 5 | MANUAL_CALORIES => 6 | CALORIES_VALUE => 7
  end.

Definition food_state_number (s : FoodState) : Z :=
  match s with
  | FOOD_NAME => 0 | FOOD_KCAL_MANUAL => 1 | FOOD_GRAMS => 2
  end.


(** * The arithmetic in double precision

    The functions whose result turns on rounding or on a value that is
    not finite, embedded again over the doubles: the goal calculator,
    the weight prompt and the food conversation with the ledger
    entries it writes.  A result [None] of a function that
    returns [option] stands for an exception that the source lets
    escape. *)

Module Rounded.

Import Double.

Definition parse_float (value : string) : option float :=
  of_string (replace_comma value).

(** ** Goal calculator *)

Definition calc_water_goal (weight : option float) (activity : option Z)
    (temp_c : option float) : option Z :=
  match weight with
  | None => Some 0
  | Some w =>
      if negb (truthy w) then Some 0
      else
        let base := mul w (lit 30) in
        let activity_bonus :=
          match activity with
          | Some a => if truthy a then (a / 30) * 500 else 0
          | None => 0
          end in
        let heat_bonus :=
          match temp_c with
          | Some t =>
              if gt_int t 30 then 1000
              else if gt_int t 25 then 500
              else 0
          | None => 0
          end in
        match of_int activity_bonus with
        | Some b => to_int (add (add base b) (lit heat_bonus))
        | None => None
        end
  end.

Definition calc_calorie_goal (weight : option float) (height age : option Z)
    (sex : option string) (activity : option Z) : option Z :=
  match weight, height, age with
  | Some w, Some h, Some a =>
      if negb (truthy w && truthy h && truthy a) then Some 0
      else
        let s :=
          if decide (sex = Some "male"%string) then 5
          else if decide (sex = Some "female"%string) then -161
          else 0 in
        let activity_bonus :=
          match activity with
          | Some m => if truthy m then (m / 30) * 100 else 0
          | None => 0
          end in
        match of_int h, of_int (5 * a), of_int activity_bonus with
        | Some fh, Some fa, Some fb =>
            let bmr :=
              add (sub (add (mul (lit 10) w) (mul (of_ratio false 625 100) fh))
                     fa)
                (lit s) in
            to_int (add bmr fb)
        | _, _, _ => None
        end
  | _, _, _ => Some 0
  end.

(** ** The ledger and the food conversation *)

(** A dictionary entry that holds an [int] or a [float]. *)
Inductive num :=
| Int (z : Z)
| Flt (x : float).

(** The operand as mixed arithmetic sees it. *)
Definition as_float (n : num) : option float :=
  match n with
  | Int z => of_int z
  | Flt x => Some x
  end.

Record Event := mkEvent { ts : Time; kind : Kind; amount : num }.

Record User := mkUser {
  weight : option float;
  height : option Z;
  age : option Z;
  sex : option string;
  activity : option Z;
  city : option string;
  manual_calorie_goal : option Z;
  logged_water : Z;
  logged_calories : num;
  burned_calories : Z;
  history : list Event;
  last_temp : option float;
  last_temp_ts : option Time;
  last_date : Date
}.

Definition set_weight_field (v : option float) (u : User) : User :=
  mkUser v (height u) (age u) (sex u) (activity u) (city u)
    (manual_calorie_goal u) (logged_water u) (logged_calories u)
    (burned_calories u) (history u) (last_temp u) (last_temp_ts u) (last_date u).

Definition set_logged_calories (v : num) (u : User) : User :=
  mkUser (weight u) (height u) (age u) (sex u) (activity u) (city u)
    (manual_calorie_goal u) (logged_water u) v
    (burned_calories u) (history u) (last_temp u) (last_temp_ts u) (last_date u).

Definition set_history (v : list Event) (u : User) : User :=
  mkUser (weight u) (height u) (age u) (sex u) (activity u) (city u)
    (manual_calorie_goal u) (logged_water u) (logged_calories u)
    (burned_calories u) v (last_temp u) (last_temp_ts u) (last_date u).

Definition new_user (today : Date) : User :=
  mkUser None None None None None None None 0 (Int 0) 0 [] None None today.

Definition clear_day (today : Date) (u : User) : User :=
  mkUser (weight u) (height u) (age u) (sex u) (activity u) (city u)
    (manual_calorie_goal u) 0 (Int 0) 0 [] (last_temp u) (last_temp_ts u) today.

Definition get_user (today : Date) (user_id : Z) (USERS : gmap Z User)
  : User * gmap Z User :=
  let user := default (new_user today) (USERS !! user_id) in
  let user := if decide (last_date user <> today) then clear_day today user
              else user in
  (user, <[user_id := user]> USERS).

Definition log_history (now : Time) (k : Kind) (amt : num) (user : User) : User :=
  set_history (history user ++ [mkEvent now k amt]) user.

Record UserData := mkUserData {
  food_name : option string;
  food_kcal : option float
}.

Inductive Reply :=
| MsgBadWeight | MsgAskHeight
| MsgFoodFound (name : string) (kcal : float)
| MsgAskKcal | MsgAskKcalAgain | MsgAskGrams | MsgAskGramsAgain
| MsgFoodFailed
| MsgFoodLogged (name : option string) (consumed : float).

Record Product := mkProduct {
  energy_kcal_100g : option float;
  energy_100g : option float;
  energy_unit : option string;
  energy_unit_dash : option string;
  product_name : option string;
  product_name_ru : option string
}.

Inductive food_reply :=
| FoodRaises
| FoodResponse (status_code : Z) (products : list Product).

Record FoodInfo := mkFoodInfo { name : string; kcal_per_100g : float }.

Section Food.
Variable str_lower : string -> string.
Variable str_strip : string -> string.

Definition product_kcal (p : Product) : option float :=
  match energy_kcal_100g p with
  | Some kcal => Some kcal
  | None =>
      let unit := or_opt (energy_unit p) (energy_unit_dash p) in
      match energy_100g p, unit with
      | Some e, Some u =>
          if truthy u then
            if decide (str_lower u = "kj"%string)
            then Some (div e (of_ratio false 4184 1000))
            else if decide (str_lower u = "kcal"%string) then Some e
            else if decide (str_lower u = "cal"%string) then Some e
            else None
          else None
      | _, _ => None
      end
  end.

Fixpoint first_usable (asked : string) (products : list Product)
  : option FoodInfo :=
  match products with
  | [] => None
  | p :: r =>
      match product_kcal p with
      | Some kcal =>
          let n := or_opt (or_opt (product_name p) (product_name_ru p))
                     (Some asked) in
          Some (mkFoodInfo (default asked n) kcal)
      | None => first_usable asked r
      end
  end.

Definition fetch_food_kcal (asked : string) (resp : food_reply)
  : option FoodInfo :=
  match resp with
  | FoodRaises => None
  | FoodResponse status products =>
      if negb (status =? 200) then None
      else first_usable asked products
  end.

Definition food_lookup_step (asked : string) (food_resp : food_reply)
    (data : UserData) : conv FoodState * Reply * UserData :=
  let data := mkUserData (Some asked) (food_kcal data) in
  match fetch_food_kcal asked food_resp with
  | Some f =>
      (Next FOOD_GRAMS, MsgFoodFound (name f) (kcal_per_100g f),
       mkUserData (food_name data) (Some (kcal_per_100g f)))
  | None => (Next FOOD_KCAL_MANUAL, MsgAskKcal, data)
  end.

Definition log_food_name (text : string) (food_resp : food_reply)
    (data : UserData) : conv FoodState * Reply * UserData :=
  food_lookup_step (str_strip text) food_resp data.

End Food.

Definition set_weight (today : Date) (uid : Z) (text : string)
    (USERS : gmap Z User) : conv ProfileState * Reply * gmap Z User :=
  match parse_float text with
  | None => (Next WEIGHT, MsgBadWeight, USERS)
  | Some w =>
      if negb (truthy w) || le_int w 0 then (Next WEIGHT, MsgBadWeight, USERS)
      else
        let '(user, USERS) := get_user today uid USERS in
        (Next HEIGHT, MsgAskHeight,
         <[uid := set_weight_field (Some w) user]> USERS)
  end.

Definition log_food_kcal_manual (text : string) (data : UserData)
  : conv FoodState * Reply * UserData :=
  match parse_float text with
  | None => (Next FOOD_KCAL_MANUAL, MsgAskKcalAgain, data)
  | Some kcal =>
      if le_int kcal 0 then (Next FOOD_KCAL_MANUAL, MsgAskKcalAgain, data)
      else (Next FOOD_GRAMS, MsgAskGrams, mkUserData (food_name data) (Some kcal))
  end.

Definition log_food_grams (today : Date) (now : Time) (uid : Z)
    (text : string) (data : UserData) (USERS : gmap Z User)
  : option (conv FoodState * Reply * UserData * gmap Z User) :=
  match parse_float text with
  | None => Some (Next FOOD_GRAMS, MsgAskGramsAgain, data, USERS)
  | Some grams =>
      if le_int grams 0
      then Some (Next FOOD_GRAMS, MsgAskGramsAgain, data, USERS)
      else
        let '(user, USERS) := get_user today uid USERS in
        match food_kcal data with
        | None => Some (END, MsgFoodFailed, data, USERS)
        | Some kcal_per_100 =>
            let consumed := div (mul kcal_per_100 grams) (lit 100) in
            match as_float (logged_calories user) with
            | None => None
            | Some logged =>
                let user := set_logged_calories (Flt (add logged consumed)) user in
                let user := log_history now food (Flt consumed) user in
                Some (END, MsgFoodLogged (food_name data) consumed,
                      mkUserData None None, <[uid := user]> USERS)
            end
        end
  end.

End Rounded.

(** * Vocabulary of the properties

    The formulas and conditions of the specification, written from its
    words, and the sample records used below. *)

(** Truncation to an integer, as the specification words it: the floor of
    a non-negative number, the ceiling of a negative one. *)
Definition truncate (x : Q) : Z :=
  if Qle_bool 0 x then Qfloor x else Qceiling x.

(** The water goal as the specification words it. *)
Definition heatBonus (t : option Q) : Z :=
  match t with
  | Some t =>
      if Qlt_le_dec 30 t then 1000
      else if Qlt_le_dec 25 t then 500
      else 0
  | None => 0
  end.

Definition waterGoal_formula (w : Q) (a : Z) (t : option Q) : Q :=
  (w * 30 + 500 * inject_Z (Qfloor (inject_Z a / 30)) + inject_Z (heatBonus t))%Q.

(** The calorie goal as the specification words it. *)
Definition sexTerm (sex : option string) : Z :=
  match sex with
  | Some s =>
      if String.eqb s "male" then 5
      else if String.eqb s "female" then -161
      else 0
  | None => 0
  end.

Definition calorieGoal_formula (w : Q) (h a : Z) (sex : option string) (m : Z)
  : Q :=
  (10 * w + (25 # 4) * inject_Z h - 5 * inject_Z a + inject_Z (sexTerm sex)
   + 100 * inject_Z (Qfloor (inject_Z m / 30)))%Q.

(** An integer entry that is unset or zero. *)
Definition unset_or_zero_int (o : option Z) : Prop :=
  o = None \/ o = Some 0.

(** A city or an API key that is absent or empty. *)
Definition empty_text (o : option string) : Prop :=
  o = None \/ o = Some ""%string.

(** A failed fetch: an exception, a status other than 200, or no
    temperature in the answer. *)
Definition fetch_fails (resp : weather_reply) : Prop :=
  match resp with
  | WeatherRaises => True
  | WeatherResponse status temp => status <> 200 \/ temp = None
  end.

(** The stored fetch timestamp is at least 30 minutes old, or there is
    none. *)
Definition cache_expired (now : Time) (u : User) : Prop :=
  match last_temp_ts u with
  | Some last_ts => half_hour <= now - last_ts
  | None => True
  end.

(** [timedelta(minutes=5)]. *)
Definition five_minutes : Z := 5 * 60 * 1000000.

(** The first half of the caching property as the specification words it:
    two lookups less than five minutes apart send at most one request. *)
Definition at_most_one_request_within_five_minutes : Prop :=
  forall (key : option string) (now1 now2 : Time) (resp1 resp2 : weather_reply)
         (city : option string) (u : User),
    0 <= now2 - now1 < five_minutes ->
    let first := get_temperature key now1 resp1 city u in
    let second := get_temperature key now2 resp2 city first.1.2 in
    (length first.2 + length second.2 <= 1)%nat.

(** A user who has answered the weight, height, age and sex prompts. *)
Definition profile_without_activity : User :=
  mkUser (Some 70%Q) (Some 175) (Some 30) (Some "male"%string) None None None
    0 0%Q 0 [] None None "2024-05-01"%string.



(** A manual calorie goal, when stored, is positive. *)
Definition manual_ok (u : User) : Prop :=
  forall v, manual_calorie_goal u = Some v -> 0 < v.

Definition store_ok (USERS : gmap Z User) : Prop :=
  forall uid u, USERS !! uid = Some u -> manual_ok u.

(** A user with a complete profile and two entries logged today. *)
Definition complete_profile : User :=
  mkUser (Some 70%Q) (Some 175) (Some 30) (Some "male"%string) (Some 60)
    (Some "Kazan"%string) None 500 (120 # 1)%Q 0
    [mkEvent 10 water (500 # 1)%Q; mkEvent 20 food (120 # 1)%Q]
    None None "2024-05-01"%string.

(** The record after a workout entry of [burned] kcal at [now]. *)
Definition with_workout (now : Time) (burned : Z) (u : User) : User :=
  mkUser (weight u) (height u) (age u) (sex u) (activity u) (city u)
    (manual_calorie_goal u) (logged_water u) (logged_calories u)
    (burned_calories u + burned)
    (history u ++ [mkEvent now workout (inject_Z burned)])
    (last_temp u) (last_temp_ts u) (last_date u).

(** The extra water a workout reply suggests, in ml; 0 when the reply
    makes no suggestion. *)
Definition suggested_water (r : Reply) : Z :=
  match r with
  | MsgWorkout _ _ _ (Some ml) => ml
  | _ => 0
  end.

(** The calories a workout reply reports. *)
Definition reported_burned (r : Reply) : option Z :=
  match r with
  | MsgWorkout _ _ b _ => Some b
  | _ => None
  end.

(** The water goal as the specification words it, with the numbers a
    finite weight and temperature stand for. *)
Definition water_goal_is_exact : Prop :=
  forall (w : Double.float) (a : Z) (t : option Double.float),
    Double.is_finite w = true -> (0 < Double.value w)%Q -> 0 <= a ->
    (forall x, t = Some x -> Double.is_finite x = true) ->
    Rounded.calc_water_goal (Some w) (Some a) t
    = Some (truncate
              (waterGoal_formula (Double.value w) a (Double.value <$> t))).

(** The heat bonus of a temperature in double precision. *)
Definition heat_of (t : option Double.float) : Z :=
  match t with
  | Some x =>
      if Double.gt_int x 30 then 1000
      else if Double.gt_int x 25 then 500
      else 0
  | None => 0
  end.

(** The sum [w*30 + 500*floor(a/30) + heat] evaluated from left to
    right in double precision; [None] when the activity bonus is too
    large to be a double. *)
Definition water_goal_sum (w : Double.float) (a : Z) (t : option Double.float)
  : option Double.float :=
  match Double.of_int (500 * (a / 30)) with
  | Some b =>
      Some (Double.add (Double.add (Double.mul w (Double.lit 30)) b)
              (Double.lit (heat_of t)))
  | None => None
  end.

(** [int()] of a sum that may be missing: the truncation of its value,
    or an exception. *)
Definition truncated (s : option Double.float) : option Z :=
  match s with
  | Some x => if Double.is_finite x then Some (truncate (Double.value x)) else None
  | None => None
  end.

(** The calorie goal as the specification words it, with the number a
    finite weight stands for. *)
Definition calorie_goal_is_exact : Prop :=
  forall (w : Double.float) (h a : Z) (sex : option string) (m : Z),
    Double.is_finite w = true -> (0 < Double.value w)%Q ->
    0 < h -> 0 < a -> 0 <= m ->
    Rounded.calc_calorie_goal (Some w) (Some h) (Some a) sex (Some m)
    = Some (truncate (calorieGoal_formula (Double.value w) h a sex m)).

(** A weight that is unset or zero. *)
Definition unset_or_zero_double (o : option Double.float) : Prop :=
  o = None \/ exists s, o = Some (S754_zero s).

(** The sum [10*w + 6.25*h - 5*a + sexTerm + 100*floor(m/30)] evaluated
    from left to right in double precision; [None] when an integer
    operand is too large to be a double. *)
Definition calorie_goal_sum (w : Double.float) (h a : Z) (sex : option string)
    (m : Z) : option Double.float :=
  match Double.of_int h, Double.of_int (5 * a), Double.of_int (100 * (m / 30)) with
  | Some fh, Some fa, Some fb =>
      Some (Double.add
              (Double.add
                 (Double.sub
                    (Double.add (Double.mul (Double.lit 10) w)
                       (Double.mul (Double.of_ratio false 625 100) fh))
                    fa)
                 (Double.lit (sexTerm sex)))
              fb)
  | _, _, _ => None
  end.

(** The number an accumulator or an event amount stands for. *)
Definition num_value (n : Rounded.num) : Q :=
  match n with
  | Rounded.Int z => inject_Z z
  | Rounded.Flt x => Double.value x
  end.

(** The food entry as the specification words it: the accumulator grows
    by exactly [k * g / 100]. *)
Definition food_entry_is_exact : Prop :=
  forall today now uid text data (USERS : gmap Z Rounded.User) g k out u',
    Rounded.parse_float text = Some g -> Double.gt_int g 0 = true ->
    Double.is_finite g = true -> Double.is_finite k = true ->
    Rounded.food_kcal data = Some k ->
    Rounded.log_food_grams today now uid text data USERS = Some out ->
    out.2 !! uid = Some u' ->
    (num_value (Rounded.logged_calories u')
     == num_value (Rounded.logged_calories (Rounded.get_user today uid USERS).1)
        + Double.value k * Double.value g / 100)%Q.

(** [k * g / 100.0] in double precision. *)
Definition consumed_kcal (k g : Double.float) : Double.float :=
  Double.div (Double.mul k g) (Double.lit 100).

(** The record after a food entry: the accumulator is the rounded sum,
    the history has one more event, nothing else differs. *)
Definition with_food_entry (now : Time) (logged consumed : Double.float)
    (u : Rounded.User) : Rounded.User :=
  Rounded.mkUser (Rounded.weight u) (Rounded.height u) (Rounded.age u)
    (Rounded.sex u) (Rounded.activity u) (Rounded.city u)
    (Rounded.manual_calorie_goal u) (Rounded.logged_water u)
    (Rounded.Flt (Double.add logged consumed)) (Rounded.burned_calories u)
    (Rounded.history u ++ [Rounded.mkEvent now food (Rounded.Flt consumed)])
    (Rounded.last_temp u) (Rounded.last_temp_ts u) (Rounded.last_date u).

(** * Vocabulary of the further properties *)

(** A list of characters without a decimal digit. *)
Definition digitless (l : list ascii) : Prop :=
  Forall (fun c => is_digit c = false) l.

(** A text of ASCII characters, the texts [float(str)] is embedded
    for. *)
Definition ascii_text (s : string) : Prop :=
  Forall (fun c => (nat_of_ascii c < 128)%nat) (list_ascii_of_string s).

(** The character of a decimal digit and the numeral of a digit list. *)
Definition digit_char (d : nat) : ascii := ascii_of_nat (48 + d).

Definition numeral (ds : list nat) : string :=
  string_of_list_ascii (map digit_char ds).

Definition numeral_value (ds : list nat) : Z :=
  fold_left (fun acc d => 10 * acc + Z.of_nat d) ds 0.

(** The requests that reach a handler working on the store: the commands
    registered in [main] and the text messages of the two conversations,
    with the conversation state they arrive in. *)
Inductive Request :=
| ReqProfile
| ReqLogWater (args : list string)
| ReqLogWorkout (args : list string)
| ReqCheckProgress
| ReqPlot
| ReqRecommend
| ReqResetDay
| ReqLogFood (args : list string) (food_resp : food_reply) (data : UserData)
| ReqFoodGrams (text : string) (data : UserData)
| ReqProfileText (s : ProfileState) (text : string).

(** The store a request leaves behind. *)
Definition serve (key : option string) (lower strip : string -> string)
    (today : Date) (now : Time) (resp : weather_reply) (uid : Z)
    (req : Request) (USERS : gmap Z User) : gmap Z User :=
  match req with
  | ReqProfile => (show_profile key today now resp uid USERS).2
  | ReqLogWater args => (log_water key today now resp uid args USERS).2
  | ReqLogWorkout args => (log_workout lower today now uid args USERS).2
  | ReqCheckProgress => (check_progress key today now resp uid USERS).2
  | ReqPlot => (plot_progress key today now resp uid USERS).2
  | ReqRecommend => (recommend key today now resp uid USERS).2
  | ReqResetDay => (reset_day today uid USERS).2
  | ReqLogFood args food_resp data =>
      (log_food_start lower strip today uid args food_resp data USERS).2
  | ReqFoodGrams text data =>
      (log_food_grams today now uid text data USERS).2
  | ReqProfileText s text =>
      (profile_step lower strip s today uid text USERS).2
  end.

(** The sexes the profile can hold. *)
Definition sex_ok (s : option string) : Prop :=
  s = None \/ s = Some "male"%string \/ s = Some "female"%string.

(** The elementary changes a handler makes to a resolved record. *)
Inductive edit (now : Time) : User -> User -> Prop :=
| edit_temp u t :
    edit now u (set_last_temp_ts (Some now) (set_last_temp (Some t) u))
| edit_weight u w : (0 < w)%Q -> edit now u (set_weight_field (Some w) u)
| edit_height u h : 0 < h -> edit now u (set_height_field (Some h) u)
| edit_age u a : 0 < a -> edit now u (set_age_field (Some a) u)
| edit_sex u s : sex_ok s -> edit now u (set_sex_field s u)
| edit_activity u m : 0 <= m -> edit now u (set_activity_field (Some m) u)
| edit_city u c : edit now u (set_city_field (Some c) u)
| edit_manual_none u : edit now u (set_manual_field None u)
| edit_manual u v : 0 < v -> edit now u (set_manual_field (Some v) u)
| edit_water u n :
    0 < n ->
    edit now u
      (log_history now water (inject_Z n)
         (set_logged_water (logged_water u + n) u))
| edit_food u c :
    edit now u
      (log_history now food c
         (set_logged_calories (logged_calories u + c)%Q u))
| edit_workout u b :
    0 < b ->
    edit now u
      (log_history now workout (inject_Z b)
         (set_burned_calories (burned_calories u + b) u)).

(** A store that is the old one, or the resolved store with the caller's
    record edited. *)
Definition edited (today : Date) (now : Time) (uid : Z)
    (USERS USERS' : gmap Z User) : Prop :=
  USERS' = USERS
  \/ exists u',
      rtc (edit now) (get_user today uid USERS).1 u'
      /\ USERS' = <[uid := u']> (get_user today uid USERS).2.

(** A profile as the prompts can leave it: what is stored passed the
    check of its prompt. *)
Definition profile_ok (u : User) : Prop :=
  (forall w, weight u = Some w -> (0 < w)%Q)
  /\ (forall h, height u = Some h -> 0 < h)
  /\ (forall a, age u = Some a -> 0 < a)
  /\ sex_ok (sex u)
  /\ (forall m, activity u = Some m -> 0 <= m)
  /\ (forall v, manual_calorie_goal u = Some v -> 0 < v).

(** The integer entries and the sex as the prompts can leave them. *)
Definition entries_ok (u : User) : Prop :=
  (forall h, height u = Some h -> 0 < h)
  /\ (forall a, age u = Some a -> 0 < a)
  /\ sex_ok (sex u)
  /\ (forall m, activity u = Some m -> 0 <= m)
  /\ (forall v, manual_calorie_goal u = Some v -> 0 < v).

(** The two cache entries are set together. *)
Definition cache_paired (u : User) : Prop :=
  last_temp u = None <-> last_temp_ts u = None.

Definition Kind_eqb (a b : Kind) : bool :=
  match a, b with
  | water, water | food, food | workout, workout => true
  | _, _ => false
  end.

(** The sum of the amounts of the events of one kind. *)
Fixpoint total (k : Kind) (h : list Event) : Q :=
  match h with
  | [] => 0
  | e :: r => ((if Kind_eqb (kind e) k then amount e else 0) + total k r)%Q
  end.

(** The integer accumulators are the sums of the day's events: logged
    water of the water events, burned calories of the workout events,
    and neither is negative. *)
Definition counters_ok (u : User) : Prop :=
  (inject_Z (logged_water u) == total water (history u))%Q
  /\ (inject_Z (burned_calories u) == total workout (history u))%Q
  /\ 0 <= logged_water u
  /\ 0 <= burned_calories u.

(** Two records that agree on everything but the temperature cache. *)
Definition same_but_cache (u u' : User) : Prop :=
  weight u' = weight u /\ height u' = height u /\ age u' = age u
  /\ sex u' = sex u /\ activity u' = activity u /\ city u' = city u
  /\ manual_calorie_goal u' = manual_calorie_goal u
  /\ logged_water u' = logged_water u
  /\ logged_calories u' = logged_calories u
  /\ burned_calories u' = burned_calories u
  /\ history u' = history u /\ last_date u' = last_date u.

(** The commands that only report. *)
Definition reporting (req : Request) : Prop :=
  req = ReqProfile \/ req = ReqCheckProgress \/ req = ReqPlot
  \/ req = ReqRecommend.

(** The record after a water entry of [n] ml at [now]. *)
Definition with_water (now : Time) (n : Z) (u : User) : User :=
  mkUser (weight u) (height u) (age u) (sex u) (activity u) (city u)
    (manual_calorie_goal u) (logged_water u + n) (logged_calories u)
    (burned_calories u) (history u ++ [mkEvent now water (inject_Z n)])
    (last_temp u) (last_temp_ts u) (last_date u).

(** An amount argument that [log_water] and [log_workout] turn down:
    not a number, or a number that is not positive. *)
Definition bad_amount (arg : string) : Prop :=
  match parse_int arg with
  | Some n => n <= 0
  | None => True
  end.

(** The state that follows in the order of the prompts. *)
Definition next_prompt (s : ProfileState) : option ProfileState :=
  match s with
  | WEIGHT => Some HEIGHT | HEIGHT => Some AGE | AGE => Some SEX
  | SEX => Some ACTIVITY | ACTIVITY => Some CITY
  | CITY => Some MANUAL_CALORIES | MANUAL_CALORIES => Some CALORIES_VALUE
  | CALORIES_VALUE => None
  end.

(** The name [fetch_food_kcal] gives to a product: its name, else its
    Russian name, else the name that was asked for. *)
Definition display_name (asked : string) (p : Product) : string :=
  match product_name p with
  | Some n => if truthy n then n else
      match product_name_ru p with
      | Some r => if truthy r then r else asked
      | None => asked
      end
  | None =>
      match product_name_ru p with
      | Some r => if truthy r then r else asked
      | None => asked
      end
  end.

(** The answers [set_manual_choice] takes for a yes. *)
Definition affirmative : list string :=
  ["–¥–∞"; "yes"; "y"]%string.

(** The record the profile conversation leaves when its seven prompts
    are answered and the manual goal is declined. *)
Definition filled_profile (w : Q) (h a : Z) (sx : option string) (m : Z)
    (c : string) (u : User) : User :=
  mkUser (Some w) (Some h) (Some a) sx (Some m) (Some c) None
    (logged_water u) (logged_calories u) (burned_calories u) (history u)
    (last_temp u) (last_temp_ts u) (last_date u).


(** * Properties *)

(** ** Parsing and calculator samples *)

Example parse_float_70 : parse_float "70" = Some (70#1)%Q.
Proof. reflexivity. Qed.
Example parse_float_comma : parse_float " 72,5 " = Some (145#2)%Q.
Proof. reflexivity. Qed.
Example parse_float_abc : parse_float "abc" = None.
Proof. reflexivity. Qed.
Example parse_float_exp : parse_float "1_0.5e1" = Some (105#1)%Q.
Proof. reflexivity. Qed.
Example parse_int_trunc : parse_int "-3.9" = Some (-3).
Proof. reflexivity. Qed.
Example parse_int_bad : parse_int "1__0" = None.
Proof. reflexivity. Qed.

Example calc_water_goal_70 : calc_water_goal (Some 70%Q) (Some 0) None = 2100.
Proof. reflexivity. Qed.
Example calc_calorie_goal_male :
  calc_calorie_goal (Some 70%Q) (Some 175) (Some 30) (Some "male"%string) (Some 60)
  = 1848.
Proof. vm_compute. reflexivity. Qed.

(** ** The daily rollover of [get_user] *)

Lemma last_date_clear_day today u : last_date (clear_day today u) = today.
Proof. reflexivity. Qed.

Lemma get_user_stored today uid (USERS : gmap Z User) :
  (get_user today uid USERS).2 !! uid = Some (get_user today uid USERS).1.
Proof. unfold get_user; simpl. apply lookup_insert_eq. Qed.

Lemma get_user_last_date today uid (USERS : gmap Z User) :
  last_date (get_user today uid USERS).1 = today.
Proof.
  unfold get_user; simpl.
  destruct (USERS !! uid) as [u|]; simpl.
  - destruct (decide (last_date u <> today)) as [Hne|Heq]; [reflexivity|].
    destruct (decide (last_date u = today)); [assumption | contradiction].
  - destruct (decide (today <> today)); [contradiction | reflexivity].
Qed.

Lemma get_user_other today uid uid' (USERS : gmap Z User) :
  uid <> uid' -> (get_user today uid USERS).2 !! uid' = USERS !! uid'.
Proof. intros Hne. unfold get_user; simpl. by rewrite lookup_insert_ne. Qed.

(** Resolving twice on the same day: the second call changes nothing. *)
Lemma get_user_idempotent today uid (USERS : gmap Z User) :
  get_user today uid (get_user today uid USERS).2 = get_user today uid USERS.
Proof.
  pose proof (get_user_last_date today uid USERS) as Hd.
  pose proof (get_user_stored today uid USERS) as Hs.
  destruct (get_user today uid USERS) as [r US] eqn:E; simpl in *.
  unfold get_user. rewrite Hs; simpl.
  destruct (decide (last_date r <> today)); [contradiction|].
  f_equal. apply insert_id, Hs.
Qed.

(** C2. Resolving a stored record whose last-reset date differs from the
    current date zeroes logged water, logged calories and burned calories,
    empties the history and sets the last-reset date to the current date,
    all in one step and with every other field kept; resolving a record
    whose last-reset date is the current date returns it unchanged, so a
    second resolution on the same date changes neither the record nor
    the store; the outcome is always one of these two, hence no
    accumulator is reset without the others. *)
Theorem get_user_rollover (today : Date) (uid : Z) (USERS : gmap Z User)
    (u : User) :
  USERS !! uid = Some u ->
  let r := (get_user today uid USERS).1 in
  let USERS' := (get_user today uid USERS).2 in
  USERS' !! uid = Some r
  /\ (last_date u <> today ->
      r = mkUser (weight u) (height u) (age u) (sex u) (activity u) (city u)
            (manual_calorie_goal u) 0 0%Q 0 [] (last_temp u) (last_temp_ts u)
            today)
  /\ (last_date u = today -> r = u /\ USERS' = USERS)
  /\ get_user today uid USERS' = (r, USERS')
  /\ (r = u
      \/ (logged_water r = 0 /\ logged_calories r = 0%Q
          /\ burned_calories r = 0 /\ history r = [] /\ last_date r = today)).
Proof.
  intros Hu r USERS'.
  assert (Hr : r = if decide (last_date u <> today) then clear_day today u else u).
  { subst r. unfold get_user; simpl. by rewrite Hu. }
  split; [apply get_user_stored|].
  split.
  { intros Hne. rewrite Hr. destruct (decide (last_date u <> today)); [|contradiction].
    reflexivity. }
  split.
  { intros Heq.
    assert (r = u) as ->.
    { rewrite Hr. destruct (decide (last_date u <> today)); [contradiction|done]. }
    split; [reflexivity|].
    subst USERS'. unfold get_user; simpl. rewrite Hu; simpl.
    destruct (decide (last_date u <> today)); [contradiction|].
    by apply insert_id. }
  split.
  { subst r USERS'. rewrite get_user_idempotent.
    by destruct (get_user today uid USERS). }
  rewrite Hr. destruct (decide (last_date u <> today)); [right|by left].
  repeat split; reflexivity.
Qed.

Lemma get_user_rollover_witness :
  let u := mkUser (Some 70%Q) (Some 175) (Some 30) None (Some 45) None None
             1200 (375 # 1)%Q 390
             [mkEvent 5 water (1200 # 1)%Q; mkEvent 6 food (375 # 1)%Q;
              mkEvent 7 workout (390 # 1)%Q]
             None None "2024-04-30"%string in
  let USERS : gmap Z User := {[ 7 := u ]} in
  USERS !! 7 = Some u
  /\ (get_user "2024-05-01"%string 7 USERS).1
     = mkUser (Some 70%Q) (Some 175) (Some 30) None (Some 45) None None
         0 0%Q 0 [] None None "2024-05-01"%string.
Proof.
  intros u USERS.
  assert (Hu : USERS !! 7 = Some u) by reflexivity.
  split; [exact Hu|].
  destruct (get_user_rollover "2024-05-01"%string 7 USERS u Hu)
    as (_ & Hroll & _).
  apply Hroll. discriminate.
Defined.

(** ** [reset_day] *)

(** C10. For every user record, complete profile or not, [reset_day]
    zeroes the three accumulators, clears the history and sets the
    last-reset date to the current date, and keeps the profile fields
    (weight, height, age, sex, activity, city, manual calorie goal) and the
    temperature-cache fields; the records of other users are untouched. *)
Theorem reset_day_frame (today : Date) (uid : Z) (USERS : gmap Z User) :
  let u := default (new_user today) (USERS !! uid) in
  let USERS' := (reset_day today uid USERS).2 in
  (reset_day today uid USERS).1 = MsgDayReset
  /\ USERS' !! uid =
       Some (mkUser (weight u) (height u) (age u) (sex u) (activity u) (city u)
               (manual_calorie_goal u) 0 0%Q 0 [] (last_temp u)
               (last_temp_ts u) today)
  /\ (forall uid', uid <> uid' -> USERS' !! uid' = USERS !! uid').
Proof.
  intros u USERS'. subst USERS'. unfold reset_day, get_user; simpl.
  fold u. split; [reflexivity|]. split.
  - rewrite lookup_insert_eq. f_equal.
    destruct (decide (last_date u <> today)); reflexivity.
  - intros uid' Hne. by rewrite !lookup_insert_ne.
Qed.

(** ** Goal calculator *)



Lemma truthy_float_pos (q : Q) : (0 < q)%Q -> truthy q = true.
Proof.
  intros H. unfold truthy, truthy_float. rewrite negb_true_iff.
  destruct (Qeq_bool q 0) eqn:E; [|reflexivity].
  apply Qeq_bool_iff in E. rewrite E in H. exfalso. revert H. apply Qlt_irrefl.
Qed.

Lemma truthy_float_false (q : Q) : truthy q = false <-> (q == 0)%Q.
Proof.
  unfold truthy, truthy_float. rewrite negb_false_iff. apply Qeq_bool_iff.
Qed.

Lemma truthy_float_true (q : Q) : truthy q = true <-> ~ (q == 0)%Q.
Proof.
  rewrite <- truthy_float_false. destruct (truthy q); split; congruence.
Qed.

Lemma truthy_some {A} `{Truthy A} (a : A) : truthy (Some a) = truthy a.
Proof. reflexivity. Qed.

Lemma truthy_int_false (z : Z) : truthy z = false <-> z = 0.
Proof.
  unfold truthy, truthy_int. rewrite negb_false_iff. apply Z.eqb_eq.
Qed.

Lemma truthy_int_true (z : Z) : truthy z = true <-> z <> 0.
Proof.
  unfold truthy, truthy_int. rewrite negb_true_iff. apply Z.eqb_neq.
Qed.

(** [int()] is truncation. *)
Lemma int_of_float_truncate (q : Q) : int_of_float q = truncate q.
Proof.
  destruct q as [n d]. unfold int_of_float, truncate; simpl.
  destruct (Qle_bool 0 (n # d)) eqn:E.
  - apply Qle_bool_iff in E. unfold Qle in E; simpl in E.
    apply Z.quot_div_nonneg; lia.
  - assert (Hn : n < 0).
    { destruct (Z_lt_le_dec n 0) as [|Hge]; [assumption|].
      assert (Qle_bool 0 (n # d) = true); [|congruence].
      apply Qle_bool_iff. unfold Qle; simpl. lia. }
    unfold Qceiling; simpl.
    replace n with (- - n) at 1 by lia.
    rewrite Z.quot_opp_l by lia.
    f_equal. apply Z.quot_div_nonneg; lia.
Qed.




Lemma activity_bonus_code (a k : Z) :
  (if truthy a then a / 30 * k else 0) = a / 30 * k.
Proof.
  destruct (truthy a) eqn:E; [reflexivity|].
  apply truthy_int_false in E. subst a. reflexivity.
Qed.


Lemma gt_int_truthy (w : Double.float) :
  Double.gt_int w 0 = true -> truthy w = true.
Proof. destruct w as [s|s| |s m e]; try reflexivity. destruct s; discriminate. Qed.

Lemma to_int_truncated (x : Double.float) :
  Double.to_int x = truncated (Some x).
Proof.
  unfold Double.to_int, truncated.
  destruct (Double.is_finite x); [|reflexivity].
  by rewrite int_of_float_truncate.
Qed.

(** The formula in exact arithmetic fails at the double nearest to
    55.3: 30 times that double lies just below 1659, its truncation is
    1658, but the rounded product is 1659.0 and the code answers
    1659. *)
Lemma water_goal_rounds_before_truncating : ~ water_goal_is_exact.
Proof.
  intros H.
  specialize (H (Double.of_ratio false 553 10) 0 None).
  assert (H1 : Double.is_finite (Double.of_ratio false 553 10) = true)
    by (vm_compute; reflexivity).
  assert (H2 : (0 < Double.value (Double.of_ratio false 553 10))%Q)
    by (vm_compute; reflexivity).
  assert (H3 : 0 <= 0) by lia.
  assert (H4 : forall x : Double.float,
             None = Some x -> Double.is_finite x = true) by discriminate.
  specialize (H H1 H2 H3 H4). vm_compute in H. discriminate H.
Qed.

(** The same input as the user types it, and two more: for the text
    "64.1" the code answers 1922 where the formula at the decimal 64.1
    is 1923, and for the text "1e308" the product overflows to an
    infinity and [int()] raises. *)
Example water_goal_examples :
  Rounded.parse_float "55.3" = Some (Double.of_ratio false 553 10)
  /\ Rounded.calc_water_goal (Rounded.parse_float "55.3") (Some 0) None
     = Some 1659
  /\ truncate (waterGoal_formula
                 (Double.value (Double.of_ratio false 553 10)) 0 None) = 1658
  /\ Rounded.calc_water_goal (Rounded.parse_float "64.1") (Some 0) None
     = Some 1922
  /\ truncate (waterGoal_formula (641 # 10) 0 None) = 1923
  /\ Rounded.calc_water_goal (Rounded.parse_float "1e308") (Some 0) None = None.
Proof. repeat split; vm_compute; reflexivity. Qed.

(** C3, as the code has it. For every weight [w > 0] (an infinity
    included), activity minutes [a >= 0] and optional temperature [t],
    the water goal is [int()] of the sum
    [w*30 + 500*floor(a/30) + heat] evaluated from left to right in
    double precision, each operation rounded to nearest: the truncation
    of the value of that double when it is finite, an exception when it
    is not or when the activity bonus is too large for a double; [heat]
    is 1000 if [t > 30], else 500 if [t > 25], else 0 (also when [t] is
    absent or a NaN); [waterGoal(70, 0, absent) = 2100] and
    [waterGoal(70, 30, 32) = 3600]. *)
Theorem calc_water_goal_in_doubles (w : Double.float) (a : Z)
    (t : option Double.float) :
  Double.gt_int w 0 = true -> 0 <= a ->
  Rounded.calc_water_goal (Some w) (Some a) t = truncated (water_goal_sum w a t)
  /\ Rounded.calc_water_goal (Rounded.parse_float "70") (Some 0) None = Some 2100
  /\ Rounded.calc_water_goal (Rounded.parse_float "70") (Some 30)
       (Rounded.parse_float "32") = Some 3600.
Proof.
  intros Hw Ha. split; [|split; vm_compute; reflexivity].
  unfold Rounded.calc_water_goal, water_goal_sum.
  rewrite (gt_int_truthy w Hw). cbn [negb].
  rewrite activity_bonus_code, (Z.mul_comm (a / 30) 500).
  fold (heat_of t).
  destruct (Double.of_int (500 * (a / 30))) as [b|]; [|reflexivity].
  apply to_int_truncated.
Qed.

Lemma calc_water_goal_in_doubles_witness :
  (Double.gt_int (Double.of_ratio false 641 10) 0 = true /\ 0 <= 20)
  /\ Rounded.calc_water_goal (Some (Double.of_ratio false 641 10)) (Some 20)
       (Some (Double.lit 24)) = Some 1922.
Proof.
  assert (Hw : Double.gt_int (Double.of_ratio false 641 10) 0 = true)
    by (vm_compute; reflexivity).
  assert (Ha : 0 <= 20) by lia.
  split; [auto|].
  rewrite (proj1 (calc_water_goal_in_doubles (Double.of_ratio false 641 10) 20
                    (Some (Double.lit 24)) Hw Ha)).
  vm_compute. reflexivity.
Defined.

Lemma sex_term_code (sex : option string) :
  (if decide (sex = Some "male"%string) then 5
   else if decide (sex = Some "female"%string) then -161
   else 0) = sexTerm sex.
Proof.
  unfold sexTerm. destruct sex as [s|].
  - destruct (String.eqb s "male") eqn:Em.
    + apply String.eqb_eq in Em. subst s. reflexivity.
    + apply String.eqb_neq in Em.
      destruct (decide (Some s = Some "male"%string)) as [E|_]; [congruence|].
      destruct (String.eqb s "female") eqn:Ef.
      * apply String.eqb_eq in Ef. subst s. reflexivity.
      * apply String.eqb_neq in Ef.
        destruct (decide (Some s = Some "female"%string)); [congruence|done].
  - reflexivity.
Qed.

(** The formula in exact arithmetic fails at the double nearest to 55.3
    with height 160, age 30, male, 60 minutes: the exact formula lies
    just below 1608 and truncates to 1607, the rounded sum is 1608.0
    and the code answers 1608. *)
Lemma calorie_goal_rounds_before_truncating : ~ calorie_goal_is_exact.
Proof.
  intros H.
  specialize (H (Double.of_ratio false 553 10) 160 30 (Some "male"%string) 60).
  assert (H1 : Double.is_finite (Double.of_ratio false 553 10) = true)
    by (vm_compute; reflexivity).
  assert (H2 : (0 < Double.value (Double.of_ratio false 553 10))%Q)
    by (vm_compute; reflexivity).
  specialize (H H1 H2 ltac:(lia) ltac:(lia) ltac:(lia)).
  vm_compute in H. discriminate H.
Qed.

(** The same input as the user types it, and an overflow: for the
    weight "1e308" the product [10 * weight] is an infinity and [int()]
    raises. *)
Example calorie_goal_examples :
  Rounded.calc_calorie_goal (Rounded.parse_float "55.3") (Some 160) (Some 30)
    (Some "male"%string) (Some 60) = Some 1608
  /\ truncate (calorieGoal_formula
                 (Double.value (Double.of_ratio false 553 10)) 160 30
                 (Some "male"%string) 60) = 1607
  /\ Rounded.calc_calorie_goal (Rounded.parse_float "1e308") (Some 160)
       (Some 30) (Some "male"%string) (Some 60) = None.
Proof. repeat split; vm_compute; reflexivity. Qed.

(** C4, as the code has it. The calorie goal is 0 whenever weight, height
    or age is unset or zero; otherwise it is [int()] of the sum
    [10*weight + 6.25*height - 5*age + sexTerm + 100*floor(minutes/30)]
    evaluated from left to right in double precision, each operation
    rounded to nearest: the truncation of the value of that double when
    it is finite, an exception when it is not or when an integer
    operand is too large for a double; [sexTerm] is +5 for male, -161
    for female and 0 otherwise, unset activity minutes count as 0; and
    [calorieGoal(70, 175, 30, male, 60) = 1848]. *)
Theorem calc_calorie_goal_in_doubles (weight : option Double.float)
    (height age : option Z) (sex : option string) (activity : option Z) :
  (unset_or_zero_double weight \/ unset_or_zero_int height
   \/ unset_or_zero_int age ->
   Rounded.calc_calorie_goal weight height age sex activity = Some 0)
  /\ (forall w h a,
        weight = Some w -> height = Some h -> age = Some a ->
        truthy w = true -> h <> 0 -> a <> 0 ->
        Rounded.calc_calorie_goal weight height age sex activity
        = truncated (calorie_goal_sum w h a sex (default 0 activity)))
  /\ Rounded.calc_calorie_goal (Rounded.parse_float "70") (Some 175) (Some 30)
       (Some "male"%string) (Some 60) = Some 1848.
Proof.
  split; [|split; [|vm_compute; reflexivity]].
  - unfold unset_or_zero_double, unset_or_zero_int, Rounded.calc_calorie_goal.
    intros [[-> | [s ->]] | [[-> | ->] | [-> | ->]]]; try reflexivity.
    + destruct height as [h|], age as [a|]; reflexivity.
    + destruct weight as [w|]; reflexivity.
    + destruct weight as [w|]; [|reflexivity].
      destruct age as [a|]; [|reflexivity].
      change (truthy 0) with false. by rewrite andb_false_r.
    + destruct weight as [w|]; [|reflexivity]. destruct height; reflexivity.
    + destruct weight as [w|]; [|reflexivity].
      destruct height as [h|]; [|reflexivity].
      change (truthy 0) with false. by rewrite andb_false_r.
  - intros w h a -> -> -> Tw Hh Ha.
    unfold Rounded.calc_calorie_goal, calorie_goal_sum.
    apply truthy_int_true in Hh, Ha. rewrite Tw, Hh, Ha. cbn [andb negb].
    rewrite sex_term_code.
    assert (Hact : match activity with
                   | Some m => if truthy m then m / 30 * 100 else 0
                   | None => 0
                   end = 100 * (default 0 activity / 30)).
    { destruct activity as [m|]; [|reflexivity].
      cbn [default]. rewrite activity_bonus_code. apply Z.mul_comm. }
    rewrite Hact.
    destruct (Double.of_int h) as [fh|]; [|reflexivity].
    destruct (Double.of_int (5 * a)) as [fa|]; [|reflexivity].
    destruct (Double.of_int (100 * (default 0 activity / 30))) as [fb|];
      [|reflexivity].
    apply to_int_truncated.
Qed.

Lemma calc_calorie_goal_in_doubles_witness :
  (unset_or_zero_double (Some (S754_zero true)) \/ unset_or_zero_int (Some 175)
   \/ unset_or_zero_int (Some 30))
  /\ Rounded.calc_calorie_goal (Some (S754_zero true)) (Some 175) (Some 30) None
       (Some 60) = Some 0
  /\ Rounded.calc_calorie_goal (Some (Double.of_ratio false 553 10)) (Some 160)
       (Some 30) (Some "male"%string) (Some 60) = Some 1608.
Proof.
  assert (H0 : unset_or_zero_double (Some (S754_zero true))
               \/ unset_or_zero_int (Some 175) \/ unset_or_zero_int (Some 30)).
  { left. right. by exists true. }
  split; [exact H0|]. split.
  - exact (proj1 (calc_calorie_goal_in_doubles (Some (S754_zero true)) (Some 175)
                    (Some 30) None (Some 60)) H0).
  - rewrite (proj1 (proj2 (calc_calorie_goal_in_doubles
                             (Some (Double.of_ratio false 553 10)) (Some 160)
                             (Some 30) (Some "male"%string) (Some 60)))
               (Double.of_ratio false 553 10) 160 30 eq_refl eq_refl eq_refl).
    + vm_compute. reflexivity.
    + vm_compute. reflexivity.
    + lia.
    + lia.
Defined.

(** ** Temperature cache *)

Lemma truthy_text (o : option string) : truthy o = false <-> empty_text o.
Proof.
  unfold empty_text. destruct o as [[|c s]|]; simpl; split; intros H;
    try reflexivity; try discriminate; auto.
  destruct H as [H|H]; discriminate.
Qed.

Lemma truthy_text_true (o : option string) : truthy o = true <-> ~ empty_text o.
Proof.
  rewrite <- truthy_text. destruct (truthy o); split; intros H; congruence.
Qed.

Lemma get_temperature_disabled key now resp city u :
  empty_text city \/ empty_text key ->
  get_temperature key now resp city u = (None, u, []).
Proof.
  intros H. unfold get_temperature.
  destruct H as [H|H]; apply truthy_text in H; rewrite H; simpl;
    [reflexivity | by rewrite orb_true_r].
Qed.

Lemma get_temperature_enabled key now resp city u :
  ~ empty_text city -> ~ empty_text key ->
  get_temperature key now resp city u =
    if match last_temp_ts u with
       | Some last_ts => now - last_ts <? half_hour
       | None => false
       end
    then (last_temp u, u, [])
    else
      match resp with
      | WeatherResponse status (Some temp) =>
          if status =? 200 then
            (Some temp,
             set_last_temp_ts (Some now) (set_last_temp (Some temp) u),
             [default ""%string city])
          else (None, u, [default ""%string city])
      | _ => (None, u, [default ""%string city])
      end.
Proof.
  intros Hc Hk. apply truthy_text_true in Hc, Hk.
  unfold get_temperature. rewrite Hc, Hk; simpl.
  destruct (match last_temp_ts u with Some _ => _ | None => _ end);
    [reflexivity|].
  destruct resp as [|status [temp|]]; reflexivity.
Qed.

(** C5. The temperature lookup returns absent, sends nothing and leaves
    the record alone when the city is empty or the API key unconfigured;
    with a stored fetch timestamp less than 30 minutes old it returns
    the cached value without any request; and when the window has
    expired and the refetch fails (status other than 200, no temperature
    in the answer, or an exception) it returns absent and the record,
    stored temperature and timestamp included, is unmodified. *)
Theorem get_temperature_cases (key : option string) (now : Time)
    (resp : weather_reply) (city : option string) (u : User) :
  (empty_text city \/ empty_text key ->
   get_temperature key now resp city u = (None, u, []))
  /\ (~ empty_text city -> ~ empty_text key ->
      forall last_ts, last_temp_ts u = Some last_ts ->
      now - last_ts < half_hour ->
      get_temperature key now resp city u = (last_temp u, u, []))
  /\ (~ empty_text city -> ~ empty_text key ->
      cache_expired now u -> fetch_fails resp ->
      (get_temperature key now resp city u).1.1 = None
      /\ (get_temperature key now resp city u).1.2 = u
      /\ last_temp (get_temperature key now resp city u).1.2 = last_temp u
      /\ last_temp_ts (get_temperature key now resp city u).1.2
         = last_temp_ts u).
Proof.
  split; [apply get_temperature_disabled|]. split.
  - intros Hc Hk last_ts Hts Hlt.
    rewrite get_temperature_enabled by assumption. rewrite Hts.
    apply Z.ltb_lt in Hlt. by rewrite Hlt.
  - intros Hc Hk Hexp Hfail.
    rewrite get_temperature_enabled by assumption.
    unfold cache_expired in Hexp.
    assert (Hfresh : match last_temp_ts u with
                     | Some last_ts => now - last_ts <? half_hour
                     | None => false
                     end = false).
    { destruct (last_temp_ts u); [apply Z.ltb_ge; lia | reflexivity]. }
    rewrite Hfresh.
    destruct resp as [|status [temp|]]; simpl; auto.
    destruct Hfail as [Hs|Hs]; [|discriminate].
    apply Z.eqb_neq in Hs. rewrite Hs. simpl. auto.
Qed.

Lemma get_temperature_cases_witness :
  let u := mkUser (Some 70%Q) (Some 175) (Some 30) None (Some 45)
             (Some "Kazan"%string) None 0 0%Q 0 [] (Some (21 # 1)%Q)
             (Some 1000000) "2024-05-01"%string in
  (~ empty_text (city u) /\ ~ empty_text (Some "key"%string)
   /\ cache_expired (1000000 + half_hour) u
   /\ fetch_fails (WeatherResponse 503 (Some (19 # 1)%Q)))
  /\ (get_temperature (Some "key"%string) (1000000 + half_hour)
        (WeatherResponse 503 (Some (19 # 1)%Q)) (city u) u).1.1 = None
  /\ get_temperature (Some "key"%string) (1000000 + half_hour - 1)
       (WeatherResponse 503 (Some (19 # 1)%Q)) (city u) u
     = (Some (21 # 1)%Q, u, []).
Proof.
  intros u.
  assert (Hc : ~ empty_text (city u)) by (intros [H|H]; discriminate).
  assert (Hk : ~ empty_text (Some "key"%string)) by (intros [H|H]; discriminate).
  assert (He : cache_expired (1000000 + half_hour) u) by (unfold cache_expired, half_hour; simpl; lia).
  assert (Hf : fetch_fails (WeatherResponse 503 (Some (19 # 1)%Q)))
    by (left; discriminate).
  split; [auto|]. split.
  - exact (proj1 (proj2 (proj2 (get_temperature_cases (Some "key"%string)
             (1000000 + half_hour) (WeatherResponse 503 (Some (19 # 1)%Q))
             (city u) u)) Hc Hk He Hf)).
  - apply (proj1 (proj2 (get_temperature_cases (Some "key"%string)
             (1000000 + half_hour - 1) (WeatherResponse 503 (Some (19 # 1)%Q))
             (city u) u)) Hc Hk 1000000); [reflexivity | reflexivity].
Defined.

(** A failed fetch is not remembered: one minute later the service is
    asked again. *)
Lemma failed_fetch_is_retried_within_five_minutes :
  ~ at_most_one_request_within_five_minutes.
Proof.
  intros H.
  specialize (H (Some "key"%string) 0 60000000 (WeatherResponse 500 None)
                WeatherRaises (Some "Kazan"%string)
                (new_user "2024-05-01"%string)).
  assert (Hb : 0 <= 60000000 - 0 < five_minutes) by (unfold five_minutes; lia).
  specialize (H Hb). vm_compute in H. lia.
Qed.

(** The three ways a lookup can end. *)
Lemma get_temperature_outcome key now resp city u :
  let out := get_temperature key now resp city u in
  out.2 = []
  \/ (out.2 = [default ""%string city] /\ out.1.1 = None /\ out.1.2 = u)
  \/ (out.2 = [default ""%string city] /\ is_Some out.1.1
      /\ last_temp_ts out.1.2 = Some now).
Proof.
  unfold get_temperature.
  destruct (negb (truthy city) || negb (truthy key)); [by left|].
  destruct (match last_temp_ts u with Some _ => _ | None => _ end); [by left|].
  destruct resp as [|status [temp|]]; simpl.
  - right. left. auto.
  - destruct (status =? 200); simpl.
    + right. right. eauto.
    + right. left. auto.
  - right. left. auto.
Qed.

Lemma get_temperature_fresh_silent key now resp city u last_ts :
  last_temp_ts u = Some last_ts -> now - last_ts < half_hour ->
  (get_temperature key now resp city u).2 = [].
Proof.
  intros Hts Hlt. unfold get_temperature.
  destruct (negb (truthy city) || negb (truthy key)); [reflexivity|].
  rewrite Hts. apply Z.ltb_lt in Hlt. by rewrite Hlt.
Qed.

(** C6, as the code has it. Two lookups less than five minutes apart send
    at most one request between them provided the first did not end in
    a failed fetch (it sent nothing, or it returned a temperature); and
    with a non-empty city and a configured API key, a lookup made at
    least 30 minutes after the stored fetch timestamp, or with no stored
    timestamp, sends exactly one new request whatever the service then
    answers and whatever earlier fetches came to. *)
Theorem temperature_cache_requests :
  (forall (key : option string) (now1 now2 : Time) (resp1 resp2 : weather_reply)
          (city1 city2 : option string) (u : User),
      now2 - now1 < five_minutes ->
      let first := get_temperature key now1 resp1 city1 u in
      let second := get_temperature key now2 resp2 city2 first.1.2 in
      first.2 = [] \/ first.1.1 <> None ->
      (length first.2 + length second.2 <= 1)%nat)
  /\ (forall (key : option string) (now : Time) (resp : weather_reply)
             (city : option string) (u : User),
         ~ empty_text city -> ~ empty_text key -> cache_expired now u ->
         (get_temperature key now resp city u).2 = [default ""%string city]).
Proof.
  split.
  - intros key now1 now2 resp1 resp2 city1 city2 u Hlt first second Hok.
    assert (Hlen : (length second.2 <= 1)%nat).
    { destruct (get_temperature_outcome key now2 resp2 city2 first.1.2)
        as [H|[[H _]|[H _]]]; fold second in H; rewrite H; simpl; lia. }
    destruct (get_temperature_outcome key now1 resp1 city1 u)
      as [H|[[H [Hn _]]|[H [_ Hts]]]]; fold first in H.
    + rewrite H. simpl. exact Hlen.
    + fold first in Hn. destruct Hok as [Hok|Hok]; [|contradiction].
      rewrite Hok. simpl. exact Hlen.
    + fold first in Hts.
      assert (Hs : second.2 = []).
      { subst second. eapply get_temperature_fresh_silent; [exact Hts|].
        unfold five_minutes in Hlt. unfold half_hour. lia. }
      rewrite H, Hs. simpl. lia.
  - intros key now resp city u Hc Hk Hexp.
    rewrite get_temperature_enabled by assumption.
    unfold cache_expired in Hexp.
    assert (Hfresh : match last_temp_ts u with
                     | Some last_ts => now - last_ts <? half_hour
                     | None => false
                     end = false).
    { destruct (last_temp_ts u); [apply Z.ltb_ge; lia | reflexivity]. }
    rewrite Hfresh.
    destruct resp as [|status [temp|]]; try reflexivity.
    destruct (status =? 200); reflexivity.
Qed.

Lemma temperature_cache_requests_witness :
  let u := new_user "2024-05-01"%string in
  let key := Some "key"%string in
  let city := Some "Kazan"%string in
  let first := get_temperature key 0 (WeatherResponse 200 (Some (28 # 1)%Q))
                 city u in
  let second := get_temperature key 60000000 WeatherRaises city first.1.2 in
  (60000000 - 0 < five_minutes /\ (first.2 = [] \/ first.1.1 <> None))
  /\ (length first.2 + length second.2 <= 1)%nat
  /\ (~ empty_text city /\ ~ empty_text key
      /\ cache_expired (half_hour + 1) first.1.2)
  /\ (get_temperature key (half_hour + 1) WeatherRaises city first.1.2).2
     = ["Kazan"%string].
Proof.
  intros u key city first second.
  assert (Hlt : 60000000 - 0 < five_minutes) by (unfold five_minutes; lia).
  assert (Hok : first.2 = [] \/ first.1.1 <> None) by (right; discriminate).
  assert (Hc : ~ empty_text city) by (intros [H|H]; discriminate).
  assert (Hk : ~ empty_text key) by (intros [H|H]; discriminate).
  assert (He : cache_expired (half_hour + 1) first.1.2)
    by (unfold cache_expired, half_hour; simpl; lia).
  split; [auto|]. split.
  - exact (proj1 temperature_cache_requests key 0 60000000
             (WeatherResponse 200 (Some (28 # 1)%Q)) WeatherRaises
             city city u Hlt Hok).
  - split; [auto|].
    exact (proj2 temperature_cache_requests key (half_hour + 1) WeatherRaises
             city first.1.2 Hc Hk He).
Defined.

(** ** The profile gate *)

(** What [ensure_profile] tests: each of the four entries is present and
    is not zero. *)
Lemma ensure_profile_true_iff (u : User) :
  ensure_profile u = true <->
  (exists w, weight u = Some w /\ ~ (w == 0)%Q)
  /\ (exists h, height u = Some h /\ h <> 0)
  /\ (exists a, age u = Some a /\ a <> 0)
  /\ (exists m, activity u = Some m /\ m <> 0).
Proof.
  unfold ensure_profile. rewrite !andb_true_iff. split.
  - intros [[[Hw Hh] Ha] Hm].
    destruct (weight u) as [w|]; [|discriminate].
    destruct (height u) as [h|]; [|discriminate].
    destruct (age u) as [a|]; [|discriminate].
    destruct (activity u) as [m|]; [|discriminate].
    rewrite truthy_some in Hw. rewrite truthy_some in Hh.
    rewrite truthy_some in Ha. rewrite truthy_some in Hm.
    apply truthy_float_true in Hw. apply truthy_int_true in Hh, Ha, Hm.
    repeat split; eexists; split; try reflexivity; assumption.
  - intros [[w [-> Hw]] [[h [-> Hh]] [[a [-> Ha]] [m [-> Hm]]]]].
    rewrite !truthy_some.
    apply truthy_float_true in Hw. apply truthy_int_true in Hh, Ha, Hm.
    repeat split; assumption.
Qed.

(** With the gate closed every gated command only asks for the profile. *)
Lemma gate_closed key lower strip today now resp uid args fresp data
    (USERS : gmap Z User) :
  ensure_profile (get_user today uid USERS).1 = false ->
  (show_profile key today now resp uid USERS).1 = MsgProfileEmpty
  /\ (log_water key today now resp uid args USERS).1 = MsgFillProfile
  /\ (log_food_start lower strip today uid args fresp data USERS).1.1.2
     = MsgFillProfile
  /\ (log_workout lower today now uid args USERS).1 = MsgFillProfile
  /\ (check_progress key today now resp uid USERS).1 = MsgFillProfile
  /\ (plot_progress key today now resp uid USERS).1 = MsgFillProfile
  /\ (recommend key today now resp uid USERS).1 = MsgFillProfile.
Proof.
  intros H.
  unfold show_profile, log_water, log_food_start, log_workout, check_progress,
    plot_progress, recommend.
  destruct (get_user today uid USERS) as [u US]. simpl in H. rewrite H. simpl.
  repeat split; reflexivity.
Qed.

(** C1, at the input where the gate and the activity prompt disagree.
    The activity prompt accepts the text "0" and stores 0 minutes for a
    user whose weight, height and age are set, yet the gate then reports
    the profile as incomplete and every gated command is refused. *)
Theorem zero_activity_closes_gate (key : option string)
    (lower strip : string -> string) (now : Time) (resp : weather_reply)
    (fresp : food_reply) (data : UserData) :
  let today := "2024-05-01"%string in
  let USERS : gmap Z User := {[ 1 := profile_without_activity ]} in
  let out := set_activity today 1 "0" USERS in
  out.1 = (Next CITY, MsgAskCity)
  /\ out.2 !! 1 = Some (set_activity_field (Some 0) profile_without_activity)
  /\ ensure_profile (get_user today 1 out.2).1 = false
  /\ (show_profile key today now resp 1 out.2).1 = MsgProfileEmpty
  /\ (log_water key today now resp 1 ["250"%string] out.2).1 = MsgFillProfile
  /\ (log_food_start lower strip today 1 [] fresp data out.2).1.1.2
     = MsgFillProfile
  /\ (log_workout lower today now 1 ["run"%string; "30"%string] out.2).1
     = MsgFillProfile
  /\ (check_progress key today now resp 1 out.2).1 = MsgFillProfile
  /\ (plot_progress key today now resp 1 out.2).1 = MsgFillProfile
  /\ (recommend key today now resp 1 out.2).1 = MsgFillProfile.
Proof.
  intros today USERS out.
  assert (Hg : ensure_profile (get_user today 1 out.2).1 = false)
    by (vm_compute; reflexivity).
  split; [vm_compute; reflexivity|].
  split; [vm_compute; reflexivity|].
  split; [exact Hg|].
  pose proof (gate_closed key lower strip today now resp 1 ["250"%string]
                fresp data out.2 Hg) as (H1 & H2 & _ & _ & H5 & H6 & H7).
  pose proof (gate_closed key lower strip today now resp 1 [] fresp data
                out.2 Hg) as (_ & _ & H3 & _).
  pose proof (gate_closed key lower strip today now resp 1
                ["run"%string; "30"%string] fresp data out.2 Hg)
    as (_ & _ & _ & H4 & _).
  repeat split; assumption.
Qed.

(** ** Manual calorie goal *)

(** The lookup touches only the two cache entries. *)
Lemma get_temperature_frame key now resp c u :
  let u' := (get_temperature key now resp c u).1.2 in
  weight u' = weight u /\ height u' = height u /\ age u' = age u
  /\ sex u' = sex u /\ activity u' = activity u /\ city u' = city u
  /\ manual_calorie_goal u' = manual_calorie_goal u
  /\ logged_water u' = logged_water u
  /\ logged_calories u' = logged_calories u
  /\ burned_calories u' = burned_calories u
  /\ history u' = history u /\ last_date u' = last_date u.
Proof.
  unfold get_temperature.
  destruct (negb (truthy c) || negb (truthy key)); [by repeat split|].
  destruct (match last_temp_ts u with Some _ => _ | None => _ end);
    [by repeat split|].
  destruct resp as [|status [temp|]]; try by repeat split.
  destruct (status =? 200); by repeat split.
Qed.




(** *** The stored override is positive

    The profile flow is the only writer of the manual calorie goal, and it
    stores either nothing or a positive value; no handler breaks this. *)

Lemma store_ok_empty : store_ok ∅.
Proof. intros uid u H. by rewrite lookup_empty in H. Qed.

Lemma store_ok_insert uid u (USERS : gmap Z User) :
  store_ok USERS -> manual_ok u -> store_ok (<[uid := u]> USERS).
Proof.
  intros HS Hu uid' u' H. destruct (decide (uid = uid')) as [->|Hne].
  - rewrite lookup_insert_eq in H. by inversion H; subst.
  - rewrite lookup_insert_ne in H by done. by eapply HS.
Qed.

Lemma get_user_ok today uid (USERS : gmap Z User) :
  store_ok USERS ->
  manual_ok (get_user today uid USERS).1 /\ store_ok (get_user today uid USERS).2.
Proof.
  intros HS. unfold get_user; simpl.
  assert (Hu : manual_ok (default (new_user today) (USERS !! uid))).
  { destruct (USERS !! uid) as [u|] eqn:E; simpl; [by eapply HS|].
    intros v Hv. discriminate. }
  assert (Hr : manual_ok
                 (if decide (last_date (default (new_user today) (USERS !! uid))
                             <> today)
                  then clear_day today (default (new_user today) (USERS !! uid))
                  else default (new_user today) (USERS !! uid))).
  { destruct (decide _); [|exact Hu]. exact Hu. }
  split; [exact Hr|]. by apply store_ok_insert.
Qed.

Lemma get_temperature_ok key now resp c u :
  manual_ok u -> manual_ok (get_temperature key now resp c u).1.2.
Proof.
  intros Hu v Hv.
  destruct (get_temperature_frame key now resp c u) as (_&_&_&_&_&_&Hm&_).
  rewrite Hm in Hv. by apply Hu.
Qed.

Ltac resolve_user today uid USERS HS :=
  let Hu := fresh "Hu" in
  let HUS := fresh "HUS" in
  destruct (get_user_ok today uid USERS HS) as [Hu HUS];
  destruct (get_user today uid USERS) as [? ?]; simpl in Hu, HUS.

Ltac by_manual_ok :=
  match goal with H : manual_ok _ |- manual_ok _ => exact H end.

Ltac keep_ok :=
  simpl;
  repeat match goal with
    | |- store_ok (<[_ := _]> _) => apply store_ok_insert
    | |- context [get_temperature ?k ?n ?r ?c ?u] =>
        let H := fresh "Ht" in
        assert (H : manual_ok (get_temperature k n r c u).1.2)
          by (apply get_temperature_ok; by_manual_ok);
        destruct (get_temperature k n r c u) as [[? ?] ?]; simpl in H |- *
    | |- context [match ?x with _ => _ end] => destruct x eqn:?; simpl
    end;
  try assumption; try by_manual_ok.

Lemma profile_flow_keeps_store_ok (lower strip : string -> string)
    (today : Date) (uid : Z) (text : string) (USERS : gmap Z User) :
  store_ok USERS ->
  store_ok (set_weight today uid text USERS).2
  /\ store_ok (set_height today uid text USERS).2
  /\ store_ok (set_age today uid text USERS).2
  /\ store_ok (set_activity today uid text USERS).2
  /\ store_ok (set_manual_choice lower strip today uid text USERS).2
  /\ store_ok (set_manual_calories today uid text USERS).2.
Proof.
  intros HS.
  unfold set_weight, set_height, set_age, set_activity, set_manual_choice,
    set_manual_calories.
  resolve_user today uid USERS HS.
  repeat split; keep_ok.
  - intros v Hv. discriminate.
  - intros v Hv. simpl in Hv. inversion Hv; subst.
    match goal with
    | H : _ || _ = false |- _ => apply orb_false_iff in H; destruct H as [_ H];
                                 apply Z.leb_gt in H; exact H
    end.
Qed.

Lemma commands_keep_store_ok (key : option string) (lower : string -> string)
    (today : Date) (now : Time) (resp : weather_reply) (uid : Z)
    (args : list string) (text : string) (data : UserData)
    (USERS : gmap Z User) :
  store_ok USERS ->
  store_ok (show_profile key today now resp uid USERS).2
  /\ store_ok (log_water key today now resp uid args USERS).2
  /\ store_ok (log_workout lower today now uid args USERS).2
  /\ store_ok (check_progress key today now resp uid USERS).2
  /\ store_ok (plot_progress key today now resp uid USERS).2
  /\ store_ok (recommend key today now resp uid USERS).2
  /\ store_ok (reset_day today uid USERS).2
  /\ store_ok (log_food_grams today now uid text data USERS).2.
Proof.
  intros HS.
  unfold show_profile, log_water, log_workout, check_progress, plot_progress,
    recommend, reset_day, log_food_grams.
  resolve_user today uid USERS HS.
  repeat split; keep_ok.
Qed.


(** ** Food logging *)

Lemma get_user_same_day today uid (USERS : gmap Z User) u :
  USERS !! uid = Some u -> last_date u = today ->
  get_user today uid USERS = (u, USERS).
Proof.
  intros Hu Hd. unfold get_user. rewrite Hu. simpl.
  destruct (decide (last_date u <> today)); [contradiction|].
  f_equal. by apply insert_id.
Qed.

Lemma Qle_bool_pos_false (q : Q) : (0 < q)%Q -> Qle_bool q 0 = false.
Proof.
  intros H. destruct (Qle_bool q 0) eqn:E; [|reflexivity].
  apply Qle_bool_iff in E. exfalso. eapply Qlt_not_le; eassumption.
Qed.

Lemma double_get_user_same_day today uid (USERS : gmap Z Rounded.User) u :
  USERS !! uid = Some u -> Rounded.last_date u = today ->
  Rounded.get_user today uid USERS = (u, USERS).
Proof.
  intros Hu Hd. unfold Rounded.get_user. rewrite Hu. simpl.
  destruct (decide (Rounded.last_date u <> today)); [contradiction|].
  f_equal. by apply insert_id.
Qed.

Lemma double_get_user_other today uid uid' (USERS : gmap Z Rounded.User) :
  uid <> uid' -> (Rounded.get_user today uid USERS).2 !! uid' = USERS !! uid'.
Proof. intros Hne. unfold Rounded.get_user; simpl. by rewrite lookup_insert_ne. Qed.

Lemma gt_int_not_le (g : Double.float) :
  Double.gt_int g 0 = true -> Double.le_int g 0 = false.
Proof.
  destruct g as [s|s| |s m e]; simpl; try discriminate.
  - by destruct s.
  - unfold Qlt_bool. intros H. by apply negb_true_iff in H.
Qed.

Lemma double_log_food_grams_accepts today now uid text data
    (USERS : gmap Z Rounded.User) g k old :
  Rounded.parse_float text = Some g -> Double.le_int g 0 = false ->
  Rounded.food_kcal data = Some k ->
  Rounded.as_float (Rounded.logged_calories (Rounded.get_user today uid USERS).1)
  = Some old ->
  Rounded.log_food_grams today now uid text data USERS
  = Some (END, Rounded.MsgFoodLogged (Rounded.food_name data) (consumed_kcal k g),
          Rounded.mkUserData None None,
          <[uid := with_food_entry now old (consumed_kcal k g)
                     (Rounded.get_user today uid USERS).1]>
            (Rounded.get_user today uid USERS).2).
Proof.
  intros Hp Hg Hk Ho. unfold Rounded.log_food_grams.
  rewrite Hp, Hg.
  destruct (Rounded.get_user today uid USERS) as [u US]. simpl in Ho.
  rewrite Hk, Ho. reflexivity.
Qed.

Lemma double_parse_250 : Rounded.parse_float "250" = Some (Double.lit 250).
Proof. vm_compute. reflexivity. Qed.

Lemma double_parse_150 : Rounded.parse_float "150" = Some (Double.lit 150).
Proof. vm_compute. reflexivity. Qed.

Lemma consumed_250_150 :
  consumed_kcal (Double.lit 250) (Double.lit 150) = Double.lit 375.
Proof. vm_compute. reflexivity. Qed.

(** The formula in exact arithmetic fails for the density "129.2" and the
    amount "250" on a fresh record: the accumulator becomes
    322.99999999999994, which is not 129.2 * 250 / 100 for the number
    that the double 129.2 stands for (nor for the decimal 129.2). *)
Lemma food_entry_is_rounded : ~ food_entry_is_exact.
Proof.
  intros H.
  pose (k := Double.of_ratio false 1292 10).
  pose (g := Double.lit 250).
  pose (today := "2024-05-01"%string).
  pose (data := Rounded.mkUserData (Some "bread"%string) (Some k)).
  pose (u' := with_food_entry 0 (Double.lit 0) (consumed_kcal k g)
                (Rounded.new_user today)).
  specialize (H today 0 1 "250"%string data ∅ g k
                (END, Rounded.MsgFoodLogged (Some "bread"%string) (consumed_kcal k g),
                 Rounded.mkUserData None None,
                 <[1 := u']> (<[1 := Rounded.new_user today]> ∅)) u').
  assert (H1 : Rounded.parse_float "250" = Some g) by exact double_parse_250.
  assert (H2 : Double.gt_int g 0 = true) by (vm_compute; reflexivity).
  assert (H3 : Double.is_finite g = true) by (vm_compute; reflexivity).
  assert (H4 : Double.is_finite k = true) by (vm_compute; reflexivity).
  assert (H5 : Rounded.food_kcal data = Some k) by reflexivity.
  specialize (H H1 H2 H3 H4 H5).
  rewrite (double_log_food_grams_accepts today 0 1 "250" data ∅ g k
             (Double.lit 0) H1 (gt_int_not_le g H2) H5) in H by reflexivity.
  specialize (H eq_refl (lookup_insert_eq _ _ _)).
  vm_compute in H. discriminate H.
Qed.

(** The same entry as the user types it: the amount logged for the
    density "129.2" and the amount "250" lies below 323, the value of
    129.2 * 250 / 100 in decimals, and below the value of the formula
    at the number the double 129.2 stands for. *)
Example food_entry_examples :
  Rounded.parse_float "129.2" = Some (Double.of_ratio false 1292 10)
  /\ (Double.value (consumed_kcal (Double.of_ratio false 1292 10)
                      (Double.lit 250))
      < Double.value (Double.of_ratio false 1292 10) * 250 / 100)%Q
  /\ (Double.value (Double.of_ratio false 1292 10) * 250 / 100 < 323)%Q.
Proof. repeat split; vm_compute; reflexivity. Qed.

(** C8, as the code has it. At the grams prompt, a parsed amount [g]
    that passes the check (it is not [g <= 0]: so [g > 0], an infinity
    included, or a NaN) with a captured energy density [k] adds
    [k*g/100.0], each operation rounded to nearest in double precision,
    to the logged calories of the resolved record by a rounded
    addition, appends exactly one food event with the amount
    [k*g/100.0], changes nothing else in the store, clears the captured
    fields and ends the session.  In particular, when the name lookup
    fails, the manual density "250" followed by the amount "150" gives
    375.0 exactly: one food event of 375.0 is appended, 375.0 is added
    to the accumulator (which is 375.0 on a fresh ledger), and logged
    water and burned calories stay as they were. *)
Theorem food_flow_logs_rounded :
  (forall today now uid text data (USERS : gmap Z Rounded.User) g k old,
      Rounded.parse_float text = Some g -> Double.le_int g 0 = false ->
      Rounded.food_kcal data = Some k ->
      let u := (Rounded.get_user today uid USERS).1 in
      Rounded.as_float (Rounded.logged_calories u) = Some old ->
      exists out,
        Rounded.log_food_grams today now uid text data USERS = Some out
        /\ out.1.1.1 = END
        /\ out.1.1.2
           = Rounded.MsgFoodLogged (Rounded.food_name data) (consumed_kcal k g)
        /\ out.1.2 = Rounded.mkUserData None None
        /\ out.2 !! uid = Some (with_food_entry now old (consumed_kcal k g) u)
        /\ (forall uid', uid <> uid' -> out.2 !! uid' = USERS !! uid'))
  /\ (forall lower strip today now uid asked fresp data
             (USERS : gmap Z Rounded.User) u old,
         Rounded.fetch_food_kcal lower (strip asked) fresp = None ->
         USERS !! uid = Some u -> Rounded.last_date u = today ->
         Rounded.as_float (Rounded.logged_calories u) = Some old ->
         let s1 := Rounded.log_food_name lower strip asked fresp data in
         let s2 := Rounded.log_food_kcal_manual "250" s1.2 in
         let s3 := Rounded.log_food_grams today now uid "150" s2.2 USERS in
         s1.1.1 = Next FOOD_KCAL_MANUAL
         /\ s2.1.1 = Next FOOD_GRAMS
         /\ exists out u',
             s3 = Some out
             /\ out.1.1.1 = END
             /\ out.2 !! uid = Some u'
             /\ Rounded.logged_calories u'
                = Rounded.Flt (Double.add old (Double.lit 375))
             /\ (Rounded.logged_calories u = Rounded.Int 0 ->
                 Rounded.logged_calories u' = Rounded.Flt (Double.lit 375))
             /\ Rounded.history u'
                = Rounded.history u
                  ++ [Rounded.mkEvent now food (Rounded.Flt (Double.lit 375))]
             /\ Rounded.logged_water u' = Rounded.logged_water u
             /\ Rounded.burned_calories u' = Rounded.burned_calories u).
Proof.
  split.
  - intros today now uid text data USERS g k old Hp Hg Hk u Ho. subst u.
    eexists. split.
    { exact (double_log_food_grams_accepts today now uid text data USERS g k old
               Hp Hg Hk Ho). }
    simpl. repeat split; try reflexivity.
    + apply lookup_insert_eq.
    + intros uid' Hne. rewrite lookup_insert_ne by done.
      by apply double_get_user_other.
  - intros lower strip today now uid asked fresp data USERS u old Hfail Hu Hd Ho
      s1 s2 s3.
    assert (E1 : s1 = (Next FOOD_KCAL_MANUAL, Rounded.MsgAskKcal,
                       Rounded.mkUserData (Some (strip asked))
                         (Rounded.food_kcal data))).
    { subst s1. unfold Rounded.log_food_name, Rounded.food_lookup_step.
      by rewrite Hfail. }
    assert (E2 : s2 = (Next FOOD_GRAMS, Rounded.MsgAskGrams,
                       Rounded.mkUserData (Some (strip asked))
                         (Some (Double.lit 250)))).
    { subst s2. rewrite E1. unfold Rounded.log_food_kcal_manual.
      rewrite double_parse_250. reflexivity. }
    assert (E3 : s3 = Some (END,
                       Rounded.MsgFoodLogged (Some (strip asked)) (Double.lit 375),
                       Rounded.mkUserData None None,
                       <[uid := with_food_entry now old (Double.lit 375) u]>
                         USERS)).
    { subst s3. rewrite E2.
      rewrite (double_log_food_grams_accepts today now uid "150" _ USERS
                 (Double.lit 150) (Double.lit 250) old double_parse_150);
        [|reflexivity|reflexivity
         |by rewrite (double_get_user_same_day today uid USERS u Hu Hd)].
      rewrite consumed_250_150.
      by rewrite (double_get_user_same_day today uid USERS u Hu Hd). }
    rewrite E1, E2. cbn [fst snd]. split; [reflexivity|]. split; [reflexivity|].
    eexists _, (with_food_entry now old (Double.lit 375) u).
    split; [exact E3|]. cbn [fst snd].
    split; [reflexivity|]. split; [apply lookup_insert_eq|].
    split; [reflexivity|]. split.
    { intros Hz. rewrite Hz in Ho. simpl in Ho.
      injection Ho as <-. reflexivity. }
    repeat split; reflexivity.
Qed.

Lemma food_flow_logs_rounded_witness :
  let today := "2024-05-01"%string in
  let k := Double.of_ratio false 1292 10 in
  let g := Double.lit 250 in
  let data := Rounded.mkUserData (Some "bread"%string) (Some k) in
  let USERS : gmap Z Rounded.User := ∅ in
  (Rounded.parse_float "250" = Some g /\ Double.le_int g 0 = false
   /\ Rounded.food_kcal data = Some k
   /\ Rounded.as_float
        (Rounded.logged_calories (Rounded.get_user today 1 USERS).1)
      = Some (Double.lit 0))
  /\ (exists out,
        Rounded.log_food_grams today 30 1 "250" data USERS = Some out
        /\ out.2 !! 1
           = Some (with_food_entry 30 (Double.lit 0) (consumed_kcal k g)
                     (Rounded.new_user today)))
  /\ (Rounded.fetch_food_kcal (fun s => s) "kvass"%string
        (Rounded.FoodResponse 404 []) = None
      /\ ({[ 1 := Rounded.new_user today ]} : gmap Z Rounded.User) !! 1
         = Some (Rounded.new_user today)
      /\ Rounded.last_date (Rounded.new_user today) = today
      /\ Rounded.as_float (Rounded.logged_calories (Rounded.new_user today))
         = Some (Double.lit 0))
  /\ (Rounded.log_food_kcal_manual "250"
        (Rounded.log_food_name (fun s => s) (fun s => s) "kvass"
           (Rounded.FoodResponse 404 []) (Rounded.mkUserData None None)).2).1.1
     = Next FOOD_GRAMS.
Proof.
  intros today k g data USERS.
  assert (Hp : Rounded.parse_float "250" = Some g) by exact double_parse_250.
  assert (Hg : Double.le_int g 0 = false) by (vm_compute; reflexivity).
  assert (Hk : Rounded.food_kcal data = Some k) by reflexivity.
  assert (Ho : Rounded.as_float
                 (Rounded.logged_calories (Rounded.get_user today 1 USERS).1)
               = Some (Double.lit 0)) by reflexivity.
  assert (Hf : Rounded.fetch_food_kcal (fun s => s) "kvass"%string
                 (Rounded.FoodResponse 404 []) = None) by reflexivity.
  assert (Hu : ({[ 1 := Rounded.new_user today ]} : gmap Z Rounded.User) !! 1
               = Some (Rounded.new_user today)) by reflexivity.
  assert (Hd : Rounded.last_date (Rounded.new_user today) = today) by reflexivity.
  assert (Hn : Rounded.as_float (Rounded.logged_calories (Rounded.new_user today))
               = Some (Double.lit 0)) by reflexivity.
  split; [auto|]. split.
  - destruct (proj1 food_flow_logs_rounded today 30 1 "250"%string data USERS
                g k (Double.lit 0) Hp Hg Hk Ho) as (out & E & _ & _ & _ & H & _).
    exists out. split; [exact E|exact H].
  - split; [auto|].
    destruct (proj2 food_flow_logs_rounded (fun s => s) (fun s => s) today 30 1
                "kvass"%string (Rounded.FoodResponse 404 [])
                (Rounded.mkUserData None None)
                {[ 1 := Rounded.new_user today ]} (Rounded.new_user today)
                (Double.lit 0) Hf Hu Hd Hn) as (_ & H & _).
    exact H.
Defined.

(** ** Workout logging *)

(** C9. With the gate open, a workout of [m > 0] minutes whose (lowered)
    type is not in the rate table adds [6*m] to the burned calories,
    appends one workout event of that amount and changes nothing else
    in the record; the suggested extra water is [floor(m/30)*200] ml,
    stated in the reply whenever it is not 0; for 65 minutes that is
    390 kcal and 400 ml. *)
Theorem log_workout_unlisted (lower : string -> string) (today : Date)
    (now : Time) (uid : Z) (args : list string) (USERS : gmap Z User) (m : Z) :
  let u := (get_user today uid USERS).1 in
  let out := log_workout lower today now uid args USERS in
  ensure_profile u = true ->
  (2 <= length args)%nat ->
  parse_int (List.last args ""%string) = Some m ->
  0 < m ->
  WORKOUT_KCAL_PER_MIN !! lower (join_space (removelast args)) = None ->
  reported_burned out.1 = Some (6 * m)
  /\ out.2 !! uid = Some (with_workout now (6 * m) u)
  /\ suggested_water out.1 = m / 30 * 200
  /\ out.1 = MsgWorkout (lower (join_space (removelast args))) m (6 * m)
               (if decide (m / 30 * 200 = 0) then None
                else Some (m / 30 * 200))
  /\ (m = 65 ->
      reported_burned out.1 = Some 390 /\ suggested_water out.1 = 400).
Proof.
  intros u out He Hlen Hp Hm Hrate.
  assert (E : out = (MsgWorkout (lower (join_space (removelast args))) m (6 * m)
                       (if decide (m / 30 * 200 = 0) then None
                        else Some (m / 30 * 200)),
                     <[uid := with_workout now (6 * m) u]>
                       (get_user today uid USERS).2)).
  { subst out u. unfold log_workout.
    destruct (get_user today uid USERS) as [u US]. simpl in He |- *.
    rewrite He. simpl.
    assert (Hl : (length args <? 2)%nat = false) by (apply Nat.ltb_ge; lia).
    rewrite Hl, Hp.
    assert (Ht : truthy m = true) by (apply truthy_int_true; lia).
    assert (Hle : (m <=? 0) = false) by (apply Z.leb_gt; lia).
    rewrite Ht, Hle, Hrate. simpl.
    assert (Hx : (if truthy (m / 30 * 200) then Some (m / 30 * 200) else None)
                 = if decide (m / 30 * 200 = 0) then None
                   else Some (m / 30 * 200)).
    { destruct (decide (m / 30 * 200 = 0)) as [H0|H0].
      - apply truthy_int_false in H0. by rewrite H0.
      - apply truthy_int_true in H0. by rewrite H0. }
    rewrite Hx. reflexivity. }
  rewrite E. simpl.
  split; [reflexivity|]. split; [apply lookup_insert_eq|].
  split; [|split; [reflexivity|]].
  - destruct (decide (m / 30 * 200 = 0)) as [H0|H0]; simpl; congruence.
  - intros ->. split; reflexivity.
Qed.

Lemma log_workout_unlisted_witness :
  let today := "2024-05-01"%string in
  let USERS : gmap Z User := {[ 1 := complete_profile ]} in
  let args := ["rock"%string; "climbing"%string; "65"%string] in
  let out := log_workout (fun s => s) today 40 1 args USERS in
  (ensure_profile (get_user today 1 USERS).1 = true
   /\ (2 <= length args)%nat
   /\ parse_int (List.last args ""%string) = Some 65
   /\ 0 < 65
   /\ WORKOUT_KCAL_PER_MIN !! join_space (removelast args) = None)
  /\ out.1 = MsgWorkout "rock climbing" 65 390 (Some 400)
  /\ out.2 !! 1 = Some (with_workout 40 390 complete_profile).
Proof.
  intros today USERS args out.
  assert (He : ensure_profile (get_user today 1 USERS).1 = true)
    by (vm_compute; reflexivity).
  assert (Hlen : (2 <= length args)%nat) by (simpl; lia).
  assert (Hp : parse_int (List.last args ""%string) = Some 65) by reflexivity.
  assert (Hm : 0 < 65) by lia.
  assert (Hr : WORKOUT_KCAL_PER_MIN !! join_space (removelast args) = None)
    by (vm_compute; reflexivity).
  split; [auto 10|].
  destruct (log_workout_unlisted (fun s => s) today 40 1 args USERS 65
              He Hlen Hp Hm Hr) as (_ & Hs & _ & Hr' & _).
  split; [exact Hr' | exact Hs].
Defined.

(** * Further properties *)

Arguments get_user : simpl never.
Arguments get_temperature : simpl never.

(** ** Parsing *)

Lemma digits_stops acc (l : list ascii) :
  match l with c :: _ => is_digit c = false | [] => True end ->
  digits acc 0 l = (acc, 0%nat, l).
Proof.
  destruct l as [|c r]; [reflexivity|]. intros Hc. simpl. rewrite Hc.
  destruct (Ascii.eqb c "_"); [|reflexivity].
  destruct r as [|d r']; [reflexivity|].
  by rewrite andb_false_r.
Qed.

Lemma digitless_head (l : list ascii) :
  digitless l -> match l with c :: _ => is_digit c = false | [] => True end.
Proof. intros H. destruct l; [exact I|]. by inversion H. Qed.

Lemma digitless_lstrip (l : list ascii) : digitless l -> digitless (lstrip l).
Proof.
  induction l as [|c r IH]; intros H; [exact H|]. simpl.
  destruct (is_space c); [|exact H]. apply IH. by inversion H.
Qed.

Lemma digitless_rstrip (l : list ascii) :
  digitless l -> digitless (Double.rstrip_spaces l).
Proof.
  induction l as [|c r IH]; intros H; [exact H|].
  inversion H as [|? ? Hc Hr]; subst. specialize (IH Hr).
  cbn [Double.rstrip_spaces].
  destruct (Double.rstrip_spaces r) as [|d r'].
  - destruct (is_space c); constructor; [exact Hc|constructor].
  - constructor; assumption.
Qed.

Lemma digitless_read_sign (l : list ascii) :
  digitless l -> digitless (read_sign l).2.
Proof.
  intros H. destruct l as [|c r]; [exact H|]. simpl.
  destruct (Ascii.eqb c "-"); [by inversion H|].
  destruct (Ascii.eqb c "+"); [by inversion H|exact H].
Qed.

Lemma special_not_finite neg (l : list ascii) x :
  Double.special neg l = Some x -> Double.is_finite x = false.
Proof.
  unfold Double.special.
  destruct (_ || _); [by intros [= <-]|].
  destruct (String.eqb _ _); [by intros [= <-]|discriminate].
Qed.

Lemma float_of_chars_digitless (l : list ascii) x :
  digitless l -> Double.float_of_chars l = Some x -> Double.is_finite x = false.
Proof.
  intros H. unfold Double.float_of_chars.
  pose proof (digitless_read_sign _ (digitless_rstrip _ (digitless_lstrip _ H)))
    as H1.
  destruct (read_sign (Double.rstrip_spaces (lstrip l))) as [neg l1].
  simpl in H1.
  destruct (Double.special neg l1) as [y|] eqn:Es.
  { intros [= <-]. exact (special_not_finite neg l1 y Es). }
  rewrite (digits_stops 0 l1 (digitless_head _ H1)).
  destruct l1 as [|c r]; [discriminate|].
  destruct (Ascii.eqb c "."); [|discriminate].
  assert (Hr : digitless r) by (by inversion H1).
  rewrite (digits_stops 0 r (digitless_head _ Hr)). discriminate.
Qed.

Lemma digitless_replace_comma (s : string) :
  digitless (list_ascii_of_string s) ->
  digitless (list_ascii_of_string (replace_comma s)).
Proof.
  induction s as [|c r IH]; intros H; [exact H|]. simpl in *.
  inversion H as [|? ? Hc Hr]; subst. constructor; [|by apply IH].
  destruct (Ascii.eqb c ","); [reflexivity | exact Hc].
Qed.

(** X1. An ASCII text without any decimal digit (the empty text,
    letters, a lone sign or separator) is never a number: [parse_int]
    answers [None], and [parse_float] answers [None] or, for the
    spellings of the infinities and of NaN, a value that is not
    finite. *)
Theorem digitless_text_is_no_number (s : string) :
  ascii_text s -> digitless (list_ascii_of_string s) ->
  parse_int s = None
  /\ forall x, Rounded.parse_float s = Some x -> Double.is_finite x = false.
Proof.
  intros _ H.
  pose proof (fun x =>
                float_of_chars_digitless _ x (digitless_replace_comma s H))
    as Hx.
  unfold parse_int, Rounded.parse_float, Double.of_string in *.
  destruct (Double.float_of_chars _) as [y|]; [|by split].
  specialize (Hx y eq_refl). unfold Double.to_int. rewrite Hx.
  split; [reflexivity|]. by intros x [= <-].
Qed.

Lemma digitless_text_is_no_number_witness :
  (ascii_text " -,abc " /\ digitless (list_ascii_of_string " -,abc "))
  /\ parse_int " -,abc " = None /\ parse_int "-Infinity" = None.
Proof.
  assert (Ha : ascii_text " -,abc ")
    by (unfold ascii_text; repeat constructor).
  assert (H : digitless (list_ascii_of_string " -,abc "))
    by (repeat constructor).
  assert (Ha' : ascii_text "-Infinity")
    by (unfold ascii_text; repeat constructor).
  assert (H' : digitless (list_ascii_of_string "-Infinity"))
    by (repeat constructor).
  split; [auto|]. split.
  - exact (proj1 (digitless_text_is_no_number " -,abc " Ha H)).
  - exact (proj1 (digitless_text_is_no_number "-Infinity" Ha' H')).
Defined.

(** Integers below [2^53] are doubles. *)

Lemma digits2_pos_bound (p : positive) (k : Z) :
  0 <= k -> Z.pos p < 2 ^ k -> Z.pos (digits2_pos p) <= k.
Proof.
  revert k. induction p as [p IH|p IH|]; intros k Hk Hp; cbn [digits2_pos].
  - assert (k <> 0) by (intros ->; simpl in Hp; lia).
    replace k with (Z.succ (k - 1)) in Hp by lia.
    rewrite Z.pow_succ_r in Hp by lia.
    specialize (IH (k - 1) ltac:(lia) ltac:(lia)). lia.
  - assert (k <> 0) by (intros ->; simpl in Hp; lia).
    replace k with (Z.succ (k - 1)) in Hp by lia.
    rewrite Z.pow_succ_r in Hp by lia.
    specialize (IH (k - 1) ltac:(lia) ltac:(lia)). lia.
  - assert (k <> 0) by (intros ->; simpl in Hp; lia). lia.
Qed.

Lemma iter_xO_digits (p n : positive) :
  digits2_pos (Pos.iter xO p n) = (digits2_pos p + n)%positive.
Proof.
  induction n as [|n IH] using Pos.peano_ind.
  - simpl. lia.
  - rewrite Pos.iter_succ. cbn [digits2_pos]. rewrite IH. lia.
Qed.

Lemma iter_xO_value (p n : positive) :
  Z.pos (Pos.iter xO p n) = Z.pos p * 2 ^ Z.pos n.
Proof.
  induction n as [|n IH] using Pos.peano_ind.
  - simpl. lia.
  - rewrite Pos.iter_succ, Pos2Z.inj_succ, Z.pow_succ_r by lia.
    rewrite Pos2Z.inj_xO, IH. lia.
Qed.

Lemma Qred_inject_Z (z : Z) : Qred (inject_Z z) = inject_Z z.
Proof.
  destruct z as [|p|p]; [reflexivity| |]; destruct p; reflexivity.
Qed.

Lemma round_aux_canonical (s : bool) (m : positive) (e : Z) :
  Z.pos (digits2_pos m) = 53 -> -1074 <= e <= 971 ->
  binary_round_aux 53 1024 s (Z.pos m) e loc_Exact = S754_finite s m e.
Proof.
  intros Hd He.
  unfold binary_round_aux, shr_fexp, fexp, emin.
  cbn [Zdigits2 shr_record_of_loc]. rewrite Hd.
  replace (Z.max (53 + e - 53) (3 - 1024 - 53) - e) with 0 by lia.
  cbn [shr shr_m loc_of_shr_record round_nearest_even Zdigits2
       shr_record_of_loc].
  rewrite Hd.
  replace (Z.max (53 + e - 53) (3 - 1024 - 53) - e) with 0 by lia.
  cbn [shr shr_m].
  destruct (e <=? 1024 - 53) eqn:L; [reflexivity|].
  apply Z.leb_gt in L. lia.
Qed.

Lemma lit_shape (p : positive) :
  Z.pos p < 2 ^ 53 ->
  exists m e, Double.lit (Z.pos p) = S754_finite false m e
              /\ -52 <= e <= 0 /\ Z.pos m = Z.pos p * 2 ^ (- e).
Proof.
  intros Hp.
  pose proof (digits2_pos_bound p 53 ltac:(lia) Hp) as Hd.
  unfold Double.lit, binary_normalize, binary_round.
  unfold fexp, emin, Double.prec, Double.emax.
  rewrite Z.add_0_r.
  replace (Z.max (Z.pos (digits2_pos p) - 53) (3 - 1024 - 53))
    with (Z.pos (digits2_pos p) - 53) by lia.
  unfold shl_align.
  destruct (Z.pos (digits2_pos p) - 53 - 0) as [|q|q] eqn:E; [|lia|].
  - exists p, 0. split; [|split; [lia|simpl; lia]].
    apply round_aux_canonical; lia.
  - exists (Pos.iter xO p q), (Z.pos (digits2_pos p) - 53).
    split; [|split; [lia|]].
    + apply round_aux_canonical; [|lia]. rewrite iter_xO_digits. lia.
    + rewrite iter_xO_value. f_equal. f_equal. lia.
Qed.

Lemma value_dyadic (s : bool) (m : positive) (e z : Z) :
  e <= 0 -> Z.pos m = z * 2 ^ (- e) ->
  Double.value (S754_finite s m e) = inject_Z (if s then - z else z).
Proof.
  intros He Hm. unfold Double.value.
  destruct (0 <=? e) eqn:L.
  - apply Z.leb_le in L. assert (e = 0) by lia. subst e.
    simpl in Hm. rewrite Z.mul_1_r in Hm. rewrite Z.pow_0_r, Z.mul_1_r.
    f_equal. destruct s; lia.
  - rewrite <- Qred_inject_Z. apply Qred_complete.
    unfold Qeq. cbn [Qnum Qden inject_Z].
    assert (0 < 2 ^ (- e)) by (apply Z.pow_pos_nonneg; lia).
    rewrite Z2Pos.id by lia. destruct s; lia.
Qed.

Lemma lit_exact (z : Z) :
  0 <= z < 2 ^ 53 ->
  Double.is_finite (Double.lit z) = true
  /\ Double.value (Double.lit z) = inject_Z z.
Proof.
  intros Hz. destruct z as [|p|p]; [by split| |lia].
  destruct (lit_shape p ltac:(lia)) as (m & e & -> & He & Hm).
  split; [reflexivity|].
  exact (value_dyadic false m e (Z.pos p) ltac:(lia) Hm).
Qed.

Lemma int_of_float_inject_Z (z : Z) : int_of_float (inject_Z z) = z.
Proof. unfold int_of_float. cbn [Qnum Qden inject_Z]. apply Z.quot_1_r. Qed.

Lemma digit_char_facts (d : nat) :
  (d < 10)%nat ->
  is_digit (digit_char d) = true /\ is_space (digit_char d) = false
  /\ Ascii.eqb (digit_char d) "," = false
  /\ Ascii.eqb (digit_char d) "-" = false
  /\ Ascii.eqb (digit_char d) "+" = false
  /\ digit_val (digit_char d) = Z.of_nat d
  /\ Ascii.eqb (Double.lower_char (digit_char d)) "i" = false
  /\ Ascii.eqb (Double.lower_char (digit_char d)) "n" = false.
Proof.
  intros H. do 10 (destruct d as [|d]; [vm_compute; repeat split; reflexivity|]).
  lia.
Qed.

Lemma digits_cons_digit acc n (c : ascii) (r : list ascii) :
  is_digit c = true ->
  digits acc n (c :: r) = digits (10 * acc + digit_val c) (S n) r.
Proof. intros H. simpl. by rewrite H. Qed.

Lemma lstrip_nonspace (c : ascii) (r : list ascii) :
  is_space c = false -> lstrip (c :: r) = c :: r.
Proof. intros H. simpl. by rewrite H. Qed.

Lemma rstrip_nonspace (l : list ascii) :
  Forall (fun c => is_space c = false) l -> Double.rstrip_spaces l = l.
Proof.
  induction l as [|c r IH]; intros H; [reflexivity|].
  inversion H as [|? ? Hc Hr]; subst. cbn [Double.rstrip_spaces].
  rewrite (IH Hr). destruct r; [by rewrite Hc|reflexivity].
Qed.

Lemma read_sign_plain (c : ascii) (r : list ascii) :
  Ascii.eqb c "-" = false -> Ascii.eqb c "+" = false ->
  read_sign (c :: r) = (false, c :: r).
Proof. intros H1 H2. simpl. by rewrite H1, H2. Qed.

Lemma special_plain neg (c : ascii) (r : list ascii) :
  Ascii.eqb (Double.lower_char c) "i" = false ->
  Ascii.eqb (Double.lower_char c) "n" = false ->
  Double.special neg (c :: r) = None.
Proof.
  intros Hi Hn. unfold Double.special.
  cbn [map string_of_list_ascii String.eqb]. by rewrite Hi, Hn.
Qed.

Lemma replace_comma_plain (l : list ascii) :
  Forall (fun c => Ascii.eqb c "," = false) l ->
  replace_comma (string_of_list_ascii l) = string_of_list_ascii l.
Proof.
  induction l as [|c r IH]; intros H; [reflexivity|].
  inversion H as [|? ? Hc Hr]; subst. simpl. by rewrite Hc, (IH Hr).
Qed.

Lemma digits_numeral (ds : list nat) acc n :
  Forall (fun d => (d < 10)%nat) ds ->
  digits acc n (map digit_char ds)
  = (fold_left (fun acc d => 10 * acc + Z.of_nat d) ds acc,
     (n + length ds)%nat, []).
Proof.
  revert acc n. induction ds as [|d r IH]; intros acc n H.
  - cbn [map fold_left length digits]. by rewrite Nat.add_0_r.
  - inversion H as [|? ? Hd Hr]; subst.
    destruct (digit_char_facts d Hd) as (Hdig & _ & _ & _ & _ & Hval & _).
    rewrite map_cons, (digits_cons_digit _ _ _ _ Hdig), Hval, (IH _ _ Hr).
    cbn [fold_left length]. f_equal. f_equal. lia.
Qed.

Lemma replace_comma_numeral (ds : list nat) :
  Forall (fun d => (d < 10)%nat) ds -> replace_comma (numeral ds) = numeral ds.
Proof.
  intros H. unfold numeral. apply replace_comma_plain.
  induction H as [|d r Hd _ IH]; [constructor|].
  rewrite map_cons. constructor; [|exact IH].
  by destruct (digit_char_facts d Hd) as (_ & _ & Hc & _).
Qed.

Lemma numeral_nonspace (ds : list nat) :
  Forall (fun d => (d < 10)%nat) ds ->
  Forall (fun c => is_space c = false) (map digit_char ds).
Proof.
  induction 1 as [|d r Hd _ IH]; [constructor|].
  rewrite map_cons. constructor; [|exact IH].
  by destruct (digit_char_facts d Hd) as (_ & Hs & _).
Qed.

Lemma fold_digits_nonneg (ds : list nat) (acc : Z) :
  0 <= acc -> 0 <= fold_left (fun acc d => 10 * acc + Z.of_nat d) ds acc.
Proof.
  revert acc. induction ds as [|d r IH]; intros acc H; [exact H|].
  cbn [fold_left]. apply IH. lia.
Qed.

Lemma decimal_integer (z : Z) : 0 <= z -> Double.decimal false z 0 = Double.lit z.
Proof.
  intros H. destruct z as [|p|p]; [reflexivity| |lia].
  unfold Double.decimal. cbn [Z.leb Z.compare]. cbv zeta.
  by rewrite Z.pow_0_r, Z.mul_1_r.
Qed.

Lemma of_string_numeral (ds : list nat) :
  ds <> [] -> Forall (fun d => (d < 10)%nat) ds ->
  Double.of_string (replace_comma (numeral ds))
  = Some (Double.lit (numeral_value ds)).
Proof.
  intros Hne H.
  rewrite (replace_comma_numeral ds H). unfold Double.of_string, numeral.
  rewrite list_ascii_of_string_of_list_ascii.
  pose proof (numeral_nonspace ds H) as Hns.
  pose proof (digits_numeral ds 0 0 H) as Hdig.
  destruct ds as [|d r]; [contradiction|].
  inversion H as [|? ? Hd Hr]; subst.
  destruct (digit_char_facts d Hd) as (_ & Hsp & _ & Hm & Hp & _ & Hi & Hn).
  unfold Double.float_of_chars. rewrite map_cons in *.
  rewrite (lstrip_nonspace _ _ Hsp), (rstrip_nonspace _ Hns).
  rewrite (read_sign_plain _ _ Hm Hp), (special_plain _ _ _ Hi Hn), Hdig.
  cbn [read_exponent length Nat.add Nat.ltb Nat.leb].
  replace (0 - Z.of_nat 0) with 0 by reflexivity.
  f_equal. apply decimal_integer. apply fold_digits_nonneg. lia.
Qed.

(** X2. A plain decimal numeral parses to the double nearest to the
    number it writes: [parse_float] returns that double and [parse_int]
    returns [int()] of it, which is the number itself below [2^53] (and
    9007199254740992 for the numeral 9007199254740993). *)
Theorem numeral_parses_to_nearest_double (ds : list nat) :
  ds <> [] -> Forall (fun d => (d < 10)%nat) ds ->
  Rounded.parse_float (numeral ds) = Some (Double.lit (numeral_value ds))
  /\ parse_int (numeral ds) = Double.to_int (Double.lit (numeral_value ds))
  /\ (numeral_value ds < 2 ^ 53 ->
      parse_int (numeral ds) = Some (numeral_value ds)
      /\ parse_float (numeral ds) = Some (inject_Z (numeral_value ds)))
  /\ parse_int "9007199254740993" = Some 9007199254740992.
Proof.
  intros Hne H. pose proof (of_string_numeral ds Hne H) as E.
  unfold parse_int, parse_float, Rounded.parse_float. rewrite E.
  split; [reflexivity|]. split; [reflexivity|].
  split; [|vm_compute; reflexivity].
  intros Hlt.
  assert (Hz : 0 <= numeral_value ds < 2 ^ 53).
  { split; [|exact Hlt]. apply fold_digits_nonneg. lia. }
  destruct (lit_exact _ Hz) as [Hf Hv].
  unfold Double.to_int. rewrite Hf, Hv, int_of_float_inject_Z. by split.
Qed.

Lemma numeral_parses_to_nearest_double_witness :
  ([2; 5; 0]%nat <> [] /\ Forall (fun d => (d < 10)%nat) [2; 5; 0]%nat
   /\ numeral_value [2; 5; 0]%nat < 2 ^ 53)
  /\ parse_int "250" = Some 250.
Proof.
  assert (Hne : [2; 5; 0]%nat <> []) by discriminate.
  assert (H : Forall (fun d => (d < 10)%nat) [2; 5; 0]%nat)
    by (repeat constructor).
  assert (Hlt : numeral_value [2; 5; 0]%nat < 2 ^ 53) by (vm_compute; reflexivity).
  split; [auto|].
  destruct (numeral_parses_to_nearest_double [2; 5; 0]%nat Hne H)
    as (_ & _ & Hx & _).
  exact (proj1 (Hx Hlt)).
Defined.

(** ** What a request does to the store *)

Lemma edited_resolved today now uid (USERS : gmap Z User) :
  edited today now uid USERS (get_user today uid USERS).2.
Proof.
  right. exists (get_user today uid USERS).1. split; [apply rtc_refl|].
  symmetry. apply insert_id, get_user_stored.
Qed.

Lemma edited_insert today now uid (USERS : gmap Z User) u' :
  rtc (edit now) (get_user today uid USERS).1 u' ->
  edited today now uid USERS (<[uid := u']> (get_user today uid USERS).2).
Proof. intros H. right. eauto. Qed.

Lemma get_temperature_edit key now resp c u :
  rtc (edit now) u (get_temperature key now resp c u).1.2.
Proof.
  unfold get_temperature.
  destruct (negb (truthy c) || negb (truthy key)); [apply rtc_refl|].
  destruct (match last_temp_ts u with Some _ => _ | None => _ end);
    [apply rtc_refl|].
  destruct resp as [|status [temp|]]; try apply rtc_refl.
  destruct (status =? 200); [|apply rtc_refl].
  apply rtc_once. constructor.
Qed.

Lemma guard_positive (z : Z) : negb (truthy z) || (z <=? 0) = false -> 0 < z.
Proof. intros H. apply orb_false_iff in H. destruct H as [_ H]. by apply Z.leb_gt. Qed.

Lemma guard_positive_float (q : Q) :
  negb (truthy q) || Qle_bool q 0 = false -> (0 < q)%Q.
Proof.
  intros H. apply orb_false_iff in H. destruct H as [_ H].
  apply Qnot_le_lt. intros Hle. apply Qle_bool_iff in Hle. congruence.
Qed.

Lemma normalize_sex_ok lower strip text : sex_ok (normalize_sex lower strip text).
Proof.
  unfold normalize_sex, sex_ok. repeat case_bool_decide; auto.
Qed.

Lemma workout_rate_bounds (t : string) :
  3 <= default 6 (WORKOUT_KCAL_PER_MIN !! t) <= 10.
Proof.
  destruct (WORKOUT_KCAL_PER_MIN !! t) as [r|] eqn:E; simpl; [|lia].
  assert (H : map_Forall (fun _ r => 3 <= r <= 10) WORKOUT_KCAL_PER_MIN).
  { unfold WORKOUT_KCAL_PER_MIN. simpl.
    repeat (apply map_Forall_insert_2; [lia|]). apply map_Forall_empty. }
  exact (H t r E).
Qed.

(** Every request leaves the store as it was, or as resolved with the
    caller's record edited. *)
Lemma serve_edited key lower strip today now resp uid req (USERS : gmap Z User) :
  req <> ReqResetDay ->
  edited today now uid USERS (serve key lower strip today now resp uid req USERS).
Proof.
  intros Hreq.
  pose proof (edited_resolved today now uid USERS) as Hres.
  pose proof (edited_insert today now uid USERS) as Hins.
  destruct req as [|args|args| | | | |args fresp data|text data|s text];
    unfold serve.
  - unfold show_profile.
    destruct (get_user today uid USERS) as [u US]; simpl in *.
    destruct (ensure_profile u); simpl; [|exact Hres].
    pose proof (get_temperature_edit key now resp (city u) u) as Ht.
    destruct (get_temperature key now resp (city u) u) as [[t u'] c].
    simpl in *. by apply Hins.
  - unfold log_water.
    destruct (get_user today uid USERS) as [u US]; simpl in *.
    destruct (ensure_profile u); simpl; [|exact Hres].
    destruct args as [|a0 args]; [exact Hres|].
    destruct (parse_int a0) as [n|]; [|exact Hres].
    destruct (negb (truthy n) || (n <=? 0)) eqn:Hg; [exact Hres|].
    apply guard_positive in Hg.
    match goal with
    | |- context [get_temperature key now resp ?c ?v] =>
        pose proof (get_temperature_edit key now resp c v) as Ht;
        destruct (get_temperature key now resp c v) as [[t u'] cs]
    end.
    simpl in *. apply Hins. eapply rtc_l; [|exact Ht]. by constructor.
  - unfold log_workout.
    destruct (get_user today uid USERS) as [u US]; simpl in *.
    destruct (ensure_profile u); simpl; [|exact Hres].
    destruct (length args <? 2)%nat; [exact Hres|].
    destruct (parse_int (List.last args ""%string)) as [m|]; [|exact Hres].
    destruct (negb (truthy m) || (m <=? 0)) eqn:Hg; [exact Hres|].
    apply guard_positive in Hg. simpl. apply Hins. apply rtc_once.
    constructor.
    pose proof (workout_rate_bounds (lower (join_space (removelast args)))).
    nia.
  - unfold check_progress.
    destruct (get_user today uid USERS) as [u US]; simpl in *.
    destruct (ensure_profile u); simpl; [|exact Hres].
    pose proof (get_temperature_edit key now resp (city u) u) as Ht.
    destruct (get_temperature key now resp (city u) u) as [[t u'] c].
    simpl in *. by apply Hins.
  - unfold plot_progress.
    destruct (get_user today uid USERS) as [u US]; simpl in *.
    destruct (ensure_profile u); simpl; [|exact Hres].
    pose proof (get_temperature_edit key now resp (city u) u) as Ht.
    destruct (get_temperature key now resp (city u) u) as [[t u'] c].
    simpl in *.
    destruct (plot_series 0%Q 0%Q (history u')) as [[times ws] cs].
    destruct times; by apply Hins.
  - unfold recommend.
    destruct (get_user today uid USERS) as [u US]; simpl in *.
    destruct (ensure_profile u); simpl; [|exact Hres].
    pose proof (get_temperature_edit key now resp (city u) u) as Ht.
    destruct (get_temperature key now resp (city u) u) as [[t u'] c].
    simpl in *. by apply Hins.
  - contradiction.
  - unfold log_food_start.
    destruct (get_user today uid USERS) as [u US]; simpl in *.
    destruct (ensure_profile u); simpl; [|exact Hres].
    destruct args; exact Hres.
  - unfold log_food_grams.
    destruct (parse_float text) as [g|]; [|by left].
    destruct (Qle_bool g 0); [by left|].
    destruct (get_user today uid USERS) as [u US]; simpl in *.
    destruct (food_kcal data) as [k|]; [|exact Hres].
    simpl. apply Hins. apply rtc_once. constructor.
  - unfold profile_step.
    destruct s; cbn [fst snd].
    + unfold set_weight. destruct (parse_float text) as [w|]; [|by left].
      destruct (negb (truthy w) || Qle_bool w 0) eqn:Hg; [by left|].
      apply guard_positive_float in Hg.
      destruct (get_user today uid USERS) as [u US]; simpl in *.
      apply Hins, rtc_once. by constructor.
    + unfold set_height. destruct (parse_int text) as [h|]; [|by left].
      destruct (negb (truthy h) || (h <=? 0)) eqn:Hg; [by left|].
      apply guard_positive in Hg.
      destruct (get_user today uid USERS) as [u US]; simpl in *.
      apply Hins, rtc_once. by constructor.
    + unfold set_age. destruct (parse_int text) as [a|]; [|by left].
      destruct (negb (truthy a) || (a <=? 0)) eqn:Hg; [by left|].
      apply guard_positive in Hg.
      destruct (get_user today uid USERS) as [u US]; simpl in *.
      apply Hins, rtc_once. by constructor.
    + unfold set_sex.
      destruct (get_user today uid USERS) as [u US]; simpl in *.
      apply Hins, rtc_once. constructor.
      destruct (decide (strip text <> "-"%string));
        [apply normalize_sex_ok | by left].
    + unfold set_activity. destruct (parse_int text) as [m|]; [|by left].
      destruct (m <? 0) eqn:Hg; [by left|]. apply Z.ltb_ge in Hg.
      destruct (get_user today uid USERS) as [u US]; simpl in *.
      apply Hins, rtc_once. by constructor.
    + unfold set_city.
      destruct (get_user today uid USERS) as [u US]; simpl in *.
      apply Hins, rtc_once. constructor.
    + unfold set_manual_choice. case_bool_decide; [by left|].
      destruct (get_user today uid USERS) as [u US]; simpl in *.
      apply Hins, rtc_once. constructor.
    + unfold set_manual_calories. destruct (parse_int text) as [v|]; [|by left].
      destruct (negb (truthy v) || (v <=? 0)) eqn:Hg; [by left|].
      apply guard_positive in Hg.
      destruct (get_user today uid USERS) as [u US]; simpl in *.
      apply Hins, rtc_once. by constructor.
Qed.

Lemma serve_reset key lower strip today now resp uid (USERS : gmap Z User) :
  serve key lower strip today now resp uid ReqResetDay USERS
  = <[uid := clear_day today (get_user today uid USERS).1]>
      (get_user today uid USERS).2.
Proof.
  unfold serve, reset_day. by destruct (get_user today uid USERS).
Qed.

Lemma reset_or_not (req : Request) : req = ReqResetDay \/ req <> ReqResetDay.
Proof. destruct req; (by left) || (by right). Qed.

(** A property of records that holds of a new record and survives the
    daily reset and every edit holds throughout the store after any
    request. *)
Lemma serve_preserves (P : User -> Prop) key lower strip today now resp uid req
    (USERS : gmap Z User) :
  P (new_user today) ->
  (forall u, P u -> P (clear_day today u)) ->
  (forall u u', P u -> edit now u u' -> P u') ->
  map_Forall (fun _ u => P u) USERS ->
  map_Forall (fun _ u => P u)
    (serve key lower strip today now resp uid req USERS).
Proof.
  intros Hnew Hclear Hedit HS.
  assert (Hu : P (get_user today uid USERS).1).
  { unfold get_user; simpl.
    assert (H0 : P (default (new_user today) (USERS !! uid))).
    { destruct (USERS !! uid) as [u|] eqn:E; simpl; [exact (HS uid u E)|exact Hnew]. }
    destruct (decide _); [by apply Hclear | exact H0]. }
  assert (HUS : map_Forall (fun _ u => P u) (get_user today uid USERS).2).
  { unfold get_user at 1; simpl. by apply map_Forall_insert_2. }
  destruct (reset_or_not req) as [-> |Hreq].
  - rewrite serve_reset. apply map_Forall_insert_2; [by apply Hclear | exact HUS].
  - destruct (serve_edited key lower strip today now resp uid req USERS Hreq)
      as [-> |[u' [Hrtc ->]]]; [exact HS|].
    apply map_Forall_insert_2; [|exact HUS].
    induction Hrtc as [|x y z Hxy _ IH]; [exact Hu|]. apply IH.
    by eapply Hedit.
Qed.

(** X3. A request of one user never touches the record of another, and
    no request removes a user from the store. *)
Theorem serve_isolated key lower strip today now resp uid req
    (USERS : gmap Z User) (uid' : Z) :
  (uid <> uid' ->
   serve key lower strip today now resp uid req USERS !! uid' = USERS !! uid')
  /\ (is_Some (USERS !! uid') ->
      is_Some (serve key lower strip today now resp uid req USERS !! uid')).
Proof.
  assert (Hshape : serve key lower strip today now resp uid req USERS = USERS
                   \/ exists u', serve key lower strip today now resp uid req USERS
                                 = <[uid := u']> (get_user today uid USERS).2).
  { destruct (reset_or_not req) as [-> |Hreq].
    - right. rewrite serve_reset. eauto.
    - destruct (serve_edited key lower strip today now resp uid req USERS Hreq)
        as [H|[u' [_ H]]]; eauto. }
  split.
  - intros Hne. destruct Hshape as [-> |[u' ->]]; [reflexivity|].
    rewrite lookup_insert_ne by done. by apply get_user_other.
  - intros Hin. destruct Hshape as [-> |[u' ->]]; [exact Hin|].
    destruct (decide (uid = uid')) as [-> |Hne].
    + rewrite lookup_insert_eq. eauto.
    + rewrite lookup_insert_ne by done. by rewrite get_user_other.
Qed.

Lemma serve_isolated_witness :
  let USERS : gmap Z User :=
    <[2 := profile_without_activity]> {[ 1 := complete_profile ]} in
  let USERS' :=
    serve (Some "key"%string) (fun s => s) (fun s => s) "2024-05-02"%string 50
      WeatherRaises 1 (ReqLogWater ["300"%string]) USERS in
  (1 <> 2 /\ is_Some (USERS !! 1))
  /\ USERS' !! 2 = Some profile_without_activity
  /\ is_Some (USERS' !! 1).
Proof.
  intros USERS USERS'.
  assert (Hne : 1 <> 2) by lia.
  assert (Hin : is_Some (USERS !! 1)) by (eexists; reflexivity).
  split; [auto|]. split.
  - exact (proj1 (serve_isolated (Some "key"%string) (fun s => s) (fun s => s)
                    "2024-05-02"%string 50 WeatherRaises 1
                    (ReqLogWater ["300"%string]) USERS 2) Hne).
  - exact (proj2 (serve_isolated (Some "key"%string) (fun s => s) (fun s => s)
                    "2024-05-02"%string 50 WeatherRaises 1
                    (ReqLogWater ["300"%string]) USERS 1) Hin).
Defined.

(** ** Invariants of the store *)

Lemma entries_ok_edit now u u' : entries_ok u -> edit now u u' -> entries_ok u'.
Proof.
  intros (Hh & Ha & Hs & Hm & Hv) He.
  destruct He; repeat split; simpl; try assumption;
    try (intros ? [= <-]; assumption); try discriminate.
Qed.

(** X4. Whatever the requests, the store only ever holds integer
    entries that passed the prompts' checks: a stored height, age or
    manual calorie goal is positive, stored activity minutes are not
    negative, and the stored sex is male, female or unset. *)
Theorem serve_keeps_entries_ok key lower strip today now resp uid req
    (USERS : gmap Z User) :
  map_Forall (fun _ u => entries_ok u) USERS ->
  map_Forall (fun _ u => entries_ok u)
    (serve key lower strip today now resp uid req USERS).
Proof.
  apply serve_preserves.
  - repeat split; try discriminate. by left.
  - intros u H. exact H.
  - apply entries_ok_edit.
Qed.

Lemma serve_keeps_entries_ok_witness :
  let USERS : gmap Z User := {[ 1 := complete_profile ]} in
  map_Forall (fun _ u => entries_ok u) USERS
  /\ map_Forall (fun _ u => entries_ok u)
       (serve None (fun s => s) (fun s => s) "2024-05-01"%string 50
          WeatherRaises 1 (ReqProfileText HEIGHT "181") USERS).
Proof.
  intros USERS.
  assert (H : map_Forall (fun _ u => entries_ok u) USERS).
  { apply map_Forall_singleton. unfold complete_profile.
    repeat split; simpl; try (intros ? [= <-]); try reflexivity;
      try discriminate; try lia.
    right. by left. }
  split; [exact H|].
  exact (serve_keeps_entries_ok None (fun s => s) (fun s => s)
           "2024-05-01"%string 50 WeatherRaises 1
           (ReqProfileText HEIGHT "181") USERS H).
Defined.

(** X5. For a profile that passed the prompts' checks the gate is open
    exactly when weight, height and age are set and the activity
    minutes are set to a positive number. *)
Theorem gate_of_checked_profile (u : User) :
  profile_ok u ->
  (ensure_profile u = true <->
   is_Some (weight u) /\ is_Some (height u) /\ is_Some (age u)
   /\ exists m, activity u = Some m /\ 0 < m).
Proof.
  intros (Hw & Hh & Ha & _ & Hm & _). rewrite ensure_profile_true_iff. split.
  - intros ([w [Ew _]] & [h [Eh _]] & [a [Ea _]] & [m [Em Hnz]]).
    repeat split; eauto. exists m. split; [exact Em|].
    specialize (Hm m Em). lia.
  - intros ([w Ew] & [h Eh] & [a Ea] & [m [Em Hpos]]).
    repeat split.
    + exists w. split; [exact Ew|]. specialize (Hw w Ew). intros E.
      rewrite E in Hw. revert Hw. apply Qlt_irrefl.
    + exists h. split; [exact Eh|]. specialize (Hh h Eh). lia.
    + exists a. split; [exact Ea|]. specialize (Ha a Ea). lia.
    + exists m. split; [exact Em|]. lia.
Qed.

Lemma gate_of_checked_profile_witness :
  let u := set_activity_field (Some 45) profile_without_activity in
  profile_ok u /\ ensure_profile u = true.
Proof.
  intros u.
  assert (H : profile_ok u).
  { repeat split; simpl; try (intros ? [= <-]); try reflexivity;
      try discriminate; try lia.
    right. by left. }
  split; [exact H|].
  apply (proj2 (gate_of_checked_profile u H)).
  repeat split; try (eexists; reflexivity).
  exists 45. split; [reflexivity | lia].
Defined.

Lemma cache_paired_edit now u u' : cache_paired u -> edit now u u' -> cache_paired u'.
Proof.
  unfold cache_paired. intros H He. destruct He; simpl; try exact H.
  split; discriminate.
Qed.

(** X6. The temperature and its fetch timestamp are always stored
    together: after any request, every record has both or neither. *)
Theorem serve_keeps_cache_paired key lower strip today now resp uid req
    (USERS : gmap Z User) :
  map_Forall (fun _ u => cache_paired u) USERS ->
  map_Forall (fun _ u => cache_paired u)
    (serve key lower strip today now resp uid req USERS).
Proof.
  apply serve_preserves.
  - done.
  - intros u H. exact H.
  - apply cache_paired_edit.
Qed.

Lemma serve_keeps_cache_paired_witness :
  let USERS : gmap Z User := {[ 1 := complete_profile ]} in
  map_Forall (fun _ u => cache_paired u) USERS
  /\ map_Forall (fun _ u => cache_paired u)
       (serve (Some "key"%string) (fun s => s) (fun s => s)
          "2024-05-01"%string 50 (WeatherResponse 200 (Some (18 # 1)%Q)) 1
          ReqCheckProgress USERS).
Proof.
  intros USERS.
  assert (H : map_Forall (fun _ u => cache_paired u) USERS)
    by (apply map_Forall_singleton; done).
  split; [exact H|].
  exact (serve_keeps_cache_paired (Some "key"%string) (fun s => s) (fun s => s)
           "2024-05-01"%string 50 (WeatherResponse 200 (Some (18 # 1)%Q)) 1
           ReqCheckProgress USERS H).
Defined.

(** X7. With the two cache entries paired, an enabled lookup made less
    than 30 minutes after the stored timestamp always returns a
    temperature, never absent, and sends nothing. *)
Theorem cache_hit_returns_value key now resp c u last_ts :
  cache_paired u -> ~ empty_text c -> ~ empty_text key ->
  last_temp_ts u = Some last_ts -> now - last_ts < half_hour ->
  exists t, get_temperature key now resp c u = (Some t, u, []).
Proof.
  intros Hp Hc Hk Hts Hlt.
  rewrite get_temperature_enabled by assumption. rewrite Hts.
  apply Z.ltb_lt in Hlt. rewrite Hlt.
  destruct (last_temp u) as [t|] eqn:E; [eauto|].
  apply Hp in E. congruence.
Qed.

Lemma cache_hit_returns_value_witness :
  let u := set_last_temp_ts (Some 100)
             (set_last_temp (Some (23 # 1)%Q) complete_profile) in
  (cache_paired u /\ ~ empty_text (city u) /\ ~ empty_text (Some "key"%string)
   /\ last_temp_ts u = Some 100 /\ 1000 - 100 < half_hour)
  /\ exists t, get_temperature (Some "key"%string) 1000 WeatherRaises (city u) u
               = (Some t, u, []).
Proof.
  intros u.
  assert (Hp : cache_paired u) by (split; discriminate).
  assert (Hc : ~ empty_text (city u)) by (intros [H|H]; discriminate).
  assert (Hk : ~ empty_text (Some "key"%string)) by (intros [H|H]; discriminate).
  assert (Hts : last_temp_ts u = Some 100) by reflexivity.
  assert (Hlt : 1000 - 100 < half_hour) by (unfold half_hour; lia).
  split; [auto 10|].
  exact (cache_hit_returns_value (Some "key"%string) 1000 WeatherRaises (city u)
           u 100 Hp Hc Hk Hts Hlt).
Defined.

Lemma total_app k h e :
  (total k (h ++ [e]) == total k h + (if Kind_eqb (kind e) k then amount e else 0))%Q.
Proof.
  induction h as [|x r IH]; simpl.
  - ring.
  - rewrite IH. ring.
Qed.

Lemma counters_ok_clear today u : counters_ok (clear_day today u).
Proof. unfold counters_ok; simpl. repeat split; try reflexivity; lia. Qed.

Lemma counters_ok_edit now u u' : counters_ok u -> edit now u u' -> counters_ok u'.
Proof.
  intros (Hw & Hb & Hwn & Hbn) He.
  destruct He; unfold counters_ok; simpl; try (repeat split; assumption).
  - rewrite !total_app; simpl. rewrite inject_Z_plus, Hw, <- Hb.
    repeat split; try ring; lia.
  - rewrite !total_app; simpl. rewrite <- Hw, <- Hb.
    repeat split; try ring; lia.
  - rewrite !total_app; simpl. rewrite inject_Z_plus, <- Hw, Hb.
    repeat split; try ring; lia.
Qed.

(** X8. The integer accumulators stay consistent with the history:
    after any request, in every record, logged water is the sum of the
    water events and burned calories the sum of the workout events of
    the history, and neither is negative. *)
Theorem serve_keeps_counters_ok key lower strip today now resp uid req
    (USERS : gmap Z User) :
  map_Forall (fun _ u => counters_ok u) USERS ->
  map_Forall (fun _ u => counters_ok u)
    (serve key lower strip today now resp uid req USERS).
Proof.
  apply serve_preserves.
  - unfold counters_ok; simpl. repeat split; try reflexivity; lia.
  - intros u _. apply counters_ok_clear.
  - apply counters_ok_edit.
Qed.

Lemma serve_keeps_counters_ok_witness :
  let USERS : gmap Z User := {[ 1 := complete_profile ]} in
  map_Forall (fun _ u => counters_ok u) USERS
  /\ map_Forall (fun _ u => counters_ok u)
       (serve None (fun s => s) (fun s => s) "2024-05-01"%string 50
          WeatherRaises 1 (ReqLogWorkout ["swim"%string; "40"%string]) USERS).
Proof.
  intros USERS.
  assert (H : map_Forall (fun _ u => counters_ok u) USERS).
  { apply map_Forall_singleton. unfold counters_ok; simpl.
    repeat split; try reflexivity; lia. }
  split; [exact H|].
  exact (serve_keeps_counters_ok None (fun s => s) (fun s => s)
           "2024-05-01"%string 50 WeatherRaises 1
           (ReqLogWorkout ["swim"%string; "40"%string]) USERS H).
Defined.

(** ** The history *)






Lemma edit_history now u u' :
  edit now u u' ->
  exists l, history u' = history u ++ l /\ Forall (fun e => ts e = now) l.
Proof.
  intros He. destruct He; simpl;
    try (exists []; split; [by rewrite app_nil_r | constructor]);
    eexists [_]; split; try reflexivity; by repeat constructor.
Qed.

Lemma edits_history now u u' :
  rtc (edit now) u u' ->
  exists l, history u' = history u ++ l /\ Forall (fun e => ts e = now) l.
Proof.
  induction 1 as [u|u v w Huv _ (l2 & E2 & F2)].
  - exists []. split; [by rewrite app_nil_r | constructor].
  - destruct (edit_history now u v Huv) as (l1 & E1 & F1).
    exists (l1 ++ l2). split; [by rewrite E2, E1, app_assoc|].
    by apply Forall_app.
Qed.

(** X10. Within a day the history is append-only: for a record already
    resolved today, no request other than [reset_day] removes or alters
    an event; it keeps the history and may add events stamped with the
    current instant. *)
Theorem history_append_only key lower strip today now resp uid req
    (USERS : gmap Z User) (u : User) :
  req <> ReqResetDay -> USERS !! uid = Some u -> last_date u = today ->
  exists u' l,
    serve key lower strip today now resp uid req USERS !! uid = Some u'
    /\ history u' = history u ++ l
    /\ Forall (fun e => ts e = now) l.
Proof.
  intros Hreq Hu Hd.
  destruct (serve_edited key lower strip today now resp uid req USERS Hreq)
    as [-> |[u' [Hrtc ->]]].
  - exists u, []. split; [exact Hu|]. split; [by rewrite app_nil_r|constructor].
  - rewrite (get_user_same_day today uid USERS u Hu Hd) in Hrtc. simpl in Hrtc.
    destruct (edits_history now u u' Hrtc) as (l & E & F).
    exists u', l. split; [apply lookup_insert_eq|]. by split.
Qed.

Lemma history_append_only_witness :
  let USERS : gmap Z User := {[ 1 := complete_profile ]} in
  let req := ReqFoodGrams "200" (mkUserData None (Some (52 # 1)%Q)) in
  (req <> ReqResetDay /\ USERS !! 1 = Some complete_profile
   /\ last_date complete_profile = "2024-05-01"%string)
  /\ exists u' l,
      serve None (fun s => s) (fun s => s) "2024-05-01"%string 50 WeatherRaises
        1 req USERS !! 1 = Some u'
      /\ history u' = history complete_profile ++ l.
Proof.
  intros USERS req.
  assert (Hr : req <> ReqResetDay) by discriminate.
  assert (Hu : USERS !! 1 = Some complete_profile) by reflexivity.
  assert (Hd : last_date complete_profile = "2024-05-01"%string) by reflexivity.
  split; [auto|].
  destruct (history_append_only None (fun s => s) (fun s => s)
              "2024-05-01"%string 50 WeatherRaises 1 req USERS complete_profile
              Hr Hu Hd) as (u' & l & E & Hh & _).
  exists u', l. by split.
Defined.

(** X11. The reporting commands (profile, check_progress, plot,
    recommend) are read-only on the resolved record except for the
    temperature cache: profile, accumulators, history and date are as
    [get_user] returned them, whether the gate is open or not. *)
Theorem reporting_is_read_only key lower strip today now resp uid req
    (USERS : gmap Z User) :
  reporting req ->
  exists u',
    serve key lower strip today now resp uid req USERS !! uid = Some u'
    /\ same_but_cache (get_user today uid USERS).1 u'.
Proof.
  intros Hrep.
  pose proof (get_user_stored today uid USERS) as Hst.
  assert (Hsame : forall u, same_but_cache u u) by (intros u; by repeat split).
  destruct Hrep as [-> |[-> |[-> | ->]]]; unfold serve, show_profile,
    check_progress, plot_progress, recommend;
    destruct (get_user today uid USERS) as [u US]; simpl in *;
    (destruct (ensure_profile u); simpl; [|by eauto]);
    pose proof (get_temperature_frame key now resp (city u) u) as F;
    destruct (get_temperature key now resp (city u) u) as [[t u'] c];
    simpl in F.
  - exists u'. split; [apply lookup_insert_eq | exact F].
  - exists u'. split; [apply lookup_insert_eq | exact F].
  - exists u'. destruct (plot_series 0%Q 0%Q (history u')) as [[times ws] cs].
    destruct times; (split; [apply lookup_insert_eq | exact F]).
  - exists u'. split; [apply lookup_insert_eq | exact F].
Qed.

Lemma reporting_is_read_only_witness :
  let USERS : gmap Z User := {[ 1 := complete_profile ]} in
  reporting ReqRecommend
  /\ exists u',
      serve (Some "key"%string) (fun s => s) (fun s => s) "2024-05-01"%string
        50 (WeatherResponse 200 (Some (33 # 1)%Q)) 1 ReqRecommend USERS !! 1
      = Some u'
      /\ same_but_cache complete_profile u'.
Proof.
  intros USERS.
  assert (H : reporting ReqRecommend) by (right; right; by right).
  split; [exact H|].
  exact (reporting_is_read_only (Some "key"%string) (fun s => s) (fun s => s)
           "2024-05-01"%string 50 (WeatherResponse 200 (Some (33 # 1)%Q)) 1
           ReqRecommend USERS H).
Defined.

(** ** Water logging *)

Lemma log_water_accepts_eq key today now resp uid a0 rest (USERS : gmap Z User) n :
  ensure_profile (get_user today uid USERS).1 = true ->
  parse_int a0 = Some n -> 0 < n ->
  let u1 := with_water now n (get_user today uid USERS).1 in
  let look := get_temperature key now resp (city u1) u1 in
  log_water key today now resp uid (a0 :: rest) USERS
  = (MsgWaterLogged n
       (Z.max (calc_water_goal (weight u1) (activity u1) look.1.1
               - logged_water u1) 0),
     <[uid := look.1.2]> (get_user today uid USERS).2).
Proof.
  intros He Hp Hn u1 look. subst look u1. unfold log_water.
  destruct (get_user today uid USERS) as [u US]. simpl in He |- *.
  rewrite He, Hp. simpl.
  assert (Hg : negb (truthy n) || (n <=? 0) = false).
  { apply orb_false_iff. split.
    - apply negb_false_iff, truthy_int_true. lia.
    - apply Z.leb_gt. lia. }
  rewrite Hg.
  change (log_history now water (inject_Z n)
            (set_logged_water (logged_water u + n) u))
    with (with_water now n u).
  pose proof (get_temperature_frame key now resp (city u) (with_water now n u))
    as (Fw & _ & _ & _ & Fa & _ & _ & Fl & _).
  destruct (get_temperature key now resp (city u) (with_water now n u))
    as [[t u'] c]. simpl in *.
  by rewrite Fw, Fa, Fl.
Qed.



(** X13. The first water entry of a new day starts the ledger afresh:
    for a stored record last resolved on another day, an accepted
    [log_water n] leaves logged water equal to [n], a history of that
    single event, and logged and burned calories at 0. *)
Theorem log_water_on_new_day key today now resp uid a0 rest
    (USERS : gmap Z User) (u : User) n :
  USERS !! uid = Some u -> last_date u <> today ->
  ensure_profile u = true -> parse_int a0 = Some n -> 0 < n ->
  exists u',
    (log_water key today now resp uid (a0 :: rest) USERS).2 !! uid = Some u'
    /\ logged_water u' = n
    /\ history u' = [mkEvent now water (inject_Z n)]
    /\ (logged_calories u' == 0)%Q /\ burned_calories u' = 0
    /\ last_date u' = today.
Proof.
  intros Hu Hd He Hp Hn.
  assert (Hr : (get_user today uid USERS).1 = clear_day today u).
  { unfold get_user. rewrite Hu. simpl. by destruct (decide _). }
  assert (He' : ensure_profile (get_user today uid USERS).1 = true)
    by (by rewrite Hr).
  rewrite (log_water_accepts_eq key today now resp uid a0 rest USERS n He' Hp Hn).
  rewrite Hr. simpl.
  pose proof (get_temperature_frame key now resp (city u)
                (with_water now n (clear_day today u)))
    as (_&_&_&_&_&_&_& Fl & Fc & Fb & Fh & Fd).
  eexists. split; [apply lookup_insert_eq|].
  rewrite Fl, Fc, Fb, Fh, Fd. simpl. repeat split; reflexivity.
Qed.

Lemma log_water_on_new_day_witness :
  let USERS : gmap Z User := {[ 1 := complete_profile ]} in
  (USERS !! 1 = Some complete_profile
   /\ last_date complete_profile <> "2024-05-02"%string
   /\ ensure_profile complete_profile = true
   /\ parse_int "250" = Some 250 /\ 0 < 250)
  /\ exists u',
      (log_water None "2024-05-02"%string 90 WeatherRaises 1 ["250"%string]
         USERS).2 !! 1 = Some u'
      /\ logged_water u' = 250.
Proof.
  intros USERS.
  assert (Hu : USERS !! 1 = Some complete_profile) by reflexivity.
  assert (Hd : last_date complete_profile <> "2024-05-02"%string) by discriminate.
  assert (He : ensure_profile complete_profile = true) by reflexivity.
  assert (Hp : parse_int "250" = Some 250) by reflexivity.
  assert (Hn : 0 < 250) by lia.
  split; [auto 10|].
  destruct (log_water_on_new_day None "2024-05-02"%string 90 WeatherRaises 1
              "250"%string [] USERS complete_profile 250 Hu Hd He Hp Hn)
    as (u' & H1 & H2 & _).
  exists u'. by split.
Defined.

Lemma bad_amount_guard arg :
  bad_amount arg ->
  match parse_int arg with
  | Some n => negb (truthy n) || (n <=? 0) = true
  | None => True
  end.
Proof.
  unfold bad_amount. destruct (parse_int arg) as [n|]; [|done].
  intros H. apply orb_true_iff. right. by apply Z.leb_le.
Qed.

(** X14. With the gate open, [log_water] without an argument answers
    with its usage text and with an unparsable or non-positive amount
    asks for the amount again; [log_workout] with fewer than two
    arguments answers with its usage text and with unparsable or
    non-positive minutes asks for the duration; in all four cases the
    store is the resolved one, nothing is logged. *)
Theorem bad_entries_log_nothing key lower today now resp uid
    (USERS : gmap Z User) :
  ensure_profile (get_user today uid USERS).1 = true ->
  log_water key today now resp uid [] USERS
  = (MsgWaterUsage, (get_user today uid USERS).2)
  /\ (forall a0 rest, bad_amount a0 ->
        log_water key today now resp uid (a0 :: rest) USERS
        = (MsgBadWater, (get_user today uid USERS).2))
  /\ (forall args, (length args < 2)%nat ->
        log_workout lower today now uid args USERS
        = (MsgWorkoutUsage, (get_user today uid USERS).2))
  /\ (forall args, (2 <= length args)%nat ->
        bad_amount (List.last args ""%string) ->
        log_workout lower today now uid args USERS
        = (MsgBadMinutes, (get_user today uid USERS).2)).
Proof.
  intros He. unfold log_water, log_workout.
  destruct (get_user today uid USERS) as [u US]. simpl in *. rewrite He. simpl.
  split; [reflexivity|]. split; [|split].
  - intros a0 rest Hb. apply bad_amount_guard in Hb.
    destruct (parse_int a0); [by rewrite Hb | reflexivity].
  - intros args Hl. apply Nat.ltb_lt in Hl. by rewrite Hl.
  - intros args Hl Hb. apply Nat.ltb_ge in Hl. rewrite Hl.
    apply bad_amount_guard in Hb.
    destruct (parse_int (List.last args ""%string)); [by rewrite Hb | reflexivity].
Qed.

Lemma bad_entries_log_nothing_witness :
  let USERS : gmap Z User := {[ 1 := complete_profile ]} in
  ensure_profile (get_user "2024-05-01"%string 1 USERS).1 = true
  /\ bad_amount "-5"
  /\ log_water None "2024-05-01"%string 60 WeatherRaises 1 ["-5"%string] USERS
     = (MsgBadWater, USERS).
Proof.
  intros USERS.
  assert (He : ensure_profile (get_user "2024-05-01"%string 1 USERS).1 = true)
    by (vm_compute; reflexivity).
  assert (Hb : bad_amount "-5") by (vm_compute; discriminate).
  split; [exact He|]. split; [exact Hb|].
  rewrite (proj1 (proj2 (bad_entries_log_nothing None (fun s => s)
                           "2024-05-01"%string 60 WeatherRaises 1 USERS He))
             "-5"%string [] Hb).
  f_equal.
Defined.

(** ** The conversations *)

(** X15. A prompt that is repeated has changed nothing: when a text sent
    to the profile conversation leaves it in the same state, the store
    is untouched; when the manual-density or the grams prompt of the
    food conversation is repeated, neither the captured fields nor the
    store have changed. *)
Theorem reprompt_changes_nothing lower strip today now uid text
    (USERS : gmap Z User) (data : UserData) :
  (forall s, (profile_step lower strip s today uid text USERS).1 = Next s ->
             (profile_step lower strip s today uid text USERS).2 = USERS)
  /\ ((log_food_kcal_manual text data).1.1 = Next FOOD_KCAL_MANUAL ->
      (log_food_kcal_manual text data).2 = data)
  /\ ((log_food_grams today now uid text data USERS).1.1.1 = Next FOOD_GRAMS ->
      (log_food_grams today now uid text data USERS).1.2 = data
      /\ (log_food_grams today now uid text data USERS).2 = USERS).
Proof.
  split; [|split].
  - intros s. destruct s; unfold profile_step; cbn [fst snd].
    + unfold set_weight. destruct (parse_float text) as [w|]; [|done].
      destruct (negb (truthy w) || Qle_bool w 0); [done|].
      by destruct (get_user today uid USERS).
    + unfold set_height. destruct (parse_int text) as [h|]; [|done].
      destruct (negb (truthy h) || (h <=? 0)); [done|].
      by destruct (get_user today uid USERS).
    + unfold set_age. destruct (parse_int text) as [a|]; [|done].
      destruct (negb (truthy a) || (a <=? 0)); [done|].
      by destruct (get_user today uid USERS).
    + unfold set_sex. by destruct (get_user today uid USERS).
    + unfold set_activity. destruct (parse_int text) as [m|]; [|done].
      destruct (m <? 0); [done|].
      by destruct (get_user today uid USERS).
    + unfold set_city. by destruct (get_user today uid USERS).
    + unfold set_manual_choice. case_bool_decide; [done|].
      by destruct (get_user today uid USERS).
    + unfold set_manual_calories. destruct (parse_int text) as [v|]; [|done].
      destruct (negb (truthy v) || (v <=? 0)); [done|].
      by destruct (get_user today uid USERS).
  - unfold log_food_kcal_manual. destruct (parse_float text) as [k|]; [|done].
    by destruct (Qle_bool k 0).
  - unfold log_food_grams. destruct (parse_float text) as [g|]; [|done].
    destruct (Qle_bool g 0); [done|].
    destruct (get_user today uid USERS) as [u US].
    by destruct (food_kcal data).
Qed.

Lemma reprompt_changes_nothing_witness :
  let USERS : gmap Z User := {[ 1 := profile_without_activity ]} in
  (profile_step (fun s => s) (fun s => s) HEIGHT "2024-05-03"%string 1 "abc"
     USERS).1 = Next HEIGHT
  /\ (profile_step (fun s => s) (fun s => s) HEIGHT "2024-05-03"%string 1 "abc"
        USERS).2 = USERS.
Proof.
  intros USERS.
  assert (H : (profile_step (fun s => s) (fun s => s) HEIGHT
                 "2024-05-03"%string 1 "abc" USERS).1 = Next HEIGHT)
    by reflexivity.
  split; [exact H|].
  exact (proj1 (reprompt_changes_nothing (fun s => s) (fun s => s)
                  "2024-05-03"%string 0 1 "abc"%string USERS
                  (mkUserData None None)) HEIGHT H).
Defined.

(** X16. The profile conversation follows the order of its prompts: a
    text either repeats the prompt of the current state or moves to the
    very next state (the state number grows by one), and the
    conversation can end only from the manual-choice and the
    calorie-value states; the sex and city prompts always move on. *)
Theorem profile_step_order lower strip s today uid text (USERS : gmap Z User) :
  let s' := (profile_step lower strip s today uid text USERS).1 in
  (s' = Next s
   \/ (exists n, next_prompt s = Some n /\ s' = Next n
                 /\ profile_state_number n = profile_state_number s + 1)
   \/ (s' = END /\ (s = MANUAL_CALORIES \/ s = CALORIES_VALUE)))
  /\ (s = SEX \/ s = CITY -> s' <> Next s).
Proof.
  destruct s; unfold profile_step; cbn [fst snd].
  - unfold set_weight. destruct (parse_float text) as [w|]; [|split; [by left|intros [|]; done]].
    destruct (negb (truthy w) || Qle_bool w 0); [split; [by left|intros [|]; done]|].
    destruct (get_user today uid USERS). simpl.
    split; [right; left; by exists HEIGHT | intros [|]; done].
  - unfold set_height. destruct (parse_int text) as [h|]; [|split; [by left|intros [|]; done]].
    destruct (negb (truthy h) || (h <=? 0)); [split; [by left|intros [|]; done]|].
    destruct (get_user today uid USERS). simpl.
    split; [right; left; by exists AGE | intros [|]; done].
  - unfold set_age. destruct (parse_int text) as [a|]; [|split; [by left|intros [|]; done]].
    destruct (negb (truthy a) || (a <=? 0)); [split; [by left|intros [|]; done]|].
    destruct (get_user today uid USERS). simpl.
    split; [right; left; by exists SEX | intros [|]; done].
  - unfold set_sex. destruct (get_user today uid USERS). simpl.
    split; [right; left; by exists ACTIVITY | intros _; done].
  - unfold set_activity. destruct (parse_int text) as [m|]; [|split; [by left|intros [|]; done]].
    destruct (m <? 0); [split; [by left|intros [|]; done]|].
    destruct (get_user today uid USERS). simpl.
    split; [right; left; by exists CITY | intros [|]; done].
  - unfold set_city. destruct (get_user today uid USERS). simpl.
    split; [right; left; by exists MANUAL_CALORIES | intros _; done].
  - unfold set_manual_choice. case_bool_decide; simpl.
    + split; [right; left; by exists CALORIES_VALUE | intros [|]; done].
    + destruct (get_user today uid USERS). simpl.
      split; [right; right; auto | intros [|]; done].
  - unfold set_manual_calories.
    destruct (parse_int text) as [v|]; [|split; [by left|intros [|]; done]].
    destruct (negb (truthy v) || (v <=? 0)); [split; [by left|intros [|]; done]|].
    destruct (get_user today uid USERS). simpl.
    split; [right; right; auto | intros [|]; done].
Qed.

(** ** Progress figures and workouts *)





(** X18. With the gate open, an accepted workout of [m > 0] minutes of
    any type burns [rate * m] kcal, where [rate] is the table's entry for
    the lowered type, or 6 when there is none, and always lies between 3
    and 10; that amount is added to the burned calories with one workout
    event, and extra water is suggested exactly when the workout lasted
    at least 30 minutes. *)
Theorem log_workout_accepts (lower : string -> string) (today : Date)
    (now : Time) (uid : Z) (args : list string) (USERS : gmap Z User) (m : Z) :
  let u := (get_user today uid USERS).1 in
  let out := log_workout lower today now uid args USERS in
  let rate :=
    default 6 (WORKOUT_KCAL_PER_MIN !! lower (join_space (removelast args))) in
  ensure_profile u = true -> (2 <= length args)%nat ->
  parse_int (List.last args ""%string) = Some m -> 0 < m ->
  3 <= rate <= 10
  /\ reported_burned out.1 = Some (rate * m)
  /\ out.2 !! uid = Some (with_workout now (rate * m) u)
  /\ (suggested_water out.1 = 0 <-> m < 30)
  /\ suggested_water out.1 = m / 30 * 200.
Proof.
  intros u out rate He Hlen Hp Hm.
  assert (Hrate : 3 <= rate <= 10) by apply workout_rate_bounds.
  split; [exact Hrate|].
  subst out u. unfold log_workout.
  destruct (get_user today uid USERS) as [u US]. simpl in He |- *.
  rewrite He. simpl.
  assert (Hl : (length args <? 2)%nat = false) by (apply Nat.ltb_ge; lia).
  rewrite Hl, Hp.
  assert (Ht : truthy m = true) by (apply truthy_int_true; lia).
  assert (Hle : (m <=? 0) = false) by (apply Z.leb_gt; lia).
  rewrite Ht, Hle. simpl. fold rate.
  split; [reflexivity|]. split; [apply lookup_insert_eq|].
  assert (Hd : 0 <= m / 30) by (apply Z.div_pos; lia).
  assert (Hz : m / 30 = 0 <-> m < 30).
  { split; intros H.
    - destruct (Z_lt_le_dec m 30) as [|Hge]; [assumption|].
      assert (1 <= m / 30) by (apply Z.div_le_lower_bound; lia). lia.
    - apply Z.div_small. lia. }
  destruct (truthy (m / 30 * 200)) eqn:E; simpl.
  - apply truthy_int_true in E. split; [|reflexivity]. lia.
  - apply truthy_int_false in E. split; [|lia]. lia.
Qed.

Lemma log_workout_accepts_witness :
  let today := "2024-05-01"%string in
  let USERS : gmap Z User := {[ 1 := complete_profile ]} in
  let args := ["—Ö–æ–¥—å–±–∞"%string; "20"%string] in
  let out := log_workout (fun s => s) today 40 1 args USERS in
  (ensure_profile (get_user today 1 USERS).1 = true
   /\ (2 <= length args)%nat
   /\ parse_int (List.last args ""%string) = Some 20 /\ 0 < 20)
  /\ out.2 !! 1 = Some (with_workout 40 80 complete_profile)
  /\ suggested_water out.1 = 0.
Proof.
  intros today USERS args out.
  assert (He : ensure_profile (get_user today 1 USERS).1 = true)
    by (vm_compute; reflexivity).
  assert (Hlen : (2 <= length args)%nat) by (simpl; lia).
  assert (Hp : parse_int (List.last args ""%string) = Some 20) by reflexivity.
  assert (Hm : 0 < 20) by lia.
  split; [auto 10|].
  destruct (log_workout_accepts (fun s => s) today 40 1 args USERS 20
              He Hlen Hp Hm) as (_ & _ & Hs & Hz & _).
  split; [exact Hs|]. apply Hz. lia.
Defined.

(** ** The external services *)

(** X19. A fetched temperature is served from the cache: when an enabled
    lookup with an expired or empty cache gets status 200 with a
    temperature [t], it returns [t] after one request and stores it with
    the current instant; any enabled lookup on the resulting record less
    than 30 minutes later returns the same [t] without a request and
    without changing the record, whatever the service would answer. *)
Theorem fetched_temperature_is_cached key now1 now2 resp2 c1 c2 u t :
  ~ empty_text key -> ~ empty_text c1 -> ~ empty_text c2 ->
  cache_expired now1 u -> now2 - now1 < half_hour ->
  let first := get_temperature key now1 (WeatherResponse 200 (Some t)) c1 u in
  first.1.1 = Some t
  /\ first.2 = [default ""%string c1]
  /\ last_temp first.1.2 = Some t /\ last_temp_ts first.1.2 = Some now1
  /\ get_temperature key now2 resp2 c2 first.1.2 = (Some t, first.1.2, []).
Proof.
  intros Hk Hc1 Hc2 Hexp Hlt first.
  assert (E : first = (Some t,
                       set_last_temp_ts (Some now1) (set_last_temp (Some t) u),
                       [default ""%string c1])).
  { subst first. rewrite get_temperature_enabled by assumption.
    unfold cache_expired in Hexp.
    destruct (last_temp_ts u) as [ts0|]; [|reflexivity].
    assert (H : (now1 - ts0 <? half_hour) = false) by (apply Z.ltb_ge; lia).
    by rewrite H. }
  rewrite E. simpl. repeat split.
  rewrite get_temperature_enabled by assumption. simpl.
  apply Z.ltb_lt in Hlt. by rewrite Hlt.
Qed.

Lemma fetched_temperature_is_cached_witness :
  let key := Some "key"%string in
  let c := Some "Kazan"%string in
  (~ empty_text key /\ ~ empty_text c
   /\ cache_expired 5000 complete_profile /\ 6000 - 5000 < half_hour)
  /\ (get_temperature key 6000 WeatherRaises c
        (get_temperature key 5000 (WeatherResponse 200 (Some (29 # 1)%Q)) c
           complete_profile).1.2).1.1 = Some (29 # 1)%Q.
Proof.
  intros key c.
  assert (Hk : ~ empty_text key) by (intros [H|H]; discriminate).
  assert (Hc : ~ empty_text c) by (intros [H|H]; discriminate).
  assert (He : cache_expired 5000 complete_profile) by exact I.
  assert (Hl : 6000 - 5000 < half_hour) by (unfold half_hour; lia).
  split; [auto|].
  destruct (fetched_temperature_is_cached key 5000 6000 WeatherRaises c c
              complete_profile (29 # 1)%Q Hk Hc Hc He Hl) as (_ & _ & _ & _ & H).
  by rewrite H.
Defined.

Lemma display_name_code asked p :
  default asked
    (or_opt (or_opt (product_name p) (product_name_ru p)) (Some asked))
  = display_name asked p.
Proof.
  unfold display_name, or_opt.
  destruct (product_name p) as [[|c1 s1]|], (product_name_ru p) as [[|c2 s2]|];
    reflexivity.
Qed.

Lemma first_usable_spec lower asked products :
  match first_usable lower asked products with
  | Some f =>
      exists pre p post,
        products = pre ++ p :: post
        /\ Forall (fun q => product_kcal lower q = None) pre
        /\ product_kcal lower p = Some (kcal_per_100g f)
        /\ name f = display_name asked p
  | None => Forall (fun q => product_kcal lower q = None) products
  end.
Proof.
  induction products as [|p r IH]; cbn [first_usable]; [constructor|].
  destruct (product_kcal lower p) as [k|] eqn:E.
  - exists [], p, r. cbn [name kcal_per_100g app].
    split; [reflexivity|]. split; [constructor|]. split; [exact E|].
    apply display_name_code.
  - destruct (first_usable lower asked r) as [f|].
    + destruct IH as (pre & q & post & -> & Hpre & Hq & Hn).
      exists (p :: pre), q, post. split; [reflexivity|].
      split; [by constructor|]. by split.
    + by constructor.
Qed.

(** X20. The food lookup takes the first product with a usable energy
    figure: it fails on an exception, on any status other than 200 and
    when no product of the answer (an empty answer included) has a
    usable figure; otherwise every product before the chosen one has
    none, the density returned is the chosen product's and the name is
    the product's name, else its Russian name, else the name asked
    for. *)
Theorem fetch_food_kcal_first_usable lower asked :
  fetch_food_kcal lower asked FoodRaises = None
  /\ (forall status products,
         status <> 200 ->
         fetch_food_kcal lower asked (FoodResponse status products) = None)
  /\ (forall products,
         match fetch_food_kcal lower asked (FoodResponse 200 products) with
         | Some f =>
             exists pre p post,
               products = pre ++ p :: post
               /\ Forall (fun q => product_kcal lower q = None) pre
               /\ product_kcal lower p = Some (kcal_per_100g f)
               /\ name f = display_name asked p
         | None => Forall (fun q => product_kcal lower q = None) products
         end).
Proof.
  split; [reflexivity|]. split.
  - intros status products Hs. unfold fetch_food_kcal.
    apply Z.eqb_neq in Hs. by rewrite Hs.
  - intros products. apply first_usable_spec.
Qed.

(** ** Food logging after a successful lookup *)

(** X21. What the lookup finds is what gets logged: when the lookup of
    the typed name finds a product, the conversation goes straight to
    the grams prompt with the product's density captured, and a parsed
    amount [g] that passes the check (it is not [g <= 0]) then adds [density * g / 100.0], rounded as the
    doubles round, to the logged calories with one food event of that
    amount and ends the session. *)
Theorem found_food_is_logged_rounded lower strip today now uid asked fresp data text
    (USERS : gmap Z Rounded.User) f g old :
  Rounded.fetch_food_kcal lower (strip asked) fresp = Some f ->
  Rounded.parse_float text = Some g -> Double.le_int g 0 = false ->
  Rounded.as_float (Rounded.logged_calories (Rounded.get_user today uid USERS).1)
  = Some old ->
  let s1 := Rounded.log_food_name lower strip asked fresp data in
  let s2 := Rounded.log_food_grams today now uid text s1.2 USERS in
  s1.1 = (Next FOOD_GRAMS,
          Rounded.MsgFoodFound (Rounded.name f) (Rounded.kcal_per_100g f))
  /\ s1.2 = Rounded.mkUserData (Some (strip asked))
              (Some (Rounded.kcal_per_100g f))
  /\ exists out,
      s2 = Some out
      /\ out.1.1.1 = END
      /\ out.1.2 = Rounded.mkUserData None None
      /\ out.2 !! uid
         = Some (with_food_entry now old
                   (consumed_kcal (Rounded.kcal_per_100g f) g)
                   (Rounded.get_user today uid USERS).1).
Proof.
  intros Hf Hp Hg Ho s1 s2.
  assert (E1 : s1 = (Next FOOD_GRAMS,
                     Rounded.MsgFoodFound (Rounded.name f) (Rounded.kcal_per_100g f),
                     Rounded.mkUserData (Some (strip asked))
                       (Some (Rounded.kcal_per_100g f)))).
  { subst s1. unfold Rounded.log_food_name, Rounded.food_lookup_step.
    by rewrite Hf. }
  subst s2. rewrite E1. cbn [fst snd]. split; [reflexivity|].
  split; [reflexivity|].
  eexists. split.
  { exact (double_log_food_grams_accepts today now uid text
             (Rounded.mkUserData (Some (strip asked))
                (Some (Rounded.kcal_per_100g f))) USERS g
             (Rounded.kcal_per_100g f) old Hp Hg eq_refl Ho). }
  cbn [fst snd]. repeat split. apply lookup_insert_eq.
Qed.

Lemma found_food_is_logged_rounded_witness :
  let apple := Rounded.mkProduct None (Some (Double.lit 218)) (Some "kJ"%string)
                 None (Some ""%string) (Some "apple"%string) in
  let fresp := Rounded.FoodResponse 200
                 [Rounded.mkProduct None None None None None None; apple] in
  let lower := fun s : string => if String.eqb s "kJ" then "kj"%string else s in
  let USERS : gmap Z Rounded.User := ∅ in
  let today := "2024-05-01"%string in
  let k := Double.div (Double.lit 218) (Double.of_ratio false 4184 1000) in
  let f := Rounded.mkFoodInfo "apple" k in
  (Rounded.fetch_food_kcal lower "yabloko" fresp = Some f
   /\ Rounded.parse_float "150" = Some (Double.lit 150)
   /\ Double.le_int (Double.lit 150) 0 = false
   /\ Rounded.as_float
        (Rounded.logged_calories (Rounded.get_user today 1 USERS).1)
      = Some (Double.lit 0))
  /\ exists out,
      Rounded.log_food_grams today 80 1 "150"
        (Rounded.log_food_name lower (fun s => s) "yabloko" fresp
           (Rounded.mkUserData None None)).2 USERS = Some out
      /\ out.2 !! 1
         = Some (with_food_entry 80 (Double.lit 0)
                   (consumed_kcal k (Double.lit 150)) (Rounded.new_user today)).
Proof.
  intros apple fresp lower USERS today k f.
  assert (Hf : Rounded.fetch_food_kcal lower "yabloko" fresp = Some f)
    by reflexivity.
  assert (Hp : Rounded.parse_float "150" = Some (Double.lit 150))
    by exact double_parse_150.
  assert (Hg : Double.le_int (Double.lit 150) 0 = false)
    by (vm_compute; reflexivity).
  assert (Ho : Rounded.as_float
                 (Rounded.logged_calories (Rounded.get_user today 1 USERS).1)
               = Some (Double.lit 0)) by reflexivity.
  split; [auto|].
  destruct (found_food_is_logged_rounded lower (fun s => s) today 80 1
              "yabloko"%string fresp (Rounded.mkUserData None None) "150"%string
              USERS f (Double.lit 150) (Double.lit 0) Hf Hp Hg Ho)
    as (_ & _ & out & E & _ & _ & H).
  exists out. split; [exact E|exact H].
Defined.

(** X22. The grams prompt without a captured density (the conversation
    data lost it) logs nothing: a valid amount ends the session with the
    failure notice, the captured fields are kept as they are and the
    store is the resolved one. *)
Theorem log_food_grams_without_density today now uid text data
    (USERS : gmap Z User) g :
  parse_float text = Some g -> (0 < g)%Q -> food_kcal data = None ->
  log_food_grams today now uid text data USERS
  = (END, MsgFoodFailed, data, (get_user today uid USERS).2).
Proof.
  intros Hp Hg Hk. unfold log_food_grams.
  rewrite Hp, (Qle_bool_pos_false g Hg).
  destruct (get_user today uid USERS) as [u US]. by rewrite Hk.
Qed.

Lemma log_food_grams_without_density_witness :
  let USERS : gmap Z User := {[ 1 := complete_profile ]} in
  let data := mkUserData (Some "soup"%string) None in
  (parse_float "300" = Some (300 # 1)%Q /\ (0 < 300 # 1)%Q
   /\ food_kcal data = None)
  /\ log_food_grams "2024-05-01"%string 80 1 "300" data USERS
     = (END, MsgFoodFailed, data, (get_user "2024-05-01"%string 1 USERS).2).
Proof.
  intros USERS data.
  assert (Hp : parse_float "300" = Some (300 # 1)%Q) by reflexivity.
  assert (Hg : (0 < 300 # 1)%Q) by reflexivity.
  assert (Hk : food_kcal data = None) by reflexivity.
  split; [auto|].
  exact (log_food_grams_without_density "2024-05-01"%string 80 1 "300"%string
           data USERS (300 # 1)%Q Hp Hg Hk).
Defined.

(** ** The whole profile conversation *)

Lemma get_user_after_insert today uid (USERS : gmap Z User) u :
  last_date u = today ->
  get_user today uid (<[uid := u]> USERS) = (u, <[uid := u]> USERS).
Proof.
  intros Hd. apply get_user_same_day; [apply lookup_insert_eq | exact Hd].
Qed.

Lemma run_profile_cons lower strip st today uid t rest (USERS : gmap Z User) :
  run_profile lower strip (Next st) today uid (t :: rest) USERS
  = run_profile lower strip (profile_step lower strip st today uid t USERS).1
      today uid rest (profile_step lower strip st today uid t USERS).2.
Proof.
  cbn [run_profile]. by destruct (profile_step lower strip st today uid t USERS).
Qed.

Lemma guard_of_positive (z : Z) : 0 < z -> negb (truthy z) || (z <=? 0) = false.
Proof.
  intros Hz. apply orb_false_iff. split.
  - apply negb_false_iff, truthy_int_true. lia.
  - apply Z.leb_gt. lia.
Qed.

Lemma step_weight lower strip today uid t (USERS : gmap Z User) w :
  parse_float t = Some w -> (0 < w)%Q ->
  profile_step lower strip WEIGHT today uid t USERS
  = (Next HEIGHT,
     <[uid := set_weight_field (Some w) (get_user today uid USERS).1]>
       (get_user today uid USERS).2).
Proof.
  intros Hp Hw. unfold profile_step, set_weight. rewrite Hp.
  assert (G : negb (truthy w) || Qle_bool w 0 = false).
  { apply orb_false_iff. split.
    - apply negb_false_iff, truthy_float_pos, Hw.
    - by apply Qle_bool_pos_false. }
  rewrite G. by destruct (get_user today uid USERS).
Qed.

Lemma step_height lower strip today uid t (USERS : gmap Z User) h :
  parse_int t = Some h -> 0 < h ->
  profile_step lower strip HEIGHT today uid t USERS
  = (Next AGE,
     <[uid := set_height_field (Some h) (get_user today uid USERS).1]>
       (get_user today uid USERS).2).
Proof.
  intros Hp Hh. unfold profile_step, set_height.
  rewrite Hp, (guard_of_positive h Hh). by destruct (get_user today uid USERS).
Qed.

Lemma step_age lower strip today uid t (USERS : gmap Z User) a :
  parse_int t = Some a -> 0 < a ->
  profile_step lower strip AGE today uid t USERS
  = (Next SEX,
     <[uid := set_age_field (Some a) (get_user today uid USERS).1]>
       (get_user today uid USERS).2).
Proof.
  intros Hp Ha. unfold profile_step, set_age.
  rewrite Hp, (guard_of_positive a Ha). by destruct (get_user today uid USERS).
Qed.

Lemma step_sex lower strip today uid t (USERS : gmap Z User) :
  profile_step lower strip SEX today uid t USERS
  = (Next ACTIVITY,
     <[uid := set_sex_field
                (if decide (strip t <> "-"%string)
                 then normalize_sex lower strip (strip t) else None)
                (get_user today uid USERS).1]>
       (get_user today uid USERS).2).
Proof.
  unfold profile_step, set_sex. by destruct (get_user today uid USERS).
Qed.

Lemma step_activity lower strip today uid t (USERS : gmap Z User) m :
  parse_int t = Some m -> 0 <= m ->
  profile_step lower strip ACTIVITY today uid t USERS
  = (Next CITY,
     <[uid := set_activity_field (Some m) (get_user today uid USERS).1]>
       (get_user today uid USERS).2).
Proof.
  intros Hp Hm. unfold profile_step, set_activity. rewrite Hp.
  assert (G : (m <? 0) = false) by (apply Z.ltb_ge; lia).
  rewrite G. by destruct (get_user today uid USERS).
Qed.

Lemma step_city lower strip today uid t (USERS : gmap Z User) :
  profile_step lower strip CITY today uid t USERS
  = (Next MANUAL_CALORIES,
     <[uid := set_city_field (Some (strip t)) (get_user today uid USERS).1]>
       (get_user today uid USERS).2).
Proof.
  unfold profile_step, set_city. by destruct (get_user today uid USERS).
Qed.

Lemma step_decline lower strip today uid t (USERS : gmap Z User) :
  lower (strip t) ∉ affirmative ->
  profile_step lower strip MANUAL_CALORIES today uid t USERS
  = (END,
     <[uid := set_manual_field None (get_user today uid USERS).1]>
       (get_user today uid USERS).2).
Proof.
  intros Hno. unfold profile_step, set_manual_choice.
  rewrite bool_decide_eq_false_2 by exact Hno.
  by destruct (get_user today uid USERS).
Qed.

(** X23. Answering the seven prompts in order with valid texts and
    declining the manual goal ends the conversation with exactly the
    parsed answers stored: weight, height, age, the normalised sex (unset
    for the skip mark), activity, the stripped city, no manual goal, and
    the ledger and cache of the resolved record untouched; the gate is
    then open if and only if the activity answer was not 0. *)
Theorem profile_conversation_completes lower strip today uid
    (tw th ta tsx tact tc tch : string) (USERS : gmap Z User) w h a m :
  parse_float tw = Some w -> (0 < w)%Q ->
  parse_int th = Some h -> 0 < h ->
  parse_int ta = Some a -> 0 < a ->
  parse_int tact = Some m -> 0 <= m ->
  lower (strip tch) ∉ affirmative ->
  let sx := if decide (strip tsx <> "-"%string)
            then normalize_sex lower strip (strip tsx) else None in
  let final := filled_profile w h a sx m (strip tc) (get_user today uid USERS).1 in
  run_profile lower strip (Next WEIGHT) today uid
    [tw; th; ta; tsx; tact; tc; tch] USERS
  = (END, <[uid := final]> (get_user today uid USERS).2)
  /\ (ensure_profile final = true <-> m <> 0).
Proof.
  intros Hw Hwp Hh Hhp Ha Hap Hm Hmp Hno sx final.
  pose proof (get_user_last_date today uid USERS) as Hd.
  split.
  - subst final sx.
    set (u0 := (get_user today uid USERS).1) in *.
    set (US0 := (get_user today uid USERS).2).
    rewrite run_profile_cons, (step_weight _ _ _ _ _ _ w Hw Hwp).
    fold u0 US0. cbn [fst snd].
    rewrite run_profile_cons, (step_height _ _ _ _ _ _ h Hh Hhp).
    rewrite get_user_after_insert by exact Hd. cbn [fst snd].
    rewrite insert_insert_eq.
    rewrite run_profile_cons, (step_age _ _ _ _ _ _ a Ha Hap).
    rewrite get_user_after_insert by exact Hd. cbn [fst snd].
    rewrite insert_insert_eq.
    rewrite run_profile_cons, step_sex.
    rewrite get_user_after_insert by exact Hd. cbn [fst snd].
    rewrite insert_insert_eq.
    rewrite run_profile_cons, (step_activity _ _ _ _ _ _ m Hm Hmp).
    rewrite get_user_after_insert by exact Hd. cbn [fst snd].
    rewrite insert_insert_eq.
    rewrite run_profile_cons, step_city.
    rewrite get_user_after_insert by exact Hd. cbn [fst snd].
    rewrite insert_insert_eq.
    rewrite run_profile_cons, (step_decline _ _ _ _ _ _ Hno).
    rewrite get_user_after_insert by exact Hd. cbn [fst snd].
    rewrite insert_insert_eq.
    reflexivity.
  - unfold ensure_profile, final, filled_profile.
    cbn [weight height age activity].
    rewrite !truthy_some, (truthy_float_pos w Hwp).
    assert (Th : truthy h = true) by (apply truthy_int_true; lia).
    assert (Ta : truthy a = true) by (apply truthy_int_true; lia).
    rewrite Th, Ta. cbn [andb]. apply truthy_int_true.
Qed.

Lemma profile_conversation_completes_witness :
  let USERS : gmap Z User := ∅ in
  (parse_float "70,5" = Some (141 # 2)%Q /\ (0 < 141 # 2)%Q
   /\ parse_int "175" = Some 175 /\ 0 < 175
   /\ parse_int "30" = Some 30 /\ 0 < 30
   /\ parse_int "45" = Some 45 /\ 0 <= 45
   /\ "no"%string ∉ affirmative)
  /\ run_profile (fun s => s) (fun s => s) (Next WEIGHT) "2024-05-01"%string 9
       ["70,5"; "175"; "30"; "f"; "45"; "Kazan"; "no"]%string USERS
     = (END,
        {[ 9 := mkUser (Some (141 # 2)%Q) (Some 175) (Some 30)
                  (Some "female"%string) (Some 45) (Some "Kazan"%string) None
                  0 0%Q 0 [] None None "2024-05-01"%string ]}).
Proof.
  intros USERS.
  assert (H1 : parse_float "70,5" = Some (141 # 2)%Q) by reflexivity.
  assert (H2 : (0 < 141 # 2)%Q) by reflexivity.
  assert (H3 : parse_int "175" = Some 175) by reflexivity.
  assert (H4 : 0 < 175) by lia.
  assert (H5 : parse_int "30" = Some 30) by reflexivity.
  assert (H6 : 0 < 30) by lia.
  assert (H7 : parse_int "45" = Some 45) by reflexivity.
  assert (H8 : 0 <= 45) by lia.
  assert (H9 : "no"%string ∉ affirmative).
  { unfold affirmative. intros H. apply list_elem_of_In in H. simpl in H.
    destruct H as [H|[H|[H|[]]]]; discriminate. }
  split; [auto 20|].
  rewrite (proj1 (profile_conversation_completes (fun s => s) (fun s => s)
                    "2024-05-01"%string 9 "70,5"%string "175"%string
                    "30"%string "f"%string "45"%string "Kazan"%string
                    "no"%string USERS (141 # 2)%Q 175 30 45
                    H1 H2 H3 H4 H5 H6 H7 H8 H9)).
  f_equal.
Defined.

(** ** The water goal as a function *)





(** X25. Activity counts in full half hours only: in double precision,
    for any weight, temperature and profile, the water goal and the
    calorie goal are the same as for the activity minutes rounded down
    to a multiple of 30. *)
Theorem goals_count_half_hours (w : option Double.float) (h ag : option Z)
    (sx : option string) (a : Z) (t : option Double.float) :
  Rounded.calc_water_goal w (Some (30 * (a / 30))) t
  = Rounded.calc_water_goal w (Some a) t
  /\ Rounded.calc_calorie_goal w h ag sx (Some (30 * (a / 30)))
     = Rounded.calc_calorie_goal w h ag sx (Some a).
Proof.
  assert (E : 30 * (a / 30) / 30 = a / 30)
    by (rewrite Z.mul_comm, Z.div_mul by lia; reflexivity).
  split.
  - unfold Rounded.calc_water_goal. destruct w as [w|]; [|reflexivity].
    destruct (negb (truthy w)); [reflexivity|].
    by rewrite !activity_bonus_code, E.
  - unfold Rounded.calc_calorie_goal.
    destruct w as [w|], h as [h|], ag as [ag|]; try reflexivity.
    destruct (negb (truthy w && truthy h && truthy ag)); [reflexivity|].
    by rewrite !activity_bonus_code, E.
Qed.

(** ** New users *)

(** X26. The first access of an unknown user creates a zero-valued
    record dated today, with no profile and an empty cache, and stores
    it without rolling it over, so the gate is closed for it; resolving
    never loses a user: the users of the store afterwards are the old
    ones and the caller. *)
Theorem get_user_creates (today : Date) (uid : Z) (USERS : gmap Z User) :
  (USERS !! uid = None ->
   get_user today uid USERS
   = (new_user today, <[uid := new_user today]> USERS)
   /\ ensure_profile (get_user today uid USERS).1 = false)
  /\ dom (get_user today uid USERS).2 = {[uid]} ∪ dom USERS.
Proof.
  split.
  - intros Hn. unfold get_user. rewrite Hn. cbn [default new_user last_date].
    destruct (decide (today <> today)); [contradiction|]. by split.
  - unfold get_user. cbn [snd]. apply dom_insert_L.
Qed.

Lemma get_user_creates_witness :
  let USERS : gmap Z User := {[ 1 := complete_profile ]} in
  USERS !! 2 = None
  /\ get_user "2024-05-04"%string 2 USERS
     = (new_user "2024-05-04"%string,
        <[2 := new_user "2024-05-04"%string]> USERS).
Proof.
  intros USERS.
  assert (H : USERS !! 2 = None) by reflexivity.
  split; [exact H|].
  exact (proj1 (proj1 (get_user_creates "2024-05-04"%string 2 USERS) H)).
Defined.

(** ** The weight prompt in double precision *)

Lemma add_infinity_finite (s : bool) (b : Double.float) :
  Double.is_finite b = true ->
  Double.add (S754_infinity s) b = S754_infinity s.
Proof. destruct b; try discriminate; reflexivity. Qed.

Lemma of_int_finite (z : Z) (b : Double.float) :
  Double.of_int z = Some b -> Double.is_finite b = true.
Proof.
  unfold Double.of_int. destruct (Double.is_finite (Double.lit z)) eqn:E;
    [|discriminate].
  by intros [= <-].
Qed.

Lemma lit_heat_finite (t : option Double.float) :
  Double.is_finite (Double.lit (heat_of t)) = true.
Proof.
  unfold heat_of. destruct t as [x|]; [|reflexivity].
  destruct (Double.gt_int x 30); [reflexivity|].
  destruct (Double.gt_int x 25); reflexivity.
Qed.

Lemma calc_water_goal_not_finite (w : Double.float) (a : Z)
    (t : option Double.float) :
  Double.is_finite w = false ->
  Rounded.calc_water_goal (Some w) (Some a) t = None.
Proof.
  intros Hw. unfold Rounded.calc_water_goal. fold (heat_of t).
  destruct w as [s|s| |s m e]; try discriminate.
  - change (truthy (S754_infinity s)) with true. cbn [negb].
    destruct (Double.of_int _) as [b|] eqn:Eb; [|reflexivity].
    replace (Double.mul (S754_infinity s) (Double.lit 30))
      with (S754_infinity s) by (destruct s; vm_compute; reflexivity).
    rewrite (add_infinity_finite s b (of_int_finite _ _ Eb)).
    by rewrite (add_infinity_finite s _ (lit_heat_finite t)).
  - change (truthy S754_nan) with true. cbn [negb].
    destruct (Double.of_int _) as [b|]; reflexivity.
Qed.

(** X27. The weight prompt takes every text that [float] reads as a
    value that is neither zero nor at most 0: it stores the value in
    the caller's record and asks for the height.  A NaN and the
    positive infinity pass this check: the texts "nan" and "inf" are
    stored as weights, and with a weight that is not finite the water
    goal raises instead of returning a number. *)
Theorem set_weight_accepts (today : Date) (uid : Z) (text : string)
    (USERS : gmap Z Rounded.User) (w : Double.float) :
  Rounded.parse_float text = Some w ->
  truthy w = true -> Double.le_int w 0 = false ->
  Rounded.set_weight today uid text USERS
  = (Next HEIGHT, Rounded.MsgAskHeight,
     <[uid := Rounded.set_weight_field (Some w)
                (Rounded.get_user today uid USERS).1]>
       (Rounded.get_user today uid USERS).2)
  /\ Rounded.parse_float "nan" = Some S754_nan
  /\ Rounded.parse_float "inf" = Some (S754_infinity false)
  /\ truthy S754_nan = true /\ Double.le_int S754_nan 0 = false
  /\ (Double.is_finite w = false ->
      forall a t, Rounded.calc_water_goal (Some w) (Some a) t = None).
Proof.
  intros Hp Ht Hl. split.
  - unfold Rounded.set_weight. rewrite Hp, Ht, Hl. cbn [negb orb].
    by destruct (Rounded.get_user today uid USERS).
  - split; [vm_compute; reflexivity|]. split; [vm_compute; reflexivity|].
    split; [reflexivity|]. split; [reflexivity|].
    intros Hw a t. by apply calc_water_goal_not_finite.
Qed.

Lemma set_weight_accepts_witness :
  (Rounded.parse_float "nan" = Some S754_nan
   /\ truthy S754_nan = true /\ Double.le_int S754_nan 0 = false)
  /\ Rounded.weight
       <$> (Rounded.set_weight "2024-05-01"%string 1 "nan" ∅).2 !! 1
     = Some (Some S754_nan).
Proof.
  assert (Hp : Rounded.parse_float "nan" = Some S754_nan)
    by (vm_compute; reflexivity).
  assert (Ht : truthy S754_nan = true) by reflexivity.
  assert (Hl : Double.le_int S754_nan 0 = false) by reflexivity.
  split; [auto|].
  rewrite (proj1 (set_weight_accepts "2024-05-01"%string 1 "nan" ∅ S754_nan
                    Hp Ht Hl)).
  cbn [snd]. by rewrite lookup_insert_eq.
Defined.
